(** * log_tuner: a shallow embedding of [log_tuner.py] and its properties

    The program reads a small sample log, replaces the volatile parts of
    every line by placeholders (the "stub" phase), and then generates a
    large log by drawing stubbed lines at random and refilling the
    placeholders with random data (the "replace" phase).

    The embedding follows the Python 2 source: byte strings are [string],
    integers are [Z] (Python's [/] on integers is floor division),
    exceptions are values of [exn], and everything that touches the random
    generator, the file system or the tuner instance runs in a small
    state-and-error monad [M]. *)

From Stdlib Require Import ZArith Lia Ascii DecimalString.
From stdpp Require Import base tactics option list strings gmap.

Local Open Scope Z_scope.

(** ** Python byte strings *)

Module Str.

Definition len (s : string) : nat := String.length s.

(** [s[n:]] for [0 <= n]. *)
Fixpoint drop (n : nat) (s : string) : string :=
  match n, s with
  | O, _ => s
  | S _, "" => ""
  | S k, String _ s' => drop k s'
  end.

(** [s[:n]] for [0 <= n]. *)
Fixpoint take (n : nat) (s : string) : string :=
  match n, s with
  | O, _ => ""
  | S _, "" => ""
  | S k, String c s' => String c (take k s')
  end.

(** [s[:-n]] for [0 < n]. *)
Definition drop_last (n : nat) (s : string) : string :=
  take (len s - n) s.

(** [s.startswith(p)], returning the rest of [s] after [p]. *)
Fixpoint strip_prefix (p s : string) : option string :=
  match p, s with
  | "", _ => Some s
  | String _ _, "" => None
  | String a p', String b s' =>
      if Ascii.eqb a b then strip_prefix p' s' else None
  end.

(** [sep.join(parts)]. *)
Fixpoint join (sep : string) (parts : list string) : string :=
  match parts with
  | [] => ""
  | [x] => x
  | x :: rest => x +:+ sep +:+ join sep rest
  end.

(** [not s.strip()]: the string is empty or holds white space only. *)
Fixpoint blank (s : string) : bool :=
  match s with
  | "" => true
  | String c s' => Ascii.is_space c && blank s'
  end.

(** [s.replace("", new, count)]: [new] goes before every character and
    at the end, at most [count] times ([count < 0]: no limit). *)
Fixpoint replace_empty (new : string) (count : Z) (s : string) : string :=
  if count =? 0 then s
  else new +:+ match s with
               | "" => ""
               | String c s' => String c (replace_empty new (count - 1) s')
               end.

(** The scan of [s.replace(old, new, count)] for a non-empty [old]:
    left to right, an occurrence found is replaced and the scan resumes
    after it; once [count] replacements are done the rest is copied. *)
Fixpoint replace_scan (fuel : nat) (old new : string) (count : Z)
    (s : string) : string :=
  match fuel with
  | O => s
  | S fuel' =>
      if count =? 0 then s
      else match strip_prefix old s with
           | Some rest => new +:+ replace_scan fuel' old new (count - 1) rest
           | None =>
               match s with
               | "" => ""
               | String c s' => String c (replace_scan fuel' old new count s')
               end
           end
  end.

(** [s.replace(old, new, count)]; Python's [s.replace(old, new)] is
    [replace old new (-1) s]. *)
Definition replace (old new : string) (count : Z) (s : string) : string :=
  match old with
  | "" => replace_empty new count s
  | _ => replace_scan (S (len s)) old new count s
  end.

(** [s.count(sub)] for a non-empty [sub]: occurrences that do not
    overlap, counted left to right. *)
Fixpoint count_scan (fuel : nat) (sub s : string) : nat :=
  match fuel with
  | O => O
  | S fuel' =>
      match strip_prefix sub s with
      | Some rest => S (count_scan fuel' sub rest)
      | None =>
          match s with
          | "" => O
          | String _ s' => count_scan fuel' sub s'
          end
      end
  end.

Definition count (sub s : string) : nat :=
  match sub with
  | "" => S (len s)
  | _ => count_scan (S (len s)) sub s
  end.

(** [s.split(sep, count)] for a non-empty [sep]: the pieces between the
    first [count] occurrences of [sep] ([count < 0]: all of them). *)
Fixpoint split_scan (fuel : nat) (sep : string) (count : Z) (s : string)
    : list string :=
  match fuel with
  | O => [s]
  | S fuel' =>
      if count =? 0 then [s]
      else match strip_prefix sep s with
           | Some rest => "" :: split_scan fuel' sep (count - 1) rest
           | None =>
               match s with
               | "" => [""]
               | String c s' =>
                   match split_scan fuel' sep count s' with
                   | piece :: pieces => String c piece :: pieces
                   | [] => [String c ""]
                   end
               end
           end
  end.

Definition split (sep : string) (count : Z) (s : string) : list string :=
  split_scan (S (len s)) sep count s.

(** [s.find(sub)]: where the first occurrence of [sub] starts. *)
Fixpoint find (sub s : string) : option nat :=
  match strip_prefix sub s with
  | Some _ => Some O
  | None =>
      match s with
      | "" => None
      | String _ s' => S <$> find sub s'
      end
  end.

(** [n] copies of [s], Python's [s * n]. *)
Fixpoint times (n : nat) (s : string) : string :=
  match n with
  | O => ""
  | S k => s +:+ times k s
  end.

End Str.

(** ** Regular expressions of the [re] module

    Only the constructs the program's patterns use.  [matches r s] lists,
    in the order the backtracking matcher tries them, what is left of [s]
    after a match of [r] at its start; the first element is the match
    [re] reports. *)

Module Re.

Inductive regex : Type :=
| Lit (text : string)              (* literal text *)
| Cls (p : ascii -> bool)          (* a character class *)
| Plus (p : ascii -> bool)         (* class+, greedy *)
| Seq (r1 r2 : regex)              (* r1 r2 *)
| Times (n : nat) (r : regex).     (* (?:r){n} *)

(** Greedy [class+]: longest run first, then shorter ones. *)
Fixpoint plus_rests (p : ascii -> bool) (s : string) : list string :=
  match s with
  | "" => []
  | String c s' => if p c then plus_rests p s' ++ [s'] else []
  end.

Fixpoint matches (r : regex) (s : string) : list string :=
  match r with
  | Lit text =>
      match Str.strip_prefix text s with
      | Some rest => [rest]
      | None => []
      end
  | Cls p =>
      match s with
      | String c s' => if p c then [s'] else []
      | "" => []
      end
  | Plus p => plus_rests p s
  | Seq r1 r2 => concat (map (matches r2) (matches r1 s))
  | Times n r' =>
      (fix rep (k : nat) (s0 : string) : list string :=
         match k with
         | O => [s0]
         | S k' => concat (map (rep k') (matches r' s0))
         end) n s
  end.

(** [re.match(r, s)]: the rest after the preferred match. *)
Definition match_at (r : regex) (s : string) : option string :=
  head (matches r s).

(** [re.findall(r, s)] for a pattern without groups (or with one group
    around the whole pattern): the matched texts, left to right, the
    scan resuming after each match.  None of the program's patterns
    matches the empty string; an empty match advances by one
    character. *)
Fixpoint findall_scan (fuel : nat) (r : regex) (s : string) : list string :=
  match fuel with
  | O => []
  | S fuel' =>
      match match_at r s with
      | Some rest =>
          let m := Str.take (Str.len s - Str.len rest) s in
          match m, s with
          | "", "" => [m]
          | "", String _ s' => m :: findall_scan fuel' r s'
          | _, _ => m :: findall_scan fuel' r rest
          end
      | None =>
          match s with
          | "" => []
          | String _ s' => findall_scan fuel' r s'
          end
      end
  end.

Definition findall (r : regex) (s : string) : list string :=
  findall_scan (S (Str.len s)) r s.

(** [re.search(r, s) is not None] *)
Fixpoint search (r : regex) (s : string) : bool :=
  match match_at r s with
  | Some _ => true
  | None =>
      match s with
      | "" => false
      | String _ s' => search r s'
      end
  end.

(** Character classes. *)
Definition digit (c : ascii) : bool :=
  (48 <=? nat_of_ascii c)%nat && (nat_of_ascii c <=? 57)%nat.

Definition lower_a_f (c : ascii) : bool :=
  (97 <=? nat_of_ascii c)%nat && (nat_of_ascii c <=? 102)%nat.

Definition upper_a_f (c : ascii) : bool :=
  (65 <=? nat_of_ascii c)%nat && (nat_of_ascii c <=? 70)%nat.

(** [[0-9a-f]] under [re.IGNORECASE]. *)
Definition hex_ignorecase (c : ascii) : bool :=
  digit c || lower_a_f c || upper_a_f c.

Definition dot : regex := Lit ".".
Definition colon : regex := Lit ":".

(** [r'[0-9]+(?:\.[0-9]+){3}'] *)
Definition ip_address : regex :=
  Seq (Plus digit) (Times 3 (Seq dot (Plus digit))).

(** [r'\d+ additional times in the last \d+ second'] *)
Definition last_seconds : regex :=
  Seq (Plus digit)
    (Seq (Lit " additional times in the last ")
       (Seq (Plus digit) (Lit " second"))).

(** [r'\d{2}:\d{2}:\d{2}\.\d{3}'] *)
Definition wlc_time : regex :=
  Seq (Times 2 (Cls digit))
    (Seq colon
       (Seq (Times 2 (Cls digit))
          (Seq colon
             (Seq (Times 2 (Cls digit))
                (Seq dot (Times 3 (Cls digit))))))).

(** [ur'([0-9a-f]{2}(?::[0-9a-f]{2}){5})'] with [re.IGNORECASE] *)
Definition mac_address : regex :=
  Seq (Times 2 (Cls hex_ignorecase))
    (Times 5 (Seq colon (Times 2 (Cls hex_ignorecase)))).

(** [r'Vlan\d+'] *)
Definition vlan : regex := Seq (Lit "Vlan") (Plus digit).

(** [r'Grp \d+'] *)
Definition grp : regex := Seq (Lit "Grp ") (Plus digit).

End Re.

(** ** Exceptions, and the state the program runs in *)

Inductive exn : Type :=
| ZeroDivisionError
| IndexError
| NameError (name : string)
| IOError
| OSError
| OverflowError
| AttributeError (name : string)
| SystemExit (code : Z)
| GetoptError
| ValueError.

Inductive result (A : Type) : Type :=
| Ok (a : A)
| Raised (e : exn).
Arguments Ok {A} a.
Arguments Raised {A} e.

(** The classes of the module. *)
Inductive klass : Type :=
| LogTuner
| IgkExtremeLogTuner
| CiscoWlcLogTuner
| CiscoIosLogTuner.

Global Instance klass_eq_dec : EqDecision klass.
Proof. solve_decision. Defined.

(** A tuner instance: its class and its attributes.  An attribute a class
    never sets stays at its empty value. *)
Record instance : Type := {
  klass_of : klass;
  _IP_ADDRESS_STUB : string;
  log_file_path : string;
  log_lines : list string;
  common_log_lines : list string;
  _LAST_SECONDS_STUB : string;   (* IgkExtremeLogTuner *)
  _MAC_STUB : string;            (* CiscoWlcLogTuner *)
  _DATETIME_STUB : string;       (* CiscoWlcLogTuner *)
  _random_macs : list string;    (* CiscoWlcLogTuner *)
  _VLAN_STUB : string;           (* CiscoIosLogTuner *)
  _GRP_STUB : string             (* CiscoIosLogTuner *)
}.

Definition blank_instance (k : klass) : instance :=
  {| klass_of := k; _IP_ADDRESS_STUB := ""; log_file_path := "";
     log_lines := []; common_log_lines := []; _LAST_SECONDS_STUB := "";
     _MAC_STUB := ""; _DATETIME_STUB := ""; _random_macs := [];
     _VLAN_STUB := ""; _GRP_STUB := "" |}.

(** The world: the raw output of the random generator ([tape], read at
    [pos]), the files, and the tuner object the methods get as [self]. *)
Record world : Type := {
  tape : nat -> Z;
  pos : nat;
  fs : gmap string string;
  writable : string -> bool;
  obj : instance
}.

Definition M (A : Type) : Type := world -> result A * world.

Global Instance M_ret : MRet M := fun A a w => (Ok a, w).
Global Instance M_bind : MBind M := fun A B f m w =>
  match m w with
  | (Ok a, w') => f a w'
  | (Raised e, w') => (Raised e, w')
  end.

Definition raise {A} (e : exn) : M A := fun w => (Raised e, w).

Definition get_self : M instance := fun w => (Ok (obj w), w).

(** An assignment [self.attr = v]. *)
Definition set_self (f : instance -> instance) : M unit := fun w =>
  (Ok tt,
   {| tape := tape w; pos := pos w; fs := fs w; writable := writable w;
      obj := f (obj w) |}).

Definition next_raw : M Z := fun w =>
  (Ok (tape w (pos w)),
   {| tape := tape w; pos := S (pos w); fs := fs w; writable := writable w;
      obj := obj w |}).

(** [random.randint(a, b)] for [a <= b]: uniform over [a..b]. *)
Definition randint (a b : Z) : M Z :=
  raw ← next_raw; mret (a + raw mod (b - a + 1)).

(** [random.choice(seq)]; an empty sequence raises [IndexError]. *)
Definition choice {A} (xs : list A) : M A :=
  raw ← next_raw;
  match xs !! Z.to_nat (raw mod Z.of_nat (length xs)) with
  | Some x => mret x
  | None => raise IndexError
  end.

(** [for i in range(0, n): body], collecting what the body appends. *)
Fixpoint for_range {A} (n : nat) (body : M A) : M (list A) :=
  match n with
  | O => mret []
  | S k => x ← body; rest ← for_range k body; mret (x :: rest)
  end.

(** *** Files *)

(** [file.readlines()]: the lines with their newline; [cur] is the line
    being read, last character first. *)
Fixpoint readlines_go (cur content : string) : list string :=
  match content with
  | "" => match cur with "" => [] | _ => [String.rev cur] end
  | String c rest =>
      if Ascii.eqb c "010" then String.rev (String c cur) :: readlines_go "" rest
      else readlines_go (String c cur) rest
  end.

Definition readlines (content : string) : list string :=
  readlines_go "" content.

(** [with open(path) as f: f.readlines()] *)
Definition read_file_lines (path : string) : M (list string) := fun w =>
  match fs w !! path with
  | Some content => (Ok (readlines content), w)
  | None => (Raised IOError, w)
  end.

(** [os.stat(path).st_size] *)
Definition stat_st_size (path : string) : M Z := fun w =>
  match fs w !! path with
  | Some content => (Ok (Z.of_nat (Str.len content)), w)
  | None => (Raised OSError, w)
  end.

(** [open(path, 'w')] succeeds: the path is not empty and is one the
    system lets the program create or truncate. *)
Definition can_open_for_writing (w : world) (path : string) : bool :=
  negb (String.eqb path "") && writable w path.

(** [with open(path, 'w') as f: f.writelines(lines)]; [open] raises
    IOError on a path that cannot be opened for writing, and no file is
    changed then. *)
Definition write_file_lines (path : string) (lines : list string) : M unit :=
  fun w =>
    if can_open_for_writing w path then
      (Ok tt,
       {| tape := tape w; pos := pos w;
          fs := <[path := Str.join "" lines]> (fs w);
          writable := writable w; obj := obj w |})
    else (Raised IOError, w).

(** Python's [a / b] on integers (floor division). *)
Definition floordiv (a b : Z) : M Z :=
  if b =? 0 then raise ZeroDivisionError else mret (a / b).

(** ** Numbers as text *)

(** [str(n)], which is also ['%s' % n]. *)
Definition str (n : Z) : string := NilZero.string_of_int (Z.to_int n).

(** ['%0<width>d' % n] for [0 <= n]. *)
Definition zfill (width : nat) (n : Z) : string :=
  let s := str n in Str.times (width - Str.len s) "0" +:+ s.

Definition hex_digit (n : Z) : ascii :=
  if n <? 10 then ascii_of_nat (48 + Z.to_nat n)
  else ascii_of_nat (87 + Z.to_nat n).

(** ['%02x' % n] for [0 <= n <= 255]. *)
Definition hex02 (n : Z) : string :=
  String (hex_digit (n / 16)) (String (hex_digit (n mod 16)) "").

(** ** [datetime] and [timedelta]

    A [datetime] holds its fields, as Python's does.  The program only
    ever adds [timedelta(milliseconds=k)] with [0 <= k]; the sum carries
    whole days into the date and raises [OverflowError] past year 9999.
    All its dates are in year 1900 or later, where [strftime] is
    defined. *)

Record datetime : Type := {
  year : Z; month : Z; day : Z;
  hour : Z; minute : Z; second : Z; microsecond : Z
}.

Definition is_leap (y : Z) : bool :=
  (y mod 4 =? 0) && (negb (y mod 100 =? 0) || (y mod 400 =? 0)).

Definition days_in_month (y m : Z) : Z :=
  if m =? 2 then (if is_leap y then 29 else 28)
  else if (m =? 4) || (m =? 6) || (m =? 9) || (m =? 11) then 30
  else 31.

(** The day after a date, as (year, month, day). *)
Definition next_date (ymd : Z * Z * Z) : Z * Z * Z :=
  let '(y, m, d) := ymd in
  if d <? days_in_month y m then (y, m, d + 1)
  else if m <? 12 then (y, m + 1, 1)
  else (y + 1, 1, 1).

Definition us_per_day : Z := 86400000000.

Definition time_of_day_us (dt : datetime) : Z :=
  ((hour dt * 60 + minute dt) * 60 + second dt) * 1000000 + microsecond dt.

(** The datetime of a date and a time of the day in microseconds. *)
Definition of_date_time (ymd : Z * Z * Z) (t : Z) : datetime :=
  let '(y, m, d) := ymd in
  {| year := y; month := m; day := d;
     hour := t / 3600000000; minute := t / 60000000 mod 60;
     second := t / 1000000 mod 60; microsecond := t mod 1000000 |}.

Definition date_of (dt : datetime) : Z * Z * Z := (year dt, month dt, day dt).

(** The sum [dt + timedelta(milliseconds=ms)] for [0 <= ms], without the
    check of the range: the time of the day advances, and every full day
    moves the date on by one. *)
Definition advance (dt : datetime) (ms : Z) : datetime :=
  let total := time_of_day_us dt + 1000 * ms in
  of_date_time
    (N.iter (Z.to_N (total / us_per_day)) next_date (date_of dt))
    (total mod us_per_day).

(** [dt + timedelta(milliseconds=ms)] for [0 <= ms]. *)
Definition datetime_add (dt : datetime) (ms : Z) : M datetime :=
  let sum := advance dt ms in
  if 9999 <? year sum then raise OverflowError else mret sum.

Definition month_abbr (m : Z) : string :=
  nth (Z.to_nat (m - 1))
    ["Jan"; "Feb"; "Mar"; "Apr"; "May"; "Jun";
     "Jul"; "Aug"; "Sep"; "Oct"; "Nov"; "Dec"] "".

Definition directive (c : ascii) (dt : datetime) : string :=
  match c with
  | "b" => month_abbr (month dt)
  | "d" => zfill 2 (day dt)
  | "m" => zfill 2 (month dt)
  | "Y" => str (year dt)
  | "H" => zfill 2 (hour dt)
  | "M" => zfill 2 (minute dt)
  | "S" => zfill 2 (second dt)
  | "f" => zfill 6 (microsecond dt)
  | _ => String "%" (String c "")
  end%char.

(** [dt.strftime(format)] *)
Fixpoint strftime (format : string) (dt : datetime) : string :=
  match format with
  | "" => ""
  | String "%" (String c rest) => directive c dt +:+ strftime rest dt
  | String c rest => String c (strftime rest dt)
  end.

(** [datetime.strptime("05/10/2017 07:25:58.11", "%m/%d/%Y %H:%M:%S.%f")]:
    [%f] reads ".11" as 110000 microseconds. *)
Definition igk_seed : datetime :=
  {| year := 2017; month := 5; day := 10;
     hour := 7; minute := 25; second := 58; microsecond := 110000 |}.

(** [datetime.strptime("14:14:51.655", "%H:%M:%S.%f")]: the date defaults
    to 1900-01-01. *)
Definition wlc_seed : datetime :=
  {| year := 1900; month := 1; day := 1;
     hour := 14; minute := 14; second := 51; microsecond := 655000 |}.

(** [datetime.strptime("Feb 11 08:05:11.000", "%b %d %H:%M:%S.%f")]: the
    year defaults to 1900. *)
Definition ios_seed : datetime :=
  {| year := 1900; month := 2; day := 11;
     hour := 8; minute := 5; second := 11; microsecond := 0 |}.

(** ** Classes and method resolution *)

Inductive method : Type :=
| m__init__
| m_read_log_lines
| m_gather_common_log_lines
| m_stub_ip_addresses
| m_stub_date_and_time
| m_stub_miscellaneous
| m_generate_log
| m_calculate_required_number_of_lines
| m_replace_ip_addresses_stub
| m_replace_date_and_time_stub
| m_replace_miscellaneous_stub
| m_generate_macs.

Global Instance method_eq_dec : EqDecision method.
Proof. solve_decision. Defined.

(** The methods each class body defines. *)
Definition class_dict (k : klass) : list method :=
  match k with
  | LogTuner =>
      [m__init__; m_read_log_lines; m_gather_common_log_lines;
       m_stub_ip_addresses; m_stub_date_and_time; m_stub_miscellaneous;
       m_generate_log; m_calculate_required_number_of_lines;
       m_replace_ip_addresses_stub; m_replace_date_and_time_stub;
       m_replace_miscellaneous_stub]
  | IgkExtremeLogTuner =>
      [m__init__; m_stub_date_and_time; m_stub_miscellaneous;
       m_replace_date_and_time_stub; m_replace_miscellaneous_stub]
  | CiscoWlcLogTuner =>
      [m__init__; m_generate_macs; m_stub_date_and_time; m_stub_miscellaneous;
       m_replace_date_and_time_stub; m_replace_miscellaneous_stub]
  | CiscoIosLogTuner =>
      [m__init__; m_stub_date_and_time; m_stub_miscellaneous;
       m_replace_date_and_time_stub; m_replace_miscellaneous_stub]
  end.

(** The method resolution order: the class, then its base [LogTuner]. *)
Definition mro (k : klass) : list klass :=
  match k with
  | LogTuner => [LogTuner]
  | _ => [k; LogTuner]
  end.

(** The class whose body provides method [m] for an instance of [k]. *)
Definition resolve (k : klass) (m : method) : option klass :=
  find (fun c => bool_decide (m ∈ class_dict c)) (mro k).

(** The [classes] dictionary of the main program. *)
Definition classes : gmap string klass :=
  <["CiscoIosLogTuner" := CiscoIosLogTuner]>
    (<["CiscoWlcLogTuner" := CiscoWlcLogTuner]>
       (<["IgkExtremeLogTuner" := IgkExtremeLogTuner]> ∅)).

(** ** Attribute assignment *)

Definition set__IP_ADDRESS_STUB (v : string) (o : instance) : instance :=
  {| klass_of := klass_of o; _IP_ADDRESS_STUB := v;
     log_file_path := log_file_path o; log_lines := log_lines o;
     common_log_lines := common_log_lines o;
     _LAST_SECONDS_STUB := _LAST_SECONDS_STUB o; _MAC_STUB := _MAC_STUB o;
     _DATETIME_STUB := _DATETIME_STUB o; _random_macs := _random_macs o;
     _VLAN_STUB := _VLAN_STUB o; _GRP_STUB := _GRP_STUB o |}.

Definition set_log_file_path (v : string) (o : instance) : instance :=
  {| klass_of := klass_of o; _IP_ADDRESS_STUB := _IP_ADDRESS_STUB o;
     log_file_path := v; log_lines := log_lines o;
     common_log_lines := common_log_lines o;
     _LAST_SECONDS_STUB := _LAST_SECONDS_STUB o; _MAC_STUB := _MAC_STUB o;
     _DATETIME_STUB := _DATETIME_STUB o; _random_macs := _random_macs o;
     _VLAN_STUB := _VLAN_STUB o; _GRP_STUB := _GRP_STUB o |}.

Definition set_log_lines (v : list string) (o : instance) : instance :=
  {| klass_of := klass_of o; _IP_ADDRESS_STUB := _IP_ADDRESS_STUB o;
     log_file_path := log_file_path o; log_lines := v;
     common_log_lines := common_log_lines o;
     _LAST_SECONDS_STUB := _LAST_SECONDS_STUB o; _MAC_STUB := _MAC_STUB o;
     _DATETIME_STUB := _DATETIME_STUB o; _random_macs := _random_macs o;
     _VLAN_STUB := _VLAN_STUB o; _GRP_STUB := _GRP_STUB o |}.

Definition set_common_log_lines (v : list string) (o : instance) : instance :=
  {| klass_of := klass_of o; _IP_ADDRESS_STUB := _IP_ADDRESS_STUB o;
     log_file_path := log_file_path o; log_lines := log_lines o;
     common_log_lines := v;
     _LAST_SECONDS_STUB := _LAST_SECONDS_STUB o; _MAC_STUB := _MAC_STUB o;
     _DATETIME_STUB := _DATETIME_STUB o; _random_macs := _random_macs o;
     _VLAN_STUB := _VLAN_STUB o; _GRP_STUB := _GRP_STUB o |}.

Definition set__LAST_SECONDS_STUB (v : string) (o : instance) : instance :=
  {| klass_of := klass_of o; _IP_ADDRESS_STUB := _IP_ADDRESS_STUB o;
     log_file_path := log_file_path o; log_lines := log_lines o;
     common_log_lines := common_log_lines o;
     _LAST_SECONDS_STUB := v; _MAC_STUB := _MAC_STUB o;
     _DATETIME_STUB := _DATETIME_STUB o; _random_macs := _random_macs o;
     _VLAN_STUB := _VLAN_STUB o; _GRP_STUB := _GRP_STUB o |}.

Definition set__MAC_STUB (v : string) (o : instance) : instance :=
  {| klass_of := klass_of o; _IP_ADDRESS_STUB := _IP_ADDRESS_STUB o;
     log_file_path := log_file_path o; log_lines := log_lines o;
     common_log_lines := common_log_lines o;
     _LAST_SECONDS_STUB := _LAST_SECONDS_STUB o; _MAC_STUB := v;
     _DATETIME_STUB := _DATETIME_STUB o; _random_macs := _random_macs o;
     _VLAN_STUB := _VLAN_STUB o; _GRP_STUB := _GRP_STUB o |}.

Definition set__DATETIME_STUB (v : string) (o : instance) : instance :=
  {| klass_of := klass_of o; _IP_ADDRESS_STUB := _IP_ADDRESS_STUB o;
     log_file_path := log_file_path o; log_lines := log_lines o;
     common_log_lines := common_log_lines o;
     _LAST_SECONDS_STUB := _LAST_SECONDS_STUB o; _MAC_STUB := _MAC_STUB o;
     _DATETIME_STUB := v; _random_macs := _random_macs o;
     _VLAN_STUB := _VLAN_STUB o; _GRP_STUB := _GRP_STUB o |}.

Definition set__random_macs (v : list string) (o : instance) : instance :=
  {| klass_of := klass_of o; _IP_ADDRESS_STUB := _IP_ADDRESS_STUB o;
     log_file_path := log_file_path o; log_lines := log_lines o;
     common_log_lines := common_log_lines o;
     _LAST_SECONDS_STUB := _LAST_SECONDS_STUB o; _MAC_STUB := _MAC_STUB o;
     _DATETIME_STUB := _DATETIME_STUB o; _random_macs := v;
     _VLAN_STUB := _VLAN_STUB o; _GRP_STUB := _GRP_STUB o |}.

Definition set__VLAN_STUB (v : string) (o : instance) : instance :=
  {| klass_of := klass_of o; _IP_ADDRESS_STUB := _IP_ADDRESS_STUB o;
     log_file_path := log_file_path o; log_lines := log_lines o;
     common_log_lines := common_log_lines o;
     _LAST_SECONDS_STUB := _LAST_SECONDS_STUB o; _MAC_STUB := _MAC_STUB o;
     _DATETIME_STUB := _DATETIME_STUB o; _random_macs := _random_macs o;
     _VLAN_STUB := v; _GRP_STUB := _GRP_STUB o |}.

Definition set__GRP_STUB (v : string) (o : instance) : instance :=
  {| klass_of := klass_of o; _IP_ADDRESS_STUB := _IP_ADDRESS_STUB o;
     log_file_path := log_file_path o; log_lines := log_lines o;
     common_log_lines := common_log_lines o;
     _LAST_SECONDS_STUB := _LAST_SECONDS_STUB o; _MAC_STUB := _MAC_STUB o;
     _DATETIME_STUB := _DATETIME_STUB o; _random_macs := _random_macs o;
     _VLAN_STUB := _VLAN_STUB o; _GRP_STUB := v |}.

(** [for x in xs: line = line.replace(x, new, count)] *)
Definition replace_each (xs : list string) (new : string) (count : Z)
    (line : string) : string :=
  fold_left (fun line x => Str.replace x new count line) xs line.

(** ** class LogTuner *)

Module Base.

(** Replace all occurrences of IP addresses with <IP_ADDRESS_STUB> *)
Definition _stub_ip_addresses (self : instance) (line : string) : string :=
  let ips := Re.findall Re.ip_address line in
  replace_each ips (_IP_ADDRESS_STUB self) 10 line.

Definition _stub_date_and_time (self : instance) (line : string) : string :=
  line.

Definition _stub_miscellaneous (self : instance) (line : string) : string :=
  line.

(** Replaces <IP_ADDRESS_STUB> with random IP address. *)
Definition _replace_ip_addresses_stub (line : string) : M string :=
  self ← get_self;
  parts ← for_range 4 (n ← randint 0 255; mret (str n));
  let random_ip := Str.join "." parts in
  mret (Str.replace (_IP_ADDRESS_STUB self) random_ip 10 line).

Definition _replace_date_and_time_stub (lines : list string)
    : M (list string) :=
  mret lines.

(** The body is [return lines]: the name [lines] is not defined there. *)
Definition _replace_miscellaneous_stub (line : string) : M string :=
  raise (NameError "lines").

Definition _calculate_required_number_of_lines (size_mb : Z) : M Z :=
  self ← get_self;
  let requested_size_b := size_mb * 1024 * 1024 in
  let sample_log_lines_number := Z.of_nat (length (log_lines self)) in
  sample_log_file_size ← stat_st_size (log_file_path self);
  avg_line_size ← floordiv sample_log_file_size sample_log_lines_number;
  number_of_lines_in_output_file ← floordiv requested_size_b avg_line_size;
  mret number_of_lines_in_output_file.

End Base.

(** ** class IgkExtremeLogTuner(LogTuner) *)

Module Igk.

(** Just removes first 22 characters. *)
Definition _stub_date_and_time (self : instance) (line : string) : string :=
  match line with
  | "" => line
  | _ => Str.drop 22 line
  end.

Definition _stub_miscellaneous (self : instance) (line : string) : string :=
  let last_seconds_regex := Re.findall Re.last_seconds line in
  replace_each last_seconds_regex (_LAST_SECONDS_STUB self) (-1) line.

(** The loop of [_replace_date_and_time_stub], [generated_datetime]
    being the cursor. *)
Fixpoint stamp_lines (generated_datetime : datetime) (lines : list string)
    : M (list string) :=
  match lines with
  | [] => mret []
  | line :: lines' =>
      if Str.blank line then
        rest ← stamp_lines generated_datetime lines'; mret (line :: rest)
      else
        delta ← randint 0 100;
        generated_datetime ← datetime_add generated_datetime delta;
        let line :=
          Str.drop_last 4
            (strftime "%m/%d/%Y %H:%M:%S.%f" generated_datetime) +:+ line in
        rest ← stamp_lines generated_datetime lines'; mret (line :: rest)
  end.

Definition _replace_date_and_time_stub (lines : list string)
    : M (list string) :=
  stamp_lines igk_seed lines.

Definition _replace_miscellaneous_stub (line : string) : M string :=
  self ← get_self;
  match line with
  | "" => mret line
  | _ =>
      times ← randint 1 300;
      seconds ← randint 1 100;
      let last_seconds_stub :=
        Str.replace "<seconds_number>" (str seconds) (-1)
          (Str.replace "<times_number>" (str times) (-1)
             (_LAST_SECONDS_STUB self)) in
      mret (Str.replace (_LAST_SECONDS_STUB self) last_seconds_stub (-1) line)
  end.

End Igk.

(** ** class CiscoWlcLogTuner(LogTuner) *)

Module Wlc.

Definition _generate_macs (macs_number : Z) : M (list string) :=
  for_range (Z.to_nat macs_number)
    (b1 ← randint 0 255; b2 ← randint 0 255; b3 ← randint 0 255;
     b4 ← randint 0 255; b5 ← randint 0 255; b6 ← randint 0 255;
     mret (Str.join ":" (map hex02 [b1; b2; b3; b4; b5; b6]))).

Definition _stub_date_and_time (self : instance) (line : string) : string :=
  let times := Re.findall Re.wlc_time line in
  replace_each times (_DATETIME_STUB self) (-1) line.

Definition _stub_miscellaneous (self : instance) (line : string) : string :=
  let mac_addresses := Re.findall Re.mac_address line in
  replace_each mac_addresses (_MAC_STUB self) 10 line.

Fixpoint stamp_lines (self : instance) (generated_datetime : datetime)
    (lines : list string) : M (list string) :=
  match lines with
  | [] => mret []
  | line :: lines' =>
      delta ← randint 0 100;
      generated_datetime ← datetime_add generated_datetime delta;
      let line :=
        Str.replace (_DATETIME_STUB self)
          (Str.drop_last 3 (strftime "%H:%M:%S.%f" generated_datetime))
          (-1) line in
      rest ← stamp_lines self generated_datetime lines'; mret (line :: rest)
  end.

Definition _replace_date_and_time_stub (lines : list string)
    : M (list string) :=
  self ← get_self;
  stamp_lines self wlc_seed lines.

Definition _replace_miscellaneous_stub (line : string) : M string :=
  self ← get_self;
  mac ← choice (_random_macs self);
  mret (Str.replace (_MAC_STUB self) mac 10 line).

End Wlc.

(** ** class CiscoIosLogTuner(LogTuner) *)

Module Ios.

(** Just removes first 15 characters. *)
Definition _stub_date_and_time (self : instance) (line : string) : string :=
  match line with
  | "" => line
  | _ => Str.drop 15 line
  end.

Definition _stub_miscellaneous (self : instance) (line : string) : string :=
  let vlan_regex := Re.findall Re.vlan line in
  let line := replace_each vlan_regex (_VLAN_STUB self) (-1) line in
  let grp_regex := Re.findall Re.grp line in
  replace_each grp_regex (_GRP_STUB self) (-1) line.

Fixpoint stamp_lines (generated_datetime : datetime) (lines : list string)
    : M (list string) :=
  match lines with
  | [] => mret []
  | line :: lines' =>
      delta ← randint 0 100;
      generated_datetime ← datetime_add generated_datetime delta;
      let line :=
        Str.drop_last 4
          (strftime "%b %d %H:%M:%S.%f" generated_datetime) +:+ line in
      rest ← stamp_lines generated_datetime lines'; mret (line :: rest)
  end.

Definition _replace_date_and_time_stub (lines : list string)
    : M (list string) :=
  stamp_lines ios_seed lines.

Definition _replace_miscellaneous_stub (line : string) : M string :=
  self ← get_self;
  n ← randint 1 5000;
  let random_vlan := "Vlan" +:+ str n in
  let line := Str.replace (_VLAN_STUB self) random_vlan (-1) line in
  g ← randint 1 300;
  let random_grp := "Grp " +:+ str g in
  let line := Str.replace (_GRP_STUB self) random_grp (-1) line in
  mret line.

End Ios.

(** ** Method calls on [self]

    A call [self.m(...)] runs the body of the first class of the
    resolution order that defines [m]. *)

Definition method_name (m : method) : string :=
  match m with
  | m__init__ => "__init__"
  | m_read_log_lines => "_read_log_lines"
  | m_gather_common_log_lines => "gather_common_log_lines"
  | m_stub_ip_addresses => "_stub_ip_addresses"
  | m_stub_date_and_time => "_stub_date_and_time"
  | m_stub_miscellaneous => "_stub_miscellaneous"
  | m_generate_log => "generate_log"
  | m_calculate_required_number_of_lines =>
      "_calculate_required_number_of_lines"
  | m_replace_ip_addresses_stub => "_replace_ip_addresses_stub"
  | m_replace_date_and_time_stub => "_replace_date_and_time_stub"
  | m_replace_miscellaneous_stub => "_replace_miscellaneous_stub"
  | m_generate_macs => "_generate_macs"
  end.

Definition _stub_date_and_time (self : instance) (line : string) : string :=
  match resolve (klass_of self) m_stub_date_and_time with
  | Some IgkExtremeLogTuner => Igk._stub_date_and_time self line
  | Some CiscoWlcLogTuner => Wlc._stub_date_and_time self line
  | Some CiscoIosLogTuner => Ios._stub_date_and_time self line
  | _ => Base._stub_date_and_time self line
  end.

Definition _stub_ip_addresses (self : instance) (line : string) : string :=
  Base._stub_ip_addresses self line.

Definition _stub_miscellaneous (self : instance) (line : string) : string :=
  match resolve (klass_of self) m_stub_miscellaneous with
  | Some IgkExtremeLogTuner => Igk._stub_miscellaneous self line
  | Some CiscoWlcLogTuner => Wlc._stub_miscellaneous self line
  | Some CiscoIosLogTuner => Ios._stub_miscellaneous self line
  | _ => Base._stub_miscellaneous self line
  end.

Definition _replace_ip_addresses_stub (line : string) : M string :=
  Base._replace_ip_addresses_stub line.

Definition _replace_miscellaneous_stub (line : string) : M string :=
  self ← get_self;
  match resolve (klass_of self) m_replace_miscellaneous_stub with
  | Some IgkExtremeLogTuner => Igk._replace_miscellaneous_stub line
  | Some CiscoWlcLogTuner => Wlc._replace_miscellaneous_stub line
  | Some CiscoIosLogTuner => Ios._replace_miscellaneous_stub line
  | Some LogTuner => Base._replace_miscellaneous_stub line
  | None => raise (AttributeError (method_name m_replace_miscellaneous_stub))
  end.

Definition _replace_date_and_time_stub (lines : list string)
    : M (list string) :=
  self ← get_self;
  match resolve (klass_of self) m_replace_date_and_time_stub with
  | Some IgkExtremeLogTuner => Igk._replace_date_and_time_stub lines
  | Some CiscoWlcLogTuner => Wlc._replace_date_and_time_stub lines
  | Some CiscoIosLogTuner => Ios._replace_date_and_time_stub lines
  | Some LogTuner => Base._replace_date_and_time_stub lines
  | None => raise (AttributeError (method_name m_replace_date_and_time_stub))
  end.

Definition _calculate_required_number_of_lines (size_mb : Z) : M Z :=
  Base._calculate_required_number_of_lines size_mb.

(** ** The two phases *)

(** One line of the sample becomes one template: date and time, then IP
    addresses, then the rest. *)
Definition stub_line (self : instance) (line : string) : string :=
  let line := _stub_date_and_time self line in
  let line := _stub_ip_addresses self line in
  let line := _stub_miscellaneous self line in
  line.

Definition gather_common_log_lines : M (list string) :=
  self ← get_self;
  mret (map (stub_line self) (log_lines self)).

(** The body of the loop of [generate_log]. *)
Definition generate_line : M string :=
  self ← get_self;
  line ← choice (common_log_lines self);
  line ← _replace_ip_addresses_stub line;
  line ← _replace_miscellaneous_stub line;
  mret line.

(** [range(0, n)] has [n] elements, none when [n <= 0]. *)
Definition generate_log (size_mb : Z) (output_file_path : string) : M unit :=
  required_lines_num ← _calculate_required_number_of_lines size_mb;
  generated_logs ← for_range (Z.to_nat required_lines_num) generate_line;
  generated_logs ← _replace_date_and_time_stub generated_logs;
  write_file_lines output_file_path generated_logs.

(** ** Construction *)

Definition LogTuner__init__ (path : string) : M unit :=
  set_self (set__IP_ADDRESS_STUB "<IP_ADDRESS_STUB>");;
  set_self (set_log_file_path path);;
  lines ← read_file_lines path;
  set_self (set_log_lines lines);;
  common ← gather_common_log_lines;
  set_self (set_common_log_lines common).

Definition IgkExtremeLogTuner__init__ (path : string) : M unit :=
  set_self (set__LAST_SECONDS_STUB
              ("<times_number> additional times in the " +:+
               "last <seconds_number> second"));;
  LogTuner__init__ path.

Definition CiscoWlcLogTuner__init__ (path : string) : M unit :=
  set_self (set__MAC_STUB "<MAC>");;
  set_self (set__DATETIME_STUB "<DATETIME_STUB>");;
  macs ← Wlc._generate_macs 10000;
  set_self (set__random_macs macs);;
  LogTuner__init__ path.

Definition CiscoIosLogTuner__init__ (path : string) : M unit :=
  set_self (set__VLAN_STUB "<vlan>");;
  set_self (set__GRP_STUB "<grp>");;
  LogTuner__init__ path.

(** [k(path)]: a fresh object of class [k], then its [__init__]. *)
Definition construct (k : klass) (path : string) : M unit :=
  set_self (fun _ => blank_instance k);;
  match k with
  | LogTuner => LogTuner__init__ path
  | IgkExtremeLogTuner => IgkExtremeLogTuner__init__ path
  | CiscoWlcLogTuner => CiscoWlcLogTuner__init__ path
  | CiscoIosLogTuner => CiscoIosLogTuner__init__ path
  end.

(** ** The main program *)

(** [getopt.getopt(args, shortopts)] of the standard library, with no
    long options: an option is a pair of its name and its argument. *)
Module Getopt.

(** [short_has_arg(opt, shortopts)]: whether the option takes an
    argument; GetoptError when [shortopts] does not list it. *)
Fixpoint short_has_arg (opt : ascii) (shortopts : string) : result bool :=
  match shortopts with
  | "" => Raised GetoptError
  | String c rest =>
      if Ascii.eqb opt c && negb (Ascii.eqb c ":") then
        Ok (match rest with String ":" _ => true | _ => false end)
      else short_has_arg opt rest
  end.

(** [do_shorts(opts, optstring, shortopts, args)]: the options that one
    argument with a single dash holds, and the arguments left.  An option
    that takes an argument takes the rest of [optstring], or the next
    argument when nothing is left of it. *)
Fixpoint do_shorts (optstring shortopts : string) (args : list string)
    : result (list (string * string) * list string) :=
  match optstring with
  | "" => Ok ([], args)
  | String opt optstring' =>
      match short_has_arg opt shortopts with
      | Raised e => Raised e
      | Ok true =>
          match optstring', args with
          | "", [] => Raised GetoptError
          | "", optarg :: args' =>
              Ok ([(String "-" (String opt ""), optarg)], args')
          | _, _ => Ok ([(String "-" (String opt ""), optstring')], args)
          end
      | Ok false =>
          match do_shorts optstring' shortopts args with
          | Ok (opts, args') =>
              Ok ((String "-" (String opt ""), "") :: opts, args')
          | Raised e => Raised e
          end
      end
  end.

(** The loop of [getopt]: it goes on while the first argument starts
    with a dash and is not the dash alone; [--] ends the options, and
    any other argument with two dashes is a long option, none of which
    is recognized.  Every turn takes at least one argument. *)
Fixpoint getopt_loop (fuel : nat) (args : list string) (shortopts : string)
    : result (list (string * string) * list string) :=
  match fuel, args with
  | S fuel', arg :: args' =>
      match Str.strip_prefix "-" arg with
      | None | Some "" => Ok ([], args)
      | Some optstring =>
          match Str.strip_prefix "-" optstring with
          | Some "" => Ok ([], args')
          | Some _ => Raised GetoptError
          | None =>
              match do_shorts optstring shortopts args' with
              | Ok (opts, rest) =>
                  match getopt_loop fuel' rest shortopts with
                  | Ok (more, rest') => Ok (opts ++ more, rest')
                  | Raised e => Raised e
                  end
              | Raised e => Raised e
              end
          end
      end
  | _, _ => Ok ([], args)
  end.

Definition getopt (args : list string) (shortopts : string)
    : result (list (string * string) * list string) :=
  getopt_loop (length args) args shortopts.

End Getopt.

(** [int(s)] of Python 2 on a [str]: white space, an optional sign,
    decimal digits, white space; any other text raises ValueError. *)
Fixpoint lstrip (s : string) : string :=
  match s with
  | "" => ""
  | String c s' => if Ascii.is_space c then lstrip s' else s
  end.

(** The number the leading digits of [s] denote, after the digits of
    [acc], and what follows them. *)
Fixpoint read_digits (acc : Z) (s : string) : Z * string :=
  match s with
  | "" => (acc, "")
  | String c s' =>
      if Re.digit c then
        read_digits (10 * acc + (Z.of_nat (nat_of_ascii c) - 48)) s'
      else (acc, s)
  end.

Definition py_int (s : string) : result Z :=
  let s := lstrip s in
  let '(sign, s) :=
    match s with
    | String "-" s' => (-1, s')
    | String "+" s' => (1, s')
    | _ => (1, s)
    end in
  if match s with String c _ => Re.digit c | "" => false end then
    let '(n, rest) := read_digits 0 s in
    if Str.blank rest then Ok (sign * n) else Raised ValueError
  else Raised ValueError.

(** The loop [for opt, arg in options]: the values of [input_filepath],
    [output_filepath], [size] and [class_name], each [None] until its
    option is met; a later option overrides an earlier one. *)
Fixpoint read_options (options : list (string * string))
    (values : option string * option string * option Z * option string)
    : result (option string * option string * option Z * option string) :=
  match options with
  | [] => Ok values
  | (opt, arg) :: rest =>
      let '(input_filepath, output_filepath, size, class_name) := values in
      if String.eqb opt "-i" then
        read_options rest (Some arg, output_filepath, size, class_name)
      else if String.eqb opt "-o" then
        read_options rest (input_filepath, Some arg, size, class_name)
      else if String.eqb opt "-s" then
        match py_int arg with
        | Ok n =>
            read_options rest (input_filepath, output_filepath, Some n,
                               class_name)
        | Raised e => Raised e
        end
      else if String.eqb opt "-c" then
        read_options rest (input_filepath, output_filepath, size, Some arg)
      else read_options rest values
  end.

(** Lines 327 to 338: the main program once the four options are read
    and none is [None]. *)
Definition main_tail (input_filepath output_filepath : string) (size : Z)
    (class_name : string) : M unit :=
  match classes !! class_name with
  | None => raise (SystemExit 1)
  | Some k =>
      construct k input_filepath;;
      generate_log size output_filepath
  end.

(** The main program on the arguments [argv], that is [sys.argv[1:]].
    What it prints is not part of the model. *)
Definition main (argv : list string) : M unit :=
  match Getopt.getopt argv "i:o:s:c:" with
  | Raised e => raise e
  | Ok (options, _) =>
      match read_options options (None, None, None, None) with
      | Raised e => raise e
      | Ok (Some input_filepath, Some output_filepath, Some size,
            Some class_name) =>
          main_tail input_filepath output_filepath size class_name
      | Ok _ => raise (SystemExit 1)
      end
  end.

(** ** Vocabulary of the properties *)

(** The world after [n] more draws from the random generator. *)
Definition skip (n : nat) (w : world) : world :=
  {| tape := tape w; pos := (n + pos w)%nat; fs := fs w;
     writable := writable w; obj := obj w |}.

(** The [i]-th raw draw from world [w] on. *)
Definition draw (w : world) (i : nat) : Z := tape w (i + pos w)%nat.

(** The placeholders the constructor of class [k] gives an instance. *)
Definition constructed (k : klass) (o : instance) : Prop :=
  klass_of o = k /\
  _IP_ADDRESS_STUB o = "<IP_ADDRESS_STUB>" /\
  match k with
  | LogTuner => True
  | IgkExtremeLogTuner =>
      _LAST_SECONDS_STUB o =
      "<times_number> additional times in the last <seconds_number> second"
  | CiscoWlcLogTuner =>
      _MAC_STUB o = "<MAC>" /\ _DATETIME_STUB o = "<DATETIME_STUB>"
  | CiscoIosLogTuner => _VLAN_STUB o = "<vlan>" /\ _GRP_STUB o = "<grp>"
  end.

(** The newline character as a string. *)
Definition nl : string := String "010" "".

(** A world with one file, a tape, and no tuner built yet; every path
    that is not empty can be opened for writing. *)
Definition initial_world (t : nat -> Z) (path content : string) : world :=
  {| tape := t; pos := 0; fs := {[path := content]};
     writable := fun _ => true; obj := blank_instance LogTuner |}.


(** The address the IP refill builds from the next four draws. *)
Definition octet (w : world) (i : nat) : Z := draw w i mod 256.

Definition random_ip_of (w : world) : string :=
  Str.join "." (map str [octet w 0; octet w 1; octet w 2; octet w 3])%nat.

(** Sample instances and lines for the examples. *)
Definition igk_instance : instance :=
  set__LAST_SECONDS_STUB
    "<times_number> additional times in the last <seconds_number> second"
    (set__IP_ADDRESS_STUB "<IP_ADDRESS_STUB>"
       (blank_instance IgkExtremeLogTuner)).

Definition wlc_instance : instance :=
  set__random_macs ["de:ad:be:ef:00:01"]
    (set__DATETIME_STUB "<DATETIME_STUB>"
       (set__MAC_STUB "<MAC>"
          (set__IP_ADDRESS_STUB "<IP_ADDRESS_STUB>"
             (blank_instance CiscoWlcLogTuner)))).

Definition ios_instance : instance :=
  set__GRP_STUB "<grp>"
    (set__VLAN_STUB "<vlan>"
       (set__IP_ADDRESS_STUB "<IP_ADDRESS_STUB>"
          (blank_instance CiscoIosLogTuner))).

(** A world whose tuner is [o] and whose draws count up from [first]. *)
Definition world_of (o : instance) (first : Z) : world :=
  {| tape := fun i => first + Z.of_nat i; pos := 0; fs := ∅;
     writable := fun _ => true; obj := o |}.


(** *** The VLAN/group refill as the specification words it

    "Generate an independent random VLAN number in [1,5000] and an
    independent random group number in [1,300] per occurrence": every
    occurrence of the placeholder gets a text generated for it alone. *)
Fixpoint spec_refill_scan (fuel : nat) (old : string) (gen : M string)
    (s : string) : M string :=
  match fuel with
  | O => mret s
  | S fuel' =>
      match Str.strip_prefix old s with
      | Some rest =>
          new ← gen;
          out ← spec_refill_scan fuel' old gen rest;
          mret (new +:+ out)
      | None =>
          match s with
          | "" => mret ""
          | String c s' =>
              out ← spec_refill_scan fuel' old gen s'; mret (String c out)
          end
      end
  end.

Definition spec_refill_per_occurrence (old : string) (gen : M string)
    (s : string) : M string :=
  spec_refill_scan (S (Str.len s)) old gen s.

Definition spec_ios_replace_miscellaneous_stub (line : string) : M string :=
  self ← get_self;
  line ← spec_refill_per_occurrence (_VLAN_STUB self)
            (n ← randint 1 5000; mret ("Vlan" +:+ str n)) line;
  spec_refill_per_occurrence (_GRP_STUB self)
    (g ← randint 1 300; mret ("Grp " +:+ str g)) line.

(** The line of the example scenario, and the templates it is said to
    give and gives. *)
Definition sample_line : string :=
  "Apr 14 14:09:06 CET: Vlan3649 Grp 92 state Speak -> Standby" +:+ nl.

Definition claimed_template : string :=
  "CET: <vlan> Grp <grp> state Speak -> Standby" +:+ nl.

Definition actual_template : string :=
  " CET: <vlan> <grp> state Speak -> Standby" +:+ nl.

(** [m], run in world [w], leaves the tuner object as it was and raises
    only exceptions that satisfy [E]. *)
Definition keeps_at {A} (E : exn -> Prop) (m : M A) (w : world) : Prop :=
  obj (m w).2 = obj w /\ forall e, (m w).1 = Raised e -> E e.

(** [m] does so in every world whose tuner object satisfies [P]. *)
Definition keeps {A} (E : exn -> Prop) (P : instance -> Prop) (m : M A)
    : Prop :=
  forall w, P (obj w) -> keeps_at E m w.

(** The exceptions other than [NameError]. *)
Definition not_name_error (e : exn) : Prop :=
  forall name, e <> NameError name.

(** A result that is not a raised [NameError]. *)
Definition not_name_error_result {A} (r : result A) : Prop :=
  forall e, r = Raised e -> not_name_error e.

(** The body of [_replace_miscellaneous_stub] in the class body of [k]. *)
Definition replace_miscellaneous_stub_body (k : klass) : string -> M string :=
  match k with
  | LogTuner => Base._replace_miscellaneous_stub
  | IgkExtremeLogTuner => Igk._replace_miscellaneous_stub
  | CiscoWlcLogTuner => Wlc._replace_miscellaneous_stub
  | CiscoIosLogTuner => Ios._replace_miscellaneous_stub
  end.

(** The three stubbers of a class, and the patterns each looks for.
    The stubbers of the date and time of IgkExtremeLogTuner and
    CiscoIosLogTuner look for no pattern: they cut a prefix of fixed
    width. *)
Inductive stubber : Type :=
| stub_date_and_time
| stub_ip_addresses
| stub_miscellaneous.

Definition run_stubber (s : stubber) (self : instance) (line : string)
    : string :=
  match s with
  | stub_date_and_time => _stub_date_and_time self line
  | stub_ip_addresses => _stub_ip_addresses self line
  | stub_miscellaneous => _stub_miscellaneous self line
  end.

Definition target_patterns (k : klass) (s : stubber)
    : option (list Re.regex) :=
  match s, k with
  | stub_ip_addresses, _ => Some [Re.ip_address]
  | stub_date_and_time, LogTuner => Some []
  | stub_date_and_time, CiscoWlcLogTuner => Some [Re.wlc_time]
  | stub_date_and_time, (IgkExtremeLogTuner | CiscoIosLogTuner) => None
  | stub_miscellaneous, LogTuner => Some []
  | stub_miscellaneous, IgkExtremeLogTuner => Some [Re.last_seconds]
  | stub_miscellaneous, CiscoWlcLogTuner => Some [Re.mac_address]
  | stub_miscellaneous, CiscoIosLogTuner => Some [Re.vlan; Re.grp]
  end.

(** *** The sequence of timestamps *)

(** Chronological order of datetimes: by date, then by time of the day. *)
Definition date_lt (a b : Z * Z * Z) : Prop :=
  let '(ya, ma, da) := a in
  let '(yb, mb, db) := b in
  ya < yb \/ (ya = yb /\ (ma < mb \/ (ma = mb /\ da < db))).

Definition chron_le (a b : datetime) : Prop :=
  date_lt (date_of a) (date_of b) \/
  (date_of a = date_of b /\ time_of_day_us a <= time_of_day_us b).

Definition valid_time (dt : datetime) : Prop :=
  0 <= hour dt < 24 /\ 0 <= minute dt < 60 /\ 0 <= second dt < 60 /\
  0 <= microsecond dt < 1000000.

(** The lines the refill of class [k] passes on without a timestamp and
    without a draw: blank lines for IgkExtremeLogTuner, every line for
    [LogTuner], none for the other two. *)
Definition skips (k : klass) (line : string) : bool :=
  match k with
  | LogTuner => true
  | IgkExtremeLogTuner => Str.blank line
  | CiscoWlcLogTuner | CiscoIosLogTuner => false
  end.

Definition seed_of (k : klass) : datetime :=
  match k with
  | CiscoWlcLogTuner => wlc_seed
  | CiscoIosLogTuner => ios_seed
  | IgkExtremeLogTuner | LogTuner => igk_seed
  end.

(** The text of a timestamp in the format of class [k]. *)
Definition timestamp_text (k : klass) (dt : datetime) : string :=
  match k with
  | LogTuner => ""
  | IgkExtremeLogTuner => Str.drop_last 4 (strftime "%m/%d/%Y %H:%M:%S.%f" dt)
  | CiscoWlcLogTuner => Str.drop_last 3 (strftime "%H:%M:%S.%f" dt)
  | CiscoIosLogTuner => Str.drop_last 4 (strftime "%b %d %H:%M:%S.%f" dt)
  end.

(** A line with the timestamp [dt]: in front of it, or in the place of
    its datetime placeholders. *)
Definition stamp (k : klass) (self : instance) (dt : datetime)
    (line : string) : string :=
  match k with
  | LogTuner => line
  | CiscoWlcLogTuner =>
      Str.replace (_DATETIME_STUB self) (timestamp_text k dt) (-1) line
  | IgkExtremeLogTuner | CiscoIosLogTuner => timestamp_text k dt +:+ line
  end.

(** The [i]-th delta drawn from world [w] on, in milliseconds, and the
    sum of the first [n] of them. *)
Definition delta (w : world) (i : nat) : Z := draw w i mod 101.

Fixpoint elapsed (w : world) (n : nat) : Z :=
  match n with
  | O => 0
  | S m => elapsed w m + delta w m
  end.

(** The cursor after [n] timestamps: the seed advanced by the sum of the
    first [n] deltas. *)
Definition cursor (k : klass) (w : world) (n : nat) : datetime :=
  advance (seed_of k) (elapsed w n).

(** How many of the first [j] lines get a timestamp. *)
Definition stamped_before (k : klass) (lines : list string) (j : nat) : nat :=
  length (filter (fun line => skips k line = false) (take j lines)).

(** The batch with its timestamps, [n] of them being given already. *)
Fixpoint stamped (k : klass) (self : instance) (w : world) (n : nat)
    (lines : list string) : list string :=
  match lines with
  | [] => []
  | line :: rest =>
      if skips k line then line :: stamped k self w n rest
      else stamp k self (cursor k w (S n)) line :: stamped k self w (S n) rest
  end.

(** The numbers a timestamp of class [k] shows, most significant first. *)
Definition shown_fields (k : klass) (dt : datetime) : list Z :=
  match k with
  | LogTuner => []
  | IgkExtremeLogTuner =>
      [year dt; month dt; day dt; hour dt; minute dt; second dt;
       microsecond dt / 10000]
  | CiscoWlcLogTuner =>
      [hour dt; minute dt; second dt; microsecond dt / 1000]
  | CiscoIosLogTuner =>
      [month dt; day dt; hour dt; minute dt; second dt;
       microsecond dt / 10000]
  end.

(** Lexicographic order of lists of numbers. *)
Fixpoint lex_le (a b : list Z) : Prop :=
  match a, b with
  | [], _ => True
  | _ :: _, [] => False
  | x :: a', y :: b' => x < y \/ (x = y /\ lex_le a' b')
  end.

(** The loop the three refills of the date and time have in common: a
    line that is not skipped takes a delta, moves the cursor and gets its
    timestamp. *)
Fixpoint stamp_loop (k : klass) (self : instance)
    (generated_datetime : datetime) (lines : list string)
    : M (list string) :=
  match lines with
  | [] => mret []
  | line :: lines' =>
      if skips k line then
        rest ← stamp_loop k self generated_datetime lines';
        mret (line :: rest)
      else
        delta ← randint 0 100;
        generated_datetime ← datetime_add generated_datetime delta;
        rest ← stamp_loop k self generated_datetime lines';
        mret (stamp k self generated_datetime line :: rest)
  end.

(** A world whose tuner is [o] and whose every draw is [raw]. *)
Definition steady_world (o : instance) (raw : Z) : world :=
  {| tape := fun _ => raw; pos := 0; fs := ∅; writable := fun _ => true;
     obj := o |}.

(** A batch of [n] lines that hold the datetime placeholder and nothing
    else: the refill of CiscoWlcLogTuner turns each into its timestamp. *)
Definition placeholder_batch (n : Z) : list string :=
  replicate (Z.to_nat n) "<DATETIME_STUB>".

(** *** Lines of a file *)

Fixpoint no_newline (s : string) : bool :=
  match s with
  | "" => true
  | String c s' => negb (Ascii.eqb c "010") && no_newline s'
  end.

(** A line that ends with its only newline. *)
Definition closed_line (l : string) : Prop :=
  exists body, no_newline body = true /\ l = body +:+ nl.

(** The lines of a file: each ends with its only newline, but the last
    may have none, and is not empty then. *)
Fixpoint lines_of_file (ls : list string) : Prop :=
  match ls with
  | [] => True
  | [l] => closed_line l \/ (l <> "" /\ no_newline l = true)
  | l :: rest => closed_line l /\ lines_of_file rest
  end.

(** The number of characters of all lines. *)
Definition total_len (ls : list string) : nat :=
  foldr (fun l n => (Str.len l + n)%nat) 0%nat ls.

(** *** The MAC addresses of CiscoWlcLogTuner *)

(** The MAC address [_generate_macs] builds from the next six draws. *)
Definition mac_of (w : world) : string :=
  Str.join ":"
    (map hex02 [octet w 0; octet w 1; octet w 2; octet w 3; octet w 4;
                octet w 5])%nat.

(** The [n] addresses it builds from world [w] on. *)
Definition macs_of (w : world) (n : nat) : list string :=
  map (fun i => mac_of (skip (6 * i) w)) (seq 0 n).

(** Two hexadecimal digits. *)
Definition hex_pair (s : string) : Prop :=
  exists a b, s = String a (String b "") /\
              Re.hex_ignorecase a = true /\ Re.hex_ignorecase b = true.

(** Six pairs of hexadecimal digits with colons between them. *)
Definition mac_shaped (s : string) : Prop :=
  exists p1 p2 p3 p4 p5 p6,
    Forall hex_pair [p1; p2; p3; p4; p5; p6] /\
    s = Str.join ":" [p1; p2; p3; p4; p5; p6].

(** *** Construction *)

(** How many draws the constructor of class [k] takes: 6 for each of the
    10000 MAC addresses of CiscoWlcLogTuner, none for the others. *)
Definition constructor_draws (k : klass) : nat :=
  match k with
  | CiscoWlcLogTuner => 6 * Z.to_nat 10000
  | _ => 0
  end.

(** The world with another tuner object. *)
Definition with_obj (o : instance) (w : world) : world :=
  {| tape := tape w; pos := pos w; fs := fs w; writable := writable w;
     obj := o |}.

(** The tuner of world [w] was built from the file at [path], and the
    file still has the [content] it had then. *)
Definition sample_ready (path content : string) (w : world) : Prop :=
  fs w !! path = Some content /\
  log_file_path (obj w) = path /\
  log_lines (obj w) = readlines content.

(** A tuner of a class of the [classes] dictionary that can generate
    lines: it holds the placeholders of its class and at least one
    template, and a CiscoWlcLogTuner at least one MAC address. *)
Definition can_generate (k : klass) (o : instance) : Prop :=
  constructed k o /\ k <> LogTuner /\ common_log_lines o <> [] /\
  (k = CiscoWlcLogTuner -> _random_macs o <> []).

(** The world with the lines written to the file at [path]. *)
Definition with_file (path : string) (lines : list string) (w : world)
    : world :=
  {| tape := tape w; pos := pos w;
     fs := <[path := Str.join "" lines]> (fs w);
     writable := writable w; obj := obj w |}.

(** *** Datetimes the program can stamp *)

Fixpoint all_digits (s : string) : bool :=
  match s with
  | "" => true
  | String c s' => Re.digit c && all_digits s'
  end.

(** [s] is [n] decimal digits. *)
Definition digits (n : nat) (s : string) : Prop :=
  Str.len s = n /\ all_digits s = true.

Definition valid_date (ymd : Z * Z * Z) : Prop :=
  let '(y, m, d) := ymd in 1 <= m <= 12 /\ 1 <= d <= days_in_month y m.

(** A datetime as the refills build them: a date of the calendar in the
    years 1000 to 9999, a time of the day, and whole milliseconds. *)
Definition stampable (dt : datetime) : Prop :=
  valid_date (date_of dt) /\ 1000 <= year dt <= 9999 /\ valid_time dt /\
  microsecond dt mod 1000 = 0.

(** *** Round trips of a placeholder *)

(** No character of [s] is in the class [p]. *)
Fixpoint none_of (p : ascii -> bool) (s : string) : bool :=
  match s with
  | "" => true
  | String c s' => negb (p c) && none_of p s'
  end.

(** [s] starts with a character of the class [p]. *)
Definition starts_with (p : ascii -> bool) (s : string) : bool :=
  match s with
  | "" => false
  | String c _ => p c
  end.

(** A text without a digit and without the character that opens a
    placeholder. *)
Definition plain (s : string) : bool :=
  none_of (fun c => Re.digit c || Ascii.eqb c "<") s.

(** The text the miscellaneous refill of IgkExtremeLogTuner builds from
    the two numbers it draws. *)
Definition last_seconds_text (times seconds : Z) : string :=
  str times +:+ " additional times in the last " +:+ str seconds +:+
  " second".

(** A text without a digit and without the characters that open a
    placeholder or a pattern of CiscoIosLogTuner. *)
Definition plain_ios (s : string) : bool :=
  none_of (fun c => Re.digit c || Ascii.eqb c "<" || Ascii.eqb c "V" ||
                    Ascii.eqb c "G") s.

(** * Properties *)

(** ** Strings *)

Module StrFacts.

Lemma app_nil_l s : "" +:+ s = s.
Proof. reflexivity. Qed.

Lemma app_cons c s t : String c s +:+ t = String c (s +:+ t).
Proof. reflexivity. Qed.

Lemma app_nil_r s : s +:+ "" = s.
Proof. induction s as [|c s IH]; [done|]. by rewrite app_cons, IH. Qed.

Lemma app_assoc s t u : (s +:+ t) +:+ u = s +:+ t +:+ u.
Proof. induction s as [|c s IH]; [done|]. by rewrite !app_cons, IH. Qed.

Lemma len_app s t : Str.len (s +:+ t) = (Str.len s + Str.len t)%nat.
Proof.
  induction s as [|c s IH]; [done|].
  rewrite app_cons. unfold Str.len in *. simpl. by rewrite IH.
Qed.

(** What [strip_prefix] returns is the string without the prefix. *)
Lemma strip_prefix_Some p s rest :
  Str.strip_prefix p s = Some rest -> s = p +:+ rest.
Proof.
  revert s. induction p as [|a p IH]; intros [|b s] H; simplify_eq/=; try done.
  destruct (Ascii.eqb_spec a b) as [->|]; [|done].
  rewrite app_cons. f_equal. by apply IH.
Qed.

Lemma strip_prefix_app p rest : Str.strip_prefix p (p +:+ rest) = Some rest.
Proof.
  induction p as [|a p IH]; [by destruct rest|].
  rewrite app_cons. simpl. by rewrite Ascii.eqb_refl.
Qed.

Lemma strip_prefix_len p s rest :
  Str.strip_prefix p s = Some rest ->
  Str.len s = (Str.len p + Str.len rest)%nat.
Proof. intros ->%strip_prefix_Some. apply len_app. Qed.

(** The scans recurse on a shorter string: an induction principle that
    follows them. *)
Lemma scan_ind (sub : string) (Hsub : sub <> "") (P : string -> Prop) :
  (Str.strip_prefix sub "" = None -> P "") ->
  (forall s rest, Str.strip_prefix sub s = Some rest -> P rest -> P s) ->
  (forall c s, Str.strip_prefix sub (String c s) = None -> P s ->
               P (String c s)) ->
  forall s, P s.
Proof.
  intros Hnil Hhit Hmiss s.
  remember (Str.len s) as n eqn:Hn.
  revert s Hn. induction (lt_wf n) as [n _ IH]. intros s ->.
  destruct (Str.strip_prefix sub s) as [rest|] eqn:Hp.
  - apply (Hhit s rest Hp). apply (IH (Str.len rest)); [|done].
    apply strip_prefix_len in Hp. destruct sub; [done|].
    unfold Str.len in *. simpl in *. lia.
  - destruct s as [|c s]; [by apply Hnil|].
    apply Hmiss; [done|]. apply (IH (Str.len s)); [|done].
    unfold Str.len. simpl. lia.
Qed.

Ltac len_lia := unfold Str.len in *; simpl in *; lia.

Lemma strip_prefix_shorter sub s rest :
  sub <> "" -> Str.strip_prefix sub s = Some rest ->
  (Str.len rest < Str.len s)%nat.
Proof.
  intros Hsub Hp%strip_prefix_len. destruct sub; [done|]. len_lia.
Qed.

(** Enough fuel is as good as any other amount. *)
Lemma replace_scan_fuel old new f1 f2 count s :
  old <> "" ->
  (Str.len s < f1)%nat -> (Str.len s < f2)%nat ->
  Str.replace_scan f1 old new count s = Str.replace_scan f2 old new count s.
Proof.
  intros Hold. revert f2 count s.
  induction f1 as [|f1 IH]; intros [|f2] count s ??; try lia.
  simpl. destruct (count =? 0); [done|].
  destruct (Str.strip_prefix old s) as [rest|] eqn:Hp.
  - f_equal. apply strip_prefix_shorter in Hp; [|done]. apply IH; lia.
  - destruct s as [|c s]; [done|]. f_equal. apply IH; len_lia.
Qed.

Lemma count_scan_fuel old f1 f2 s :
  old <> "" ->
  (Str.len s < f1)%nat -> (Str.len s < f2)%nat ->
  Str.count_scan f1 old s = Str.count_scan f2 old s.
Proof.
  intros Hold. revert f2 s.
  induction f1 as [|f1 IH]; intros [|f2] s ??; try lia.
  simpl. destruct (Str.strip_prefix old s) as [rest|] eqn:Hp.
  - f_equal. apply strip_prefix_shorter in Hp; [|done]. apply IH; lia.
  - destruct s as [|c s]; [done|]. apply IH; len_lia.
Qed.

Lemma split_scan_fuel old f1 f2 count s :
  old <> "" ->
  (Str.len s < f1)%nat -> (Str.len s < f2)%nat ->
  Str.split_scan f1 old count s = Str.split_scan f2 old count s.
Proof.
  intros Hold. revert f2 count s.
  induction f1 as [|f1 IH]; intros [|f2] count s ??; try lia.
  simpl. destruct (count =? 0); [done|].
  destruct (Str.strip_prefix old s) as [rest|] eqn:Hp.
  - f_equal. apply strip_prefix_shorter in Hp; [|done]. apply IH; lia.
  - destruct s as [|c s]; [done|]. rewrite (IH f2); [done|len_lia..].
Qed.

Lemma replace_scan_def old new count s :
  old <> "" ->
  Str.replace old new count s =
  Str.replace_scan (S (Str.len s)) old new count s.
Proof. by destruct old. Qed.

Lemma count_scan_def old s :
  old <> "" -> Str.count old s = Str.count_scan (S (Str.len s)) old s.
Proof. by destruct old. Qed.

(** The equations of the three scans. *)
Lemma replace_eq old new count s :
  old <> "" ->
  Str.replace old new count s =
  if count =? 0 then s
  else match Str.strip_prefix old s with
       | Some rest => new +:+ Str.replace old new (count - 1) rest
       | None =>
           match s with
           | "" => ""
           | String c s' => String c (Str.replace old new count s')
           end
       end.
Proof.
  intros Hold. rewrite (replace_scan_def old new count s) by done.
  simpl. destruct (count =? 0); [done|].
  destruct (Str.strip_prefix old s) as [rest|] eqn:Hp.
  - f_equal. rewrite replace_scan_def by done.
    apply strip_prefix_shorter in Hp; [|done].
    apply replace_scan_fuel; [done|lia..].
  - destruct s as [|c s]; [done|]. f_equal. rewrite replace_scan_def by done.
    apply replace_scan_fuel; [done|len_lia..].
Qed.

Lemma count_eq old s :
  old <> "" ->
  Str.count old s =
  match Str.strip_prefix old s with
  | Some rest => S (Str.count old rest)
  | None =>
      match s with
      | "" => O
      | String c s' => Str.count old s'
      end
  end.
Proof.
  intros Hold. rewrite (count_scan_def old s) by done. simpl.
  destruct (Str.strip_prefix old s) as [rest|] eqn:Hp.
  - f_equal. rewrite count_scan_def by done.
    apply strip_prefix_shorter in Hp; [|done].
    apply count_scan_fuel; [done|lia..].
  - destruct s as [|c s]; [done|]. rewrite count_scan_def by done.
    apply count_scan_fuel; [done|len_lia..].
Qed.

Lemma split_eq old count s :
  old <> "" ->
  Str.split old count s =
  if count =? 0 then [s]
  else match Str.strip_prefix old s with
       | Some rest => "" :: Str.split old (count - 1) rest
       | None =>
           match s with
           | "" => [""]
           | String c s' =>
               match Str.split old count s' with
               | piece :: pieces => String c piece :: pieces
               | [] => [String c ""]
               end
           end
       end.
Proof.
  intros Hold.
  change (Str.split old count s)
    with (Str.split_scan (S (Str.len s)) old count s).
  cbn [Str.split_scan]. destruct (count =? 0); [done|].
  destruct (Str.strip_prefix old s) as [rest|] eqn:Hp.
  - f_equal. apply strip_prefix_shorter in Hp; [|done].
    apply split_scan_fuel; [done|lia..].
  - destruct s as [|c s]; [done|]. unfold Str.split.
    rewrite (split_scan_fuel old _ (S (Str.len s))); [done..|len_lia|len_lia].
Qed.

Lemma join_cons_char sep c piece pieces :
  Str.join sep (String c piece :: pieces) =
  String c (Str.join sep (piece :: pieces)).
Proof. by destruct pieces. Qed.

Lemma join_cons_nil sep piece pieces :
  Str.join sep ("" :: piece :: pieces) = sep +:+ Str.join sep (piece :: pieces).
Proof. done. Qed.

Lemma split_not_nil old count s : old <> "" -> Str.split old count s <> [].
Proof.
  intros Hold. rewrite split_eq by done.
  destruct (count =? 0); [done|].
  destruct (Str.strip_prefix old s); [done|].
  destruct s; [done|]. by destruct (Str.split old count s).
Qed.

(** Python's [old.join(s.split(old, count)) == s]. *)
Lemma join_split old count s :
  old <> "" -> Str.join old (Str.split old count s) = s.
Proof.
  intros Hold. revert count.
  induction s as [Hp|s rest Hp IH|c s Hp IH] using (scan_ind old Hold);
    intros count; rewrite split_eq by done;
    (destruct (count =? 0); [done|]); rewrite Hp.
  - done.
  - specialize (IH (count - 1)).
    destruct (Str.split old (count - 1) rest) as [|piece pieces] eqn:Hs;
      [by apply split_not_nil in Hs|].
    rewrite join_cons_nil, IH. symmetry. by apply strip_prefix_Some.
  - specialize (IH count).
    destruct (Str.split old count s) as [|piece pieces] eqn:Hs;
      [by apply split_not_nil in Hs|].
    by rewrite join_cons_char, IH.
Qed.

(** Python's [s.replace(old, new, count) == new.join(s.split(old, count))]. *)
Lemma replace_join_split old new count s :
  old <> "" ->
  Str.replace old new count s = Str.join new (Str.split old count s).
Proof.
  intros Hold. revert count.
  induction s as [Hp|s rest Hp IH|c s Hp IH] using (scan_ind old Hold);
    intros count; rewrite split_eq, replace_eq by done;
    (destruct (count =? 0); [done|]); rewrite Hp.
  - done.
  - specialize (IH (count - 1)).
    destruct (Str.split old (count - 1) rest) as [|piece pieces] eqn:Hs;
      [by apply split_not_nil in Hs|].
    by rewrite join_cons_nil, IH.
  - specialize (IH count).
    destruct (Str.split old count s) as [|piece pieces] eqn:Hs;
      [by apply split_not_nil in Hs|].
    by rewrite join_cons_char, IH.
Qed.

(** How many occurrences a replacement limited to [count] reaches. *)
Definition reached (count : Z) (occurrences : nat) : nat :=
  if count <? 0 then occurrences else Nat.min (Z.to_nat count) occurrences.

(** [s.split(old, count)] has one piece more than occurrences reached. *)
Lemma length_split old count s :
  old <> "" ->
  length (Str.split old count s) = S (reached count (Str.count old s)).
Proof.
  intros Hold. revert count. unfold reached.
  induction s as [Hp|s rest Hp IH|c s Hp IH] using (scan_ind old Hold);
    intros count; rewrite split_eq, count_eq by done;
    destruct (Z.eqb_spec count 0) as [->|Hc]; rewrite ?Hp; try done.
  - simpl. destruct (count <? 0); [done|]. by rewrite Nat.min_0_r.
  - cbn [length]. rewrite IH. f_equal.
    destruct (Z.ltb_spec count 0), (Z.ltb_spec (count - 1) 0); lia.
  - specialize (IH count).
    destruct (Str.split old count s) as [|piece pieces] eqn:Hs;
      [by apply split_not_nil in Hs|].
    exact IH.
Qed.






End StrFacts.

(** ** The monad *)

Section Monad.
Context {A B : Type}.

Lemma bind_ok (m : M A) (f : A -> M B) w a w' :
  m w = (Ok a, w') -> (m ≫= f) w = f a w'.
Proof. unfold mbind, M_bind. by intros ->. Qed.

Lemma bind_raised (m : M A) (f : A -> M B) w e w' :
  m w = (Raised e, w') -> (m ≫= f) w = (Raised e, w').
Proof. unfold mbind, M_bind. by intros ->. Qed.

Lemma bind_inv_ok (m : M A) (f : A -> M B) w b w' :
  (m ≫= f) w = (Ok b, w') ->
  exists a w1, m w = (Ok a, w1) /\ f a w1 = (Ok b, w').
Proof.
  unfold mbind, M_bind. destruct (m w) as [[a|e] w1]; [|done]. eauto.
Qed.
End Monad.

Lemma randint_eq a b w :
  randint a b w = (Ok (a + draw w 0 mod (b - a + 1)), skip 1 w).
Proof. done. Qed.

Lemma randint_range a b w :
  a <= b -> a <= a + draw w 0 mod (b - a + 1) <= b.
Proof. intros. pose proof (Z.mod_pos_bound (draw w 0) (b - a + 1)). lia. Qed.

Lemma skip_skip n m w : skip n (skip m w) = skip (n + m) w.
Proof. unfold skip. simpl. f_equal. lia. Qed.

Lemma draw_skip n i w : draw (skip n w) i = draw w (i + n).
Proof. unfold draw, skip. simpl. f_equal. lia. Qed.

(** ** C8: the IP refill *)

Lemma ip_refill_run (w : world) (line : string) :
  _IP_ADDRESS_STUB (obj w) = "<IP_ADDRESS_STUB>" ->
  _replace_ip_addresses_stub line w =
    (Ok (Str.replace "<IP_ADDRESS_STUB>" (random_ip_of w) 10 line), skip 4 w).
Proof.
  intros Hstub.
  unfold _replace_ip_addresses_stub, Base._replace_ip_addresses_stub.
  unfold mbind, M_bind, get_self. rewrite Hstub. done.
Qed.

(** C8. The IP refill draws four integers, each in 0..255, joins their
    decimal forms with dots into one address, and replaces at most 10
    occurrences of the IP placeholder in the line with that one address:
    the line is its pieces joined by the placeholder, the result is the
    same pieces joined by the address. *)
Theorem C8_ip_refill_single_address (w : world) (line : string) :
  _IP_ADDRESS_STUB (obj w) = "<IP_ADDRESS_STUB>" ->
  let random_ip :=
    Str.join "." (map str [octet w 0; octet w 1; octet w 2; octet w 3])%nat in
  let pieces := Str.split "<IP_ADDRESS_STUB>" 10 line in
  (forall i, 0 <= octet w i <= 255) /\
  _replace_ip_addresses_stub line w =
    (Ok (Str.replace "<IP_ADDRESS_STUB>" random_ip 10 line), skip 4 w) /\
  line = Str.join "<IP_ADDRESS_STUB>" pieces /\
  Str.replace "<IP_ADDRESS_STUB>" random_ip 10 line = Str.join random_ip pieces /\
  length pieces = S (Nat.min 10 (Str.count "<IP_ADDRESS_STUB>" line)).
Proof.
  intros Hstub random_ip pieces. split; [|split; [|split; [|split]]].
  - intros i. pose proof (Z.mod_pos_bound (draw w i) 256). unfold octet. lia.
  - by apply ip_refill_run.
  - symmetry. by apply StrFacts.join_split.
  - by apply StrFacts.replace_join_split.
  - unfold pieces. by rewrite StrFacts.length_split.
Qed.

Lemma C8_ip_refill_witness :
  let w := {| tape := fun i => Z.of_nat i + 10; pos := 0; fs := ∅;
              writable := fun _ => true;
              obj := set__IP_ADDRESS_STUB "<IP_ADDRESS_STUB>"
                       (blank_instance LogTuner) |} in
  _replace_ip_addresses_stub "a <IP_ADDRESS_STUB> b <IP_ADDRESS_STUB>" w =
    (Ok "a 10.11.12.13 b 10.11.12.13", skip 4 w).
Proof.
  intros w.
  destruct (C8_ip_refill_single_address w
              "a <IP_ADDRESS_STUB> b <IP_ADDRESS_STUB>" eq_refl)
    as (_ & H & _).
  exact H.
Defined.

(** ** A replacement limited to 10 *)


Lemma choice_ok {A} (xs : list A) w :
  xs <> [] -> exists x, x ∈ xs /\ choice xs w = (Ok x, skip 1 w).
Proof.
  intros Hxs. unfold choice, mbind, M_bind, next_raw.
  set (i := Z.to_nat (tape w (pos w) `mod` Z.of_nat (length xs))).
  assert (i < length xs)%nat as Hi.
  { destruct xs; [done|]. unfold i.
    pose proof (Z.mod_pos_bound (tape w (pos w)) (Z.of_nat (length (a :: xs)))).
    simpl length in *. lia. }
  destruct (lookup_lt_is_Some_2 xs i Hi) as [x Hx]. exists x.
  split; [by eapply list_elem_of_lookup_2|]. by rewrite Hx.
Qed.

(** ** C7: the VLAN/group refill *)

(** With two VLAN placeholders in a line the code writes the same number
    twice, where a number per occurrence would give two draws. *)
Lemma C7_counterexample_one_number_per_line :
  ~ (forall w line,
       constructed CiscoIosLogTuner (obj w) ->
       _replace_miscellaneous_stub line w =
       spec_ios_replace_miscellaneous_stub line w).
Proof.
  intros H.
  assert (constructed CiscoIosLogTuner (obj (world_of ios_instance 0))) as Hc
    by (by vm_compute).
  generalize (H (world_of ios_instance 0) "<vlan> <vlan>" Hc). clear.
  assert (_replace_miscellaneous_stub "<vlan> <vlan>" (world_of ios_instance 0)
          = (Ok "Vlan1 Vlan1", skip 2 (world_of ios_instance 0))) as ->
    by (by vm_compute).
  assert (spec_ios_replace_miscellaneous_stub "<vlan> <vlan>"
            (world_of ios_instance 0)
          = (Ok "Vlan1 Vlan2", skip 2 (world_of ios_instance 0))) as ->
    by (by vm_compute).
  discriminate.
Qed.

(** C7 (amended). The VLAN/group refill draws one VLAN number in 1..5000
    and one group number in 1..300 for the line, whatever the number of
    placeholders in it, and replaces every occurrence of the VLAN
    placeholder with that one VLAN number and then every occurrence of the
    group placeholder with that one group number. *)
Theorem C7_vlan_grp_one_number_per_line (w : world) (line : string) :
  constructed CiscoIosLogTuner (obj w) ->
  let n := 1 + draw w 0 mod 5000 in
  let g := 1 + draw w 1 mod 300 in
  let random_vlan := "Vlan" +:+ str n in
  let random_grp := "Grp " +:+ str g in
  let line1 := Str.replace "<vlan>" random_vlan (-1) line in
  let result := Str.replace "<grp>" random_grp (-1) line1 in
  let vlan_pieces := Str.split "<vlan>" (-1) line in
  let grp_pieces := Str.split "<grp>" (-1) line1 in
  1 <= n <= 5000 /\ 1 <= g <= 300 /\
  _replace_miscellaneous_stub line w = (Ok result, skip 2 w) /\
  (line = Str.join "<vlan>" vlan_pieces /\
   line1 = Str.join random_vlan vlan_pieces /\
   length vlan_pieces = S (Str.count "<vlan>" line)) /\
  (line1 = Str.join "<grp>" grp_pieces /\
   result = Str.join random_grp grp_pieces /\
   length grp_pieces = S (Str.count "<grp>" line1)).
Proof.
  intros (Hk & _ & Hvlan & Hgrp) n g random_vlan random_grp line1 result
    vlan_pieces grp_pieces.
  split; [|split; [|split; [|split]]].
  - pose proof (Z.mod_pos_bound (draw w 0) 5000). lia.
  - pose proof (Z.mod_pos_bound (draw w 1) 300). lia.
  - unfold _replace_miscellaneous_stub, mbind, M_bind, get_self.
    rewrite Hk. simpl.
    unfold Ios._replace_miscellaneous_stub, mbind, M_bind, get_self.
    rewrite Hvlan, Hgrp. done.
  - split; [|split].
    + symmetry. by apply StrFacts.join_split.
    + by apply StrFacts.replace_join_split.
    + unfold vlan_pieces. by rewrite StrFacts.length_split.
  - split; [|split].
    + symmetry. by apply StrFacts.join_split.
    + by apply StrFacts.replace_join_split.
    + unfold grp_pieces. by rewrite StrFacts.length_split.
Qed.

Lemma C7_vlan_grp_witness :
  _replace_miscellaneous_stub "<vlan> <grp> <vlan> <grp>"
    (world_of ios_instance 41) =
  (Ok "Vlan42 Grp 43 Vlan42 Grp 43", skip 2 (world_of ios_instance 41)).
Proof.
  assert (constructed CiscoIosLogTuner (obj (world_of ios_instance 41))) as Hc
    by (by vm_compute).
  destruct (C7_vlan_grp_one_number_per_line (world_of ios_instance 41)
              "<vlan> <grp> <vlan> <grp>" Hc) as (_ & _ & H & _).
  rewrite H. by vm_compute.
Defined.

(** ** C5: the example scenario *)

Lemma read_file_lines_singleton t path content :
  read_file_lines path (initial_world t path content) =
  (Ok (readlines content), initial_world t path content).
Proof. unfold read_file_lines. simpl. by rewrite lookup_singleton_eq. Qed.

(** C5. The class docstring of [LogTuner] gives, for the sample line,
    the template "CET: <vlan> Grp <grp> state Speak -> Standby".  The
    code of CiscoIosLogTuner gives another one,
    " CET: <vlan> <grp> state Speak -> Standby\n": the first 15
    characters are removed, which leaves the space that followed them,
    "Vlan3649" becomes "<vlan>" and the whole of "Grp 92", its word
    "Grp" included, becomes "<grp>". *)
Theorem C5_sample_line_template (t : nat -> Z) (path : string) :
  exists w',
    construct CiscoIosLogTuner path (initial_world t path sample_line) =
      (Ok tt, w') /\
    log_lines (obj w') = [sample_line] /\
    common_log_lines (obj w') = [actual_template] /\
    _stub_date_and_time (obj w') sample_line =
      " CET: Vlan3649 Grp 92 state Speak -> Standby" +:+ nl /\
    _stub_ip_addresses (obj w')
      (" CET: Vlan3649 Grp 92 state Speak -> Standby" +:+ nl) =
      " CET: Vlan3649 Grp 92 state Speak -> Standby" +:+ nl /\
    _stub_miscellaneous (obj w')
      (" CET: Vlan3649 Grp 92 state Speak -> Standby" +:+ nl) =
      actual_template /\
    common_log_lines (obj w') <> [claimed_template].
Proof.
  eexists. split.
  - unfold construct, CiscoIosLogTuner__init__, LogTuner__init__.
    unfold mbind, M_bind. simpl.
    unfold read_file_lines. simpl. rewrite lookup_singleton_eq. reflexivity.
  - simpl. by vm_compute.
Qed.

(** ** C6: the size estimator *)

Lemma calculate_run (w : world) (size_mb : Z) (content : string) :
  fs w !! log_file_path (obj w) = Some content ->
  let n := Z.of_nat (length (log_lines (obj w))) in
  let avg := Z.of_nat (Str.len content) / n in
  _calculate_required_number_of_lines size_mb w =
  if n =? 0 then (Raised ZeroDivisionError, w)
  else if avg =? 0 then (Raised ZeroDivisionError, w)
  else (Ok (size_mb * 1024 * 1024 / avg), w).
Proof.
  intros Hfile n avg.
  unfold _calculate_required_number_of_lines,
    Base._calculate_required_number_of_lines.
  unfold mbind, M_bind, get_self, stat_st_size. rewrite Hfile.
  unfold floordiv. fold n. destruct (n =? 0); [done|]. simpl. fold n avg.
  by destruct (avg =? 0).
Qed.

(** C6. The size estimator divides the sample file size by the number of
    sample lines, and the requested size in bytes (size_mb * 1024 * 1024)
    by that average, both by integer division.  It raises
    ZeroDivisionError exactly when the number of lines or the average is
    zero, and then [generate_log] stops with that error and writes
    nothing. *)
Theorem C6_size_estimator (w : world) (size_mb : Z) (content out : string) :
  fs w !! log_file_path (obj w) = Some content ->
  let sample_line_count := Z.of_nat (length (log_lines (obj w))) in
  let sample_file_size := Z.of_nat (Str.len content) in
  let average_line_size := sample_file_size / sample_line_count in
  (sample_line_count <> 0 -> average_line_size <> 0 ->
   _calculate_required_number_of_lines size_mb w =
     (Ok (size_mb * 1024 * 1024 / average_line_size), w)) /\
  (sample_line_count = 0 \/ average_line_size = 0 ->
   _calculate_required_number_of_lines size_mb w =
     (Raised ZeroDivisionError, w) /\
   generate_log size_mb out w = (Raised ZeroDivisionError, w)) /\
  ((_calculate_required_number_of_lines size_mb w).1
     = Raised ZeroDivisionError <->
   sample_line_count = 0 \/ average_line_size = 0).
Proof.
  intros Hfile n sz avg.
  pose proof (calculate_run w size_mb content Hfile) as Hrun.
  simpl in Hrun. fold n sz avg in Hrun.
  destruct (Z.eqb_spec n 0) as [Hn|Hn]; [|destruct (Z.eqb_spec avg 0) as [Ha|Ha]].
  - split; [done|]. split; [|rewrite Hrun; simpl; tauto].
    intros _. split; [done|]. unfold generate_log. by erewrite bind_raised.
  - split; [done|]. split; [|rewrite Hrun; simpl; tauto].
    intros _. split; [done|]. unfold generate_log. by erewrite bind_raised.
  - split; [done|]. split; [tauto|]. rewrite Hrun. simpl.
    split; [done|tauto].
Qed.

Lemma C6_size_estimator_witness :
  let w := {| tape := fun _ => 0; pos := 0;
              fs := {["sample.log" := "abcdefghi" +:+ nl +:+ "0123456789" +:+ nl]};
              writable := fun _ => true;
              obj := set_log_lines ["abcdefghi" +:+ nl; "0123456789" +:+ nl]
                       (set_log_file_path "sample.log"
                          (blank_instance LogTuner)) |} in
  _calculate_required_number_of_lines 1 w = (Ok 104857, w).
Proof.
  intros w.
  destruct (C6_size_estimator w 1
              ("abcdefghi" +:+ nl +:+ "0123456789" +:+ nl) "out.log" eq_refl)
    as (H & _).
  rewrite H; [by vm_compute|by vm_compute..].
Defined.

(** ** What a computation leaves alone *)

Section Keeps.
Variables (E : exn -> Prop) (P : instance -> Prop).
Hypothesis E_IndexError : E IndexError.
Hypothesis E_OSError : E OSError.
Hypothesis E_ZeroDivisionError : E ZeroDivisionError.
Hypothesis E_OverflowError : E OverflowError.
Hypothesis E_IOError : E IOError.

Lemma keeps_ret {A} (a : A) : keeps E P (mret a).
Proof. by intros w _. Qed.

Lemma keeps_raise {A} e : E e -> keeps E P (raise e : M A).
Proof. intros He w _. split; [done|]. by intros ? [= <-]. Qed.

Lemma keeps_at_bind {A B} (m : M A) (f : A -> M B) w :
  keeps_at E m w ->
  (forall a w1, m w = (Ok a, w1) -> keeps_at E (f a) w1) ->
  keeps_at E (m ≫= f) w.
Proof.
  unfold keeps_at, mbind, M_bind. intros [Hobj Hexn] Hf.
  destruct (m w) as [[a|e] w1]; simpl in *.
  2: { split; [done|]. intros e0 [= <-]. by apply Hexn. }
  destruct (Hf a w1 eq_refl) as [Hobj' Hexn']. split; [congruence|done].
Qed.

Lemma keeps_bind {A B} (m : M A) (f : A -> M B) :
  keeps E P m -> (forall a, keeps E P (f a)) -> keeps E P (m ≫= f).
Proof.
  intros Hm Hf w HP. apply keeps_at_bind; [by apply Hm|].
  intros a w1 Hrun. apply Hf. destruct (Hm w HP) as [Hobj _].
  rewrite Hrun in Hobj. simpl in Hobj. by rewrite Hobj.
Qed.

(** After [self ← get_self], [self] is the object of the world. *)
Lemma keeps_get_self {B} (f : instance -> M B) :
  (forall w, P (obj w) -> keeps_at E (f (obj w)) w) ->
  keeps E P (get_self ≫= f).
Proof. intros Hf w HP. by apply Hf. Qed.

Lemma keeps_next_raw : keeps E P next_raw.
Proof. by intros w _. Qed.

Lemma keeps_randint a b : keeps E P (randint a b).
Proof. by intros w _. Qed.

Lemma keeps_choice {A} (xs : list A) : keeps E P (choice xs).
Proof.
  intros w _. unfold keeps_at, choice, mbind, M_bind, next_raw.
  destruct (xs !! _); simpl; [done|]. split; [done|]. by intros ? [= <-].
Qed.

Lemma keeps_stat_st_size path : keeps E P (stat_st_size path).
Proof.
  intros w _. unfold keeps_at, stat_st_size.
  destruct (fs w !! path); simpl; [done|]. split; [done|]. by intros ? [= <-].
Qed.

Lemma keeps_write_file_lines path lines :
  keeps E P (write_file_lines path lines).
Proof.
  intros w _. unfold keeps_at, write_file_lines.
  destruct (can_open_for_writing w path); simpl; [done|].
  split; [done|]. by intros ? [= <-].
Qed.

Lemma keeps_floordiv a b : keeps E P (floordiv a b).
Proof.
  unfold floordiv. destruct (b =? 0);
    [by apply keeps_raise|apply keeps_ret].
Qed.

Lemma keeps_datetime_add dt ms : keeps E P (datetime_add dt ms).
Proof.
  unfold datetime_add. destruct (9999 <? _);
    [by apply keeps_raise|apply keeps_ret].
Qed.

Lemma keeps_for_range {A} n (body : M A) :
  keeps E P body -> keeps E P (for_range n body).
Proof.
  intros Hbody. induction n as [|n IH]; simpl; [apply keeps_ret|].
  apply keeps_bind; [done|]. intros x.
  apply keeps_bind; [done|]. intros rest. apply keeps_ret.
Qed.

Ltac keeps_step :=
  first [ apply keeps_ret | apply keeps_randint | apply keeps_choice
        | apply keeps_stat_st_size | apply keeps_write_file_lines
        | apply keeps_floordiv | apply keeps_datetime_add
        | apply keeps_bind; [|intros ?] ].

Lemma keeps_igk_stamp_lines lines :
  forall dt, keeps E P (Igk.stamp_lines dt lines).
Proof.
  induction lines as [|line lines IH]; intros dt; simpl; [apply keeps_ret|].
  destruct (Str.blank line); repeat keeps_step; apply IH.
Qed.

Lemma keeps_wlc_stamp_lines self lines :
  forall dt, keeps E P (Wlc.stamp_lines self dt lines).
Proof.
  induction lines as [|line lines IH]; intros dt; simpl; [apply keeps_ret|].
  repeat keeps_step; apply IH.
Qed.

Lemma keeps_ios_stamp_lines lines :
  forall dt, keeps E P (Ios.stamp_lines dt lines).
Proof.
  induction lines as [|line lines IH]; intros dt; simpl; [apply keeps_ret|].
  repeat keeps_step; apply IH.
Qed.

Lemma keeps_replace_date_and_time_stub lines :
  keeps E P (_replace_date_and_time_stub lines).
Proof.
  unfold _replace_date_and_time_stub. apply keeps_get_self. intros w HP.
  destruct (klass_of (obj w)); simpl.
  - by apply keeps_ret.
  - by apply keeps_igk_stamp_lines.
  - unfold Wlc._replace_date_and_time_stub.
    refine (keeps_get_self _ _ w HP).
    intros w' HP'. by apply keeps_wlc_stamp_lines.
  - by apply keeps_ios_stamp_lines.
Qed.

Lemma keeps_replace_ip_addresses_stub line :
  keeps E P (_replace_ip_addresses_stub line).
Proof.
  unfold _replace_ip_addresses_stub, Base._replace_ip_addresses_stub.
  apply keeps_bind; [by intros w _|]. intros self.
  apply keeps_bind; [|intros ?; apply keeps_ret].
  apply keeps_for_range. repeat keeps_step.
Qed.

Lemma keeps_calculate size_mb :
  keeps E P (_calculate_required_number_of_lines size_mb).
Proof.
  unfold _calculate_required_number_of_lines,
    Base._calculate_required_number_of_lines.
  apply keeps_bind; [by intros w _|]. intros self. repeat keeps_step.
Qed.

(** The miscellaneous refill: the body of [LogTuner] raises, the bodies
    of the subclasses do not. *)
Hypothesis base_body :
  forall o, P o -> klass_of o = LogTuner -> E (NameError "lines").

Lemma keeps_replace_miscellaneous_stub line :
  keeps E P (_replace_miscellaneous_stub line).
Proof.
  unfold _replace_miscellaneous_stub. apply keeps_get_self. intros w HP.
  destruct (klass_of (obj w)) eqn:Hk; simpl.
  - apply keeps_raise; [|done]. by eapply base_body.
  - unfold Igk._replace_miscellaneous_stub.
    apply keeps_bind; [by intros ? _| |done]. intros self.
    destruct line; repeat keeps_step.
  - unfold Wlc._replace_miscellaneous_stub.
    apply keeps_bind; [by intros ? _| |done]. intros self. repeat keeps_step.
  - unfold Ios._replace_miscellaneous_stub.
    apply keeps_bind; [by intros ? _| |done]. intros self. repeat keeps_step.
Qed.

Lemma keeps_generate_line : keeps E P generate_line.
Proof.
  unfold generate_line. apply keeps_bind; [by intros ? _|]. intros self.
  apply keeps_bind; [apply keeps_choice|]. intros line.
  apply keeps_bind; [apply keeps_replace_ip_addresses_stub|]. intros line1.
  apply keeps_bind; [apply keeps_replace_miscellaneous_stub|]. intros line2.
  apply keeps_ret.
Qed.

Lemma keeps_generate_log size_mb output_file_path :
  keeps E P (generate_log size_mb output_file_path).
Proof.
  unfold generate_log.
  apply keeps_bind; [apply keeps_calculate|]. intros n.
  apply keeps_bind; [apply keeps_for_range, keeps_generate_line|].
  intros lines.
  apply keeps_bind; [apply keeps_replace_date_and_time_stub|]. intros out.
  apply keeps_write_file_lines.
Qed.

End Keeps.

(** ** Construction *)

Lemma for_range_draws {A} (body : M A) :
  (forall w, exists a k, body w = (Ok a, skip k w)) ->
  forall n w, exists l k, for_range n body w = (Ok l, skip k w).
Proof.
  intros Hbody n. induction n as [|n IH]; intros w; simpl.
  - exists [], 0%nat. by destruct w.
  - destruct (Hbody w) as (a & k & Ha).
    destruct (IH (skip k w)) as (l & k' & Hl).
    exists (a :: l), (k' + k)%nat.
    unfold mbind, M_bind. by rewrite Ha, Hl, skip_skip.
Qed.

Lemma generate_macs_ok n w :
  exists macs k, Wlc._generate_macs n w = (Ok macs, skip k w).
Proof.
  unfold Wlc._generate_macs. apply for_range_draws. clear.
  intros w. by eexists _, 6%nat.
Qed.

(** A constructor either fails on the file, or ends with an object of its
    class that holds the placeholders of the class, the sample lines and
    their templates. *)
Lemma construct_spec k path w :
  let r := (construct k path w).1 in
  let w' := (construct k path w).2 in
  (forall e, r = Raised e -> e = IOError) /\
  (r = Ok tt ->
   constructed k (obj w') /\
   log_file_path (obj w') = path /\
   common_log_lines (obj w') = map (stub_line (obj w')) (log_lines (obj w')) /\
   exists content, fs w !! path = Some content /\
                   fs w' = fs w /\
                   log_lines (obj w') = readlines content).
Proof.
  unfold construct.
  destruct k; unfold mbind, M_bind, set_self;
    [unfold LogTuner__init__|unfold IgkExtremeLogTuner__init__, LogTuner__init__
    |unfold CiscoWlcLogTuner__init__, LogTuner__init__
    |unfold CiscoIosLogTuner__init__, LogTuner__init__];
    unfold mbind, M_bind, set_self, read_file_lines, gather_common_log_lines,
      get_self, mret, M_ret; cbn [obj fs tape pos writable].
  3: { match goal with |- context [Wlc._generate_macs ?n ?w0] =>
         destruct (generate_macs_ok n w0) as (macs & j & ->) end.
       cbn [obj fs tape pos writable skip].
       destruct (fs w !! path) as [content|] eqn:Hf; cbn.
       - split; [done|]. intros _. repeat split; eauto.
       - split; [by intros ? [= <-]|done]. }
  all: destruct (fs w !! path) as [content|] eqn:Hf; cbn;
    [split; [done|]; intros _; repeat split; eauto
    |split; [by intros ? [= <-]|done]].
Qed.

(** ** C9: the template pool and the sample lines are not mutated *)

Lemma generate_log_keeps_obj size_mb out w :
  obj (generate_log size_mb out w).2 = obj w.
Proof.
  by apply (keeps_generate_log (fun _ => True) (fun _ => True)).
Qed.

Lemma main_registered class_name k input output size_mb w :
  classes !! class_name = Some k ->
  main_tail input output size_mb class_name w =
  (construct k input ≫= fun _ => generate_log size_mb output) w.
Proof. unfold main_tail. by intros ->. Qed.

(** C9. Whatever [generate_log] does after the construction, and whether
    it returns or raises, the tuner object is afterwards as the
    constructor left it: the same template pool ([common_log_lines]) and
    the same sample lines ([log_lines]). *)
Theorem C9_pool_and_sample_not_mutated (k : klass)
    (class_name input output : string) (size_mb : Z) (w w1 : world) :
  construct k input w = (Ok tt, w1) ->
  let w2 := (generate_log size_mb output w1).2 in
  common_log_lines (obj w2) = common_log_lines (obj w1) /\
  log_lines (obj w2) = log_lines (obj w1) /\
  obj w2 = obj w1 /\
  (classes !! class_name = Some k ->
   obj (main_tail input output size_mb class_name w).2 = obj w1).
Proof.
  intros Hc w2. pose proof (generate_log_keeps_obj size_mb output w1) as Hobj.
  fold w2 in Hobj. rewrite Hobj. repeat split.
  intros Hk. rewrite (main_registered _ _ _ _ _ _ Hk).
  rewrite (bind_ok _ _ _ _ _ Hc). apply generate_log_keeps_obj.
Qed.

Lemma C9_pool_witness :
  let w := initial_world (fun i => Z.of_nat i) "sample.log" sample_line in
  let w1 := (construct CiscoIosLogTuner "sample.log" w).2 in
  common_log_lines (obj (generate_log 1 "out.log" w1).2) = [actual_template].
Proof.
  intros w w1.
  assert (construct CiscoIosLogTuner "sample.log" w = (Ok tt, w1)) as Hc
    by (vm_compute; reflexivity).
  pose proof (C9_pool_and_sample_not_mutated CiscoIosLogTuner
                "CiscoIosLogTuner" "sample.log" "out.log" 1 w w1 Hc) as H.
  cbv zeta in H. destruct H as (H & _).
  rewrite H. vm_compute. reflexivity.
Defined.

(** ** C10: the miscellaneous refill of the base class is not reached *)

(** The body of [LogTuner._replace_miscellaneous_stub] raises NameError
    whenever it runs. *)
Lemma base_replace_miscellaneous_stub_raises line w :
  Base._replace_miscellaneous_stub line w = (Raised (NameError "lines"), w).
Proof. done. Qed.

Lemma registered_classes class_name k :
  classes !! class_name = Some k ->
  k = CiscoIosLogTuner \/ k = CiscoWlcLogTuner \/ k = IgkExtremeLogTuner.
Proof.
  unfold classes. intros H.
  apply lookup_insert_Some in H as [[_ <-]|[_ H]]; [tauto|].
  apply lookup_insert_Some in H as [[_ <-]|[_ H]]; [tauto|].
  apply lookup_insert_Some in H as [[_ <-]|[_ H]]; [tauto|].
  by rewrite lookup_empty in H.
Qed.

Lemma generate_log_no_name_error size_mb out w :
  klass_of (obj w) <> LogTuner ->
  not_name_error_result (generate_log size_mb out w).1.
Proof.
  intros Hk e He.
  refine (proj2 (keeps_generate_log not_name_error
                   (fun o => klass_of o <> LogTuner) _ _ _ _ _ _
                   size_mb out w Hk) e He); try done.
Qed.

Lemma main_no_name_error class_name k input out size_mb w :
  classes !! class_name = Some k ->
  not_name_error_result (main_tail input out size_mb class_name w).1.
Proof.
  intros Hk. rewrite (main_registered _ _ _ _ _ _ Hk).
  destruct (construct_spec k input w) as [Hfail Hok].
  destruct (construct k input w) as [[[]|e] w1] eqn:Hc; simpl in *.
  - rewrite (bind_ok _ _ _ _ _ Hc). apply generate_log_no_name_error.
    destruct (Hok eq_refl) as ((-> & _) & _).
    apply registered_classes in Hk. by destruct Hk as [->|[->| ->]].
  - rewrite (bind_raised _ _ _ _ _ Hc). simpl.
    intros ? [= <-] name. by rewrite (Hfail e eq_refl).
Qed.

(** *** The command line *)

Lemma short_has_arg_raises opt shortopts e :
  Getopt.short_has_arg opt shortopts = Raised e -> e = GetoptError.
Proof.
  induction shortopts as [|c rest IH]; cbn [Getopt.short_has_arg];
    [by intros [= <-]|].
  destruct (Ascii.eqb opt c && negb (Ascii.eqb c ":")); [done|apply IH].
Qed.

Lemma do_shorts_raises optstring shortopts args e :
  Getopt.do_shorts optstring shortopts args = Raised e -> e = GetoptError.
Proof.
  induction optstring as [|opt rest IH]; cbn [Getopt.do_shorts]; [done|].
  destruct (Getopt.short_has_arg opt shortopts) as [[]|e'] eqn:Hs.
  - destruct rest, args; try done. by intros [= <-].
  - destruct (Getopt.do_shorts rest shortopts args) as [[opts args']|e'];
      [done|]. intros [= <-]. by apply IH.
  - intros [= <-]. by apply short_has_arg_raises in Hs.
Qed.

Lemma getopt_raises args shortopts e :
  Getopt.getopt args shortopts = Raised e -> e = GetoptError.
Proof.
  unfold Getopt.getopt. generalize (length args). intros fuel. revert args.
  induction fuel as [|fuel IH]; intros [|arg args];
    cbn [Getopt.getopt_loop]; try done.
  destruct (Str.strip_prefix "-" arg) as [[|c optstring]|]; try done.
  destruct (Str.strip_prefix "-" (String c optstring)) as [[|c' o]|];
    [done|by intros [= <-]|].
  destruct (Getopt.do_shorts (String c optstring) shortopts args)
    as [[opts rest]|e'] eqn:Hd.
  - destruct (Getopt.getopt_loop fuel rest shortopts) as [[more rest']|e']
      eqn:Hl; [done|]. intros [= <-]. by apply (IH rest).
  - intros [= <-]. by apply do_shorts_raises in Hd.
Qed.

Lemma py_int_raises s e : py_int s = Raised e -> e = ValueError.
Proof.
  unfold py_int. intros H. repeat case_match; congruence.
Qed.

Lemma read_options_raises options values e :
  read_options options values = Raised e -> e = ValueError.
Proof.
  revert values. induction options as [|[opt arg] rest IH]; intros values;
    cbn [read_options]; [done|].
  destruct values as [[[i o] s] c].
  repeat case_match; try apply IH.
  intros [= <-]. by eapply py_int_raises.
Qed.

(** The main program stops before it reads or writes anything, or goes
    on with the four values of its options. *)
Lemma main_cases argv w :
  (exists e, (e = GetoptError \/ e = ValueError \/ e = SystemExit 1) /\
             main argv w = (Raised e, w)) \/
  (exists input output size class_name,
     main argv w = main_tail input output size class_name w).
Proof.
  unfold main.
  destruct (Getopt.getopt argv "i:o:s:c:") as [[options rest]|e] eqn:Hg.
  - destruct (read_options options (None, None, None, None))
      as [[[[i o] s] c]|e] eqn:Hr.
    + destruct i, o, s, c;
        first [right; by eexists _, _, _, _
              |left; eexists; split; [|reflexivity]; auto].
    + left. exists e. apply read_options_raises in Hr as ->. auto.
  - left. exists e. apply getopt_raises in Hg as ->. auto.
Qed.

Lemma main_argv_no_name_error argv w :
  not_name_error_result (main argv w).1.
Proof.
  destruct (main_cases argv w)
    as [(e & He & ->)|(input & output & size & class_name & ->)].
  - intros e' [= <-] name. by destruct He as [->|[->| ->]].
  - destruct (classes !! class_name) as [k|] eqn:Hk.
    + by eapply main_no_name_error.
    + unfold main_tail. rewrite Hk. by intros e' [= <-] name.
Qed.

(** C10. For a class of the [classes] dictionary the call
    [self._replace_miscellaneous_stub(line)] resolves to the body written
    in that class, never to the body of [LogTuner]; that body raises
    NameError whenever it runs, and neither [generate_log] on an instance
    of the class nor the main program, whatever its arguments, ever
    raises NameError. *)
Theorem C10_base_miscellaneous_refill_not_reached (class_name : string)
    (k : klass) :
  classes !! class_name = Some k ->
  k <> LogTuner /\
  resolve k m_replace_miscellaneous_stub = Some k /\
  (forall line w,
     klass_of (obj w) = k ->
     _replace_miscellaneous_stub line w =
     replace_miscellaneous_stub_body k line w) /\
  (forall line w,
     replace_miscellaneous_stub_body LogTuner line w =
     (Raised (NameError "lines"), w)) /\
  (forall size_mb out w,
     klass_of (obj w) = k ->
     not_name_error_result (generate_log size_mb out w).1) /\
  (forall input out size_mb w,
     not_name_error_result (main_tail input out size_mb class_name w).1) /\
  (forall argv w, not_name_error_result (main argv w).1).
Proof.
  intros Hk. pose proof (registered_classes _ _ Hk) as Hreg.
  split; [by destruct Hreg as [->|[->| ->]]|].
  split; [by destruct Hreg as [->|[->| ->]]|].
  split; [|split; [done|split; [|split; [|apply main_argv_no_name_error]]]].
  - intros line w Hw. unfold _replace_miscellaneous_stub, mbind, M_bind, get_self.
    rewrite Hw. by destruct Hreg as [->|[->| ->]].
  - intros size_mb out w Hw. apply generate_log_no_name_error.
    rewrite Hw. by destruct Hreg as [->|[->| ->]].
  - intros input out size_mb w. by eapply main_no_name_error.
Qed.

Lemma C10_not_reached_witness :
  CiscoIosLogTuner <> LogTuner /\
  resolve CiscoIosLogTuner m_replace_miscellaneous_stub =
    Some CiscoIosLogTuner.
Proof.
  assert (classes !! "CiscoIosLogTuner" = Some CiscoIosLogTuner) as Hk
    by (vm_compute; reflexivity).
  destruct (C10_base_miscellaneous_refill_not_reached
              "CiscoIosLogTuner" CiscoIosLogTuner Hk) as (H1 & H2 & _).
  by split.
Defined.

(** ** The stubbers on lines without their pattern *)

Lemma findall_scan_no_match r s :
  Re.search r s = false -> forall fuel, Re.findall_scan fuel r s = [].
Proof.
  induction s as [|c s IH]; intros Hs [|fuel]; try done; simpl in *;
    destruct (Re.match_at r _); try done.
  by apply IH.
Qed.

Lemma findall_no_match r s : Re.search r s = false -> Re.findall r s = [].
Proof. intros Hs. by apply findall_scan_no_match. Qed.

Lemma is_space_cases c :
  Ascii.is_space c = true ->
  c = "009"%char \/ c = "010"%char \/ c = "011"%char \/
  c = "012"%char \/ c = "013"%char \/ c = " "%char.
Proof.
  destruct c as [[] [] [] [] [] [] [] []]; simpl; intros H;
    try discriminate H; tauto.
Qed.

(** A pattern that cannot start with white space occurs in no blank
    line. *)
Lemma blank_no_match r :
  Re.match_at r "" = None ->
  (forall c s, Ascii.is_space c = true -> Re.match_at r (String c s) = None) ->
  forall s, Str.blank s = true -> Re.search r s = false.
Proof.
  intros Hnil Hsp s. induction s as [|c s IH]; simpl.
  - by rewrite Hnil.
  - intros [Hc Hs]%andb_prop. rewrite (Hsp c s Hc). by apply IH.
Qed.

Ltac no_match_on_space :=
  intros c s [->|[->|[->|[->|[->| ->]]]]]%is_space_cases;
  vm_compute; reflexivity.

Lemma blank_no_target (r : Re.regex) :
  r ∈ [Re.ip_address; Re.last_seconds; Re.wlc_time; Re.mac_address;
       Re.vlan; Re.grp] ->
  forall s, Str.blank s = true -> Re.search r s = false.
Proof.
  intros Hr. apply blank_no_match; revert Hr;
    rewrite !elem_of_cons, elem_of_nil;
    intros [->|[->|[->|[->|[->|[->|[]]]]]]]; try reflexivity;
    no_match_on_space.
Qed.

Lemma replace_each_nil new count line : replace_each [] new count line = line.
Proof. done. Qed.

(** A stubber that looks for patterns leaves a line without them as it
    is. *)
Lemma stubber_no_target (s : stubber) (self : instance) (line : string) rs :
  target_patterns (klass_of self) s = Some rs ->
  Forall (fun r => Re.search r line = false) rs ->
  run_stubber s self line = line.
Proof.
  unfold run_stubber, _stub_date_and_time, _stub_ip_addresses,
    _stub_miscellaneous.
  destruct s, (klass_of self); simpl; intros [= <-] Hrs; try done;
    repeat match goal with
           | H : Forall _ (_ :: _) |- _ =>
               apply Forall_cons in H as [?%findall_no_match H]
           end.
  all: unfold Base._stub_ip_addresses, Wlc._stub_date_and_time,
         Igk._stub_miscellaneous, Wlc._stub_miscellaneous,
         Ios._stub_miscellaneous; simpl.
  all: repeat match goal with H : Re.findall _ _ = [] |- _ =>
         rewrite H, ?replace_each_nil; clear H end; done.
Qed.

(** ** Dates and times *)

Module DateFacts.

Lemma us_per_day_pos : 0 < us_per_day.
Proof. done. Qed.

(** The four fields of a time of the day give the time back. *)
Lemma time_of_day_of_date_time ymd t :
  0 <= t < us_per_day -> time_of_day_us (of_date_time ymd t) = t.
Proof.
  destruct ymd as [[y m] d]. unfold time_of_day_us, us_per_day. simpl.
  intros Ht. Z.to_euclidean_division_equations. lia.
Qed.

Lemma date_of_date_time ymd t : date_of (of_date_time ymd t) = ymd.
Proof. by destruct ymd as [[y m] d]. Qed.

Lemma valid_time_of_date_time ymd t :
  0 <= t < us_per_day -> valid_time (of_date_time ymd t).
Proof.
  destruct ymd as [[y m] d]. unfold valid_time, us_per_day. simpl.
  intros Ht. Z.to_euclidean_division_equations. lia.
Qed.

Lemma time_of_day_range dt :
  valid_time dt -> 0 <= time_of_day_us dt < us_per_day.
Proof. unfold valid_time, time_of_day_us, us_per_day. lia. Qed.

Lemma of_date_time_eta dt :
  valid_time dt -> of_date_time (date_of dt) (time_of_day_us dt) = dt.
Proof.
  destruct dt as [y m d h mi s us]. unfold valid_time, time_of_day_us.
  simpl. intros Hv. f_equal; Z.to_euclidean_division_equations; lia.
Qed.

Lemma mod_range a : 0 <= a mod us_per_day < us_per_day.
Proof. apply Z.mod_pos_bound, us_per_day_pos. Qed.

Lemma valid_time_advance dt ms : valid_time (advance dt ms).
Proof. apply valid_time_of_date_time, mod_range. Qed.

Lemma time_of_day_advance dt ms :
  time_of_day_us (advance dt ms) =
  (time_of_day_us dt + 1000 * ms) mod us_per_day.
Proof. apply time_of_day_of_date_time, mod_range. Qed.

Lemma date_of_advance dt ms :
  date_of (advance dt ms) =
  N.iter (Z.to_N ((time_of_day_us dt + 1000 * ms) / us_per_day)) next_date
    (date_of dt).
Proof. apply date_of_date_time. Qed.

Lemma advance_0 dt : valid_time dt -> advance dt 0 = dt.
Proof.
  intros Hv. pose proof (time_of_day_range dt Hv) as Ht. unfold advance.
  rewrite Z.mul_0_r, Z.add_0_r, Z.div_small, Z.mod_small by done.
  by apply of_date_time_eta.
Qed.

(** Advancing twice is advancing by the sum. *)
Lemma advance_add dt a b :
  valid_time dt -> 0 <= a -> 0 <= b ->
  advance (advance dt a) b = advance dt (a + b).
Proof.
  intros Hv Ha Hb. pose proof (time_of_day_range dt Hv) as Ht.
  unfold advance at 1. rewrite time_of_day_advance, date_of_advance.
  unfold advance. rewrite <- N.iter_add.
  pose proof us_per_day_pos as HD. unfold us_per_day in *.
  f_equal.
  - f_equal. Z.to_euclidean_division_equations. lia.
  - Z.to_euclidean_division_equations. lia.
Qed.

(** The next date is a later date, and no more than a year later. *)
Lemma date_lt_next ymd : date_lt ymd (next_date ymd).
Proof.
  destruct ymd as [[y m] d]. unfold next_date, date_lt.
  destruct (Z.ltb_spec d (days_in_month y m)); [lia|].
  destruct (Z.ltb_spec m 12); lia.
Qed.

Lemma date_lt_trans a b c : date_lt a b -> date_lt b c -> date_lt a c.
Proof.
  destruct a as [[ya ma] da], b as [[yb mb] db], c as [[yc mc] dc].
  unfold date_lt. lia.
Qed.

Lemma date_lt_iter n ymd :
  (0 < n)%N -> date_lt ymd (N.iter n next_date ymd).
Proof.
  induction n as [|n IH] using N.peano_ind; [lia|]. intros _.
  rewrite N.iter_succ. destruct (N.eq_dec n 0%N) as [->|Hn].
  - apply date_lt_next.
  - eapply date_lt_trans; [apply IH; lia|apply date_lt_next].
Qed.

Lemma year_iter n ymd :
  ymd.1.1 <= (N.iter n next_date ymd).1.1 <= ymd.1.1 + Z.of_N n.
Proof.
  induction n as [|n IH] using N.peano_ind; [simpl; lia|].
  rewrite N.iter_succ. destruct (N.iter n next_date ymd) as [[y m] d].
  unfold next_date. simpl in *.
  destruct (d <? days_in_month y m), (m <? 12); simpl; lia.
Qed.

(** Advancing by a duration that is not negative gives a datetime that
    is not earlier. *)
Lemma chron_le_advance dt ms :
  valid_time dt -> 0 <= ms -> chron_le dt (advance dt ms).
Proof.
  intros Hv Hms. pose proof (time_of_day_range dt Hv) as Ht.
  unfold chron_le. rewrite date_of_advance, time_of_day_advance.
  set (total := time_of_day_us dt + 1000 * ms).
  assert (0 <= total / us_per_day) as Hq
    by (apply Z.div_pos; [subst total; lia|apply us_per_day_pos]).
  destruct (Z.eq_dec (total / us_per_day) 0) as [H0|H0].
  - right. rewrite H0. split; [done|].
    rewrite Z.mod_small; [subst total; lia|].
    apply Z.div_small_iff in H0; [|done]. subst total.
    unfold us_per_day in *. lia.
  - left. apply date_lt_iter. lia.
Qed.

(** The year after advancing by [ms] milliseconds. *)
Lemma year_advance dt ms :
  valid_time dt -> 0 <= ms ->
  year dt <= year (advance dt ms) <= year dt + (1 + ms / 86400000).
Proof.
  intros Hv Hms. pose proof (time_of_day_range dt Hv) as Ht.
  pose proof (f_equal (fun x => x.1.1) (date_of_advance dt ms)) as Hy.
  simpl in Hy. rewrite Hy.
  pose proof (year_iter
    (Z.to_N ((time_of_day_us dt + 1000 * ms) / us_per_day)) (date_of dt))
    as Hb.
  simpl in Hb.
  assert (0 <= (time_of_day_us dt + 1000 * ms) / us_per_day <=
          1 + ms / 86400000) as Hq.
  { unfold us_per_day in *. Z.to_euclidean_division_equations. lia. }
  lia.
Qed.

End DateFacts.

(** ** The loop of the date and time refill *)

Lemma bind_ext {A B} (m m' : M A) (f g : A -> M B) w :
  m w = m' w -> (forall a w', f a w' = g a w') -> (m ≫= f) w = (m' ≫= g) w.
Proof.
  intros Hm Hfg. unfold mbind, M_bind. rewrite Hm.
  by destruct (m' w) as [[a|e] w'].
Qed.

Lemma igk_stamp_lines_loop self lines dt w :
  Igk.stamp_lines dt lines w = stamp_loop IgkExtremeLogTuner self dt lines w.
Proof.
  revert dt w. induction lines as [|line lines IH]; intros dt w; [done|].
  simpl. destruct (Str.blank line).
  - by apply bind_ext.
  - apply bind_ext; [done|]. intros ms w1. apply bind_ext; [done|].
    intros dt' w2. by apply bind_ext.
Qed.

Lemma wlc_stamp_lines_loop self lines dt w :
  Wlc.stamp_lines self dt lines w =
  stamp_loop CiscoWlcLogTuner self dt lines w.
Proof.
  revert dt w. induction lines as [|line lines IH]; intros dt w; [done|].
  simpl. apply bind_ext; [done|]. intros ms w1. apply bind_ext; [done|].
  intros dt' w2. by apply bind_ext.
Qed.

Lemma ios_stamp_lines_loop self lines dt w :
  Ios.stamp_lines dt lines w = stamp_loop CiscoIosLogTuner self dt lines w.
Proof.
  revert dt w. induction lines as [|line lines IH]; intros dt w; [done|].
  simpl. apply bind_ext; [done|]. intros ms w1. apply bind_ext; [done|].
  intros dt' w2. by apply bind_ext.
Qed.

Lemma base_stamp_loop self lines dt w :
  stamp_loop LogTuner self dt lines w = (Ok lines, w).
Proof.
  induction lines as [|line lines IH]; [done|]. simpl.
  unfold mbind, M_bind. by rewrite IH.
Qed.

(** The refill of a class is the common loop from the seed of the
    class. *)
Lemma replace_date_and_time_stub_loop lines w :
  _replace_date_and_time_stub lines w =
  stamp_loop (klass_of (obj w)) (obj w) (seed_of (klass_of (obj w))) lines w.
Proof.
  unfold _replace_date_and_time_stub, mbind, M_bind, get_self.
  destruct (klass_of (obj w)); simpl.
  - by rewrite base_stamp_loop.
  - apply igk_stamp_lines_loop.
  - apply wlc_stamp_lines_loop.
  - apply ios_stamp_lines_loop.
Qed.

Lemma skip_0 w : skip 0 w = w.
Proof. by destruct w. Qed.

Lemma delta_range w i : 0 <= delta w i <= 100.
Proof. unfold delta. pose proof (Z.mod_pos_bound (draw w i) 101). lia. Qed.

Lemma elapsed_range w n : 0 <= elapsed w n <= 100 * Z.of_nat n.
Proof.
  induction n as [|n IH]; simpl; [lia|].
  pose proof (delta_range w n). lia.
Qed.

Lemma elapsed_mono w m n : (m <= n)%nat -> elapsed w m <= elapsed w n.
Proof.
  induction 1 as [|n _ IH]; [lia|]. simpl.
  pose proof (delta_range w n). lia.
Qed.

Lemma valid_time_seed k : valid_time (seed_of k).
Proof. destruct k; vm_compute; intuition discriminate. Qed.

Lemma cursor_0 k w : cursor k w 0 = seed_of k.
Proof. apply DateFacts.advance_0, valid_time_seed. Qed.

(** One step of the cursor. *)
Lemma cursor_S k w n :
  cursor k w (S n) = advance (cursor k w n) (delta w n).
Proof.
  unfold cursor. simpl. rewrite DateFacts.advance_add; [done|..].
  - apply valid_time_seed.
  - apply elapsed_range.
  - apply delta_range.
Qed.

(** The cursor never goes back. *)
Lemma cursor_mono k w m n :
  (m <= n)%nat -> chron_le (cursor k w m) (cursor k w n).
Proof.
  intros Hmn. pose proof (elapsed_mono w m n Hmn) as He.
  pose proof (elapsed_range w m) as Hm.
  unfold cursor.
  replace (elapsed w n) with (elapsed w m + (elapsed w n - elapsed w m))
    by lia.
  rewrite <- DateFacts.advance_add; [|apply valid_time_seed|lia..].
  apply DateFacts.chron_le_advance; [apply DateFacts.valid_time_advance|lia].
Qed.

Lemma ret_bind {A B} (a : A) (f : A -> M B) w : (mret a ≫= f) w = f a w.
Proof. done. Qed.

Lemma randint_delta n w0 :
  randint 0 100 (skip n w0) = (Ok (delta w0 n), skip (S n) w0).
Proof. by rewrite randint_eq, skip_skip. Qed.

Lemma datetime_add_cursor k w0 n :
  datetime_add (cursor k w0 n) (delta w0 n) =
  if 9999 <? year (cursor k w0 (S n)) then raise OverflowError
  else mret (cursor k w0 (S n)).
Proof. unfold datetime_add. by rewrite <- cursor_S. Qed.

Lemma stamped_before_cons k line lines j :
  stamped_before k (line :: lines) (S j) =
  ((if skips k line then 0 else 1) + stamped_before k lines j)%nat.
Proof.
  unfold stamped_before. simpl. rewrite filter_cons.
  destruct (skips k line); by case_decide.
Qed.

(** What the loop does from the [n]-th timestamp on: it returns the batch
    with the cursors in their closed form, or a cursor passes year 9999
    and it raises OverflowError. *)
Lemma stamp_loop_run k self w0 lines :
  forall n,
    let c := stamped_before k lines (length lines) in
    stamp_loop k self (cursor k w0 n) lines (skip n w0) =
      (Ok (stamped k self w0 n lines), skip (c + n) w0) \/
    exists i j,
      (n < i <= n + c)%nat /\ 9999 < year (cursor k w0 i) /\
      stamp_loop k self (cursor k w0 n) lines (skip n w0) =
        (Raised OverflowError, skip j w0).
Proof.
  induction lines as [|line lines IH]; intros n; [by left|].
  cbn zeta. cbn [length]. rewrite stamped_before_cons.
  cbn [stamp_loop stamped]. destruct (skips k line) eqn:Hskip.
  - destruct (IH n) as [Hok|(i & j & Hi & Hy & Hraise)].
    + left. by rewrite (bind_ok _ _ _ _ _ Hok).
    + right. exists i, j. by rewrite (bind_raised _ _ _ _ _ Hraise).
  - rewrite (bind_ok _ _ _ _ _ (randint_delta n w0)).
    rewrite datetime_add_cursor.
    destruct (Z.ltb_spec 9999 (year (cursor k w0 (S n)))) as [Hy|Hy].
    + right. exists (S n), (S n). split; [lia|]. split; [done|].
      by unfold mbind, M_bind.
    + rewrite ret_bind.
      destruct (IH (S n)) as [Hok|(i & j & Hi & Hy' & Hraise)].
      * left. rewrite (bind_ok _ _ _ _ _ Hok). unfold mret, M_ret.
        do 2 f_equal. lia.
      * right. exists i, j. split; [lia|]. split; [done|].
        by rewrite (bind_raised _ _ _ _ _ Hraise).
Qed.

Lemma length_stamped k self w n lines :
  length (stamped k self w n lines) = length lines.
Proof.
  revert n. induction lines as [|line lines IH]; intros n; [done|].
  simpl. destruct (skips k line); simpl; by rewrite IH.
Qed.

(** The [j]-th line of the result: itself if it is skipped, else with the
    timestamp of the cursor after one more step than the timestamps given
    before it. *)
Lemma stamped_lookup k self w lines :
  forall n j line,
    lines !! j = Some line ->
    stamped k self w n lines !! j =
    Some (if skips k line then line
          else stamp k self
                 (cursor k w (S (n + stamped_before k lines j))) line).
Proof.
  induction lines as [|l lines IH]; intros n [|j] line Hj; try done.
  - simpl in Hj. injection Hj as ->. simpl.
    destruct (skips k line); [done|].
    unfold stamped_before. simpl. by rewrite Nat.add_0_r.
  - simpl in Hj. rewrite stamped_before_cons. simpl.
    destruct (skips k l); simpl; rewrite (IH _ _ _ Hj); [done|].
    by rewrite Nat.add_succ_r.
Qed.

(** ** The numbers a timestamp shows *)

Lemma shown_fields_time a b q :
  0 < q -> valid_time a -> valid_time b ->
  time_of_day_us a <= time_of_day_us b ->
  lex_le [hour a; minute a; second a; microsecond a / q]
         [hour b; minute b; second b; microsecond b / q].
Proof.
  destruct a as [ya ma da ha mia sa usa], b as [yb mb db hb mib sb usb].
  unfold valid_time, time_of_day_us. simpl. intros Hq Ha Hb Hle.
  assert (usa <= usb -> usa / q <= usb / q) by (by apply Z.div_le_mono).
  lia.
Qed.

(** A timestamp of IgkExtremeLogTuner shows the whole date: a later
    datetime shows numbers that are not smaller.  CiscoWlcLogTuner shows
    the time of the day only, CiscoIosLogTuner no year: the same holds
    within one day, respectively one year. *)
Lemma shown_fields_le k a b :
  valid_time a -> valid_time b -> chron_le a b ->
  match k with
  | LogTuner | IgkExtremeLogTuner => True
  | CiscoWlcLogTuner => date_of a = date_of b
  | CiscoIosLogTuner => year a = year b
  end ->
  lex_le (shown_fields k a) (shown_fields k b).
Proof.
  intros Ha Hb Hle Hk.
  assert (date_of a = date_of b -> time_of_day_us a <= time_of_day_us b)
    as Htime.
  { intros Hd. destruct Hle as [Hlt|[_ Ht]]; [|done].
    rewrite Hd in Hlt. destruct (date_of b) as [[y m] d].
    unfold date_lt in Hlt. lia. }
  destruct k; [done|..].
  - pose proof (shown_fields_time a b 10000 eq_refl Ha Hb) as Ht.
    destruct Hle as [Hlt|[Hd _]].
    + unfold date_of, date_lt in Hlt. simpl. lia.
    + specialize (Ht (Htime Hd)). injection Hd as Hy Hm Hd. simpl in *. lia.
  - apply (shown_fields_time a b 1000 eq_refl Ha Hb). by apply Htime.
  - pose proof (shown_fields_time a b 10000 eq_refl Ha Hb) as Ht.
    destruct Hle as [Hlt|[Hd _]].
    + unfold date_of, date_lt in Hlt. simpl. lia.
    + specialize (Ht (Htime Hd)). injection Hd as Hy Hm Hd. simpl in *. lia.
Qed.

(** ** C1: the sequence of timestamps *)

Lemma stamped_before_le k lines j :
  (stamped_before k lines j <= length lines)%nat.
Proof.
  unfold stamped_before.
  etrans; [apply length_filter|]. rewrite length_take. lia.
Qed.

Lemma stamped_before_no_skip k lines j :
  (forall line, skips k line = false) ->
  stamped_before k lines j = Nat.min j (length lines).
Proof.
  intros Hk. unfold stamped_before. rewrite <- length_take. f_equal.
  induction (take j lines) as [|l ls IH]; [done|].
  rewrite filter_cons_True by done. by rewrite IH.
Qed.

(** In a batch of at most a billion lines no cursor passes year 9999. *)
Lemma cursor_year k w n :
  Z.of_nat n <= 1000000000 -> year (cursor k w n) <= 9999.
Proof.
  intros Hn. pose proof (elapsed_range w n) as He.
  pose proof (DateFacts.year_advance (seed_of k) (elapsed w n)
                (valid_time_seed k) (proj1 He)) as Hy.
  fold (cursor k w n) in Hy.
  assert (year (seed_of k) <= 2017) by (by destruct k).
  assert (elapsed w n / 86400000 <= 1158)
    by (Z.to_euclidean_division_equations; lia).
  lia.
Qed.

Lemma replace_date_and_time_stub_cases lines w :
  let k := klass_of (obj w) in
  let c := stamped_before k lines (length lines) in
  _replace_date_and_time_stub lines w =
    (Ok (stamped k (obj w) w 0 lines), skip c w) \/
  exists i j,
    (0 < i <= c)%nat /\ 9999 < year (cursor k w i) /\
    _replace_date_and_time_stub lines w = (Raised OverflowError, skip j w).
Proof.
  intros k c. rewrite replace_date_and_time_stub_loop. fold k.
  pose proof (stamp_loop_run k (obj w) w lines 0) as Hrun.
  rewrite cursor_0, skip_0 in Hrun. cbn zeta in Hrun. fold c in Hrun.
  by rewrite Nat.add_0_r in Hrun.
Qed.

(** The refill returns for every batch of at most a billion lines. *)
Lemma replace_date_and_time_stub_returns lines w :
  let k := klass_of (obj w) in
  Z.of_nat (length lines) <= 1000000000 ->
  _replace_date_and_time_stub lines w =
    (Ok (stamped k (obj w) w 0 lines),
     skip (stamped_before k lines (length lines)) w).
Proof.
  intros k Hlen.
  destruct (replace_date_and_time_stub_cases lines w)
    as [Hok|(i & j & Hi & Hy & _)]; [done|].
  pose proof (stamped_before_le k lines (length lines)).
  pose proof (cursor_year k w i). fold k in Hi, Hy. lia.
Qed.

Lemma replace_date_and_time_stub_inv lines w out w' :
  let k := klass_of (obj w) in
  _replace_date_and_time_stub lines w = (Ok out, w') ->
  out = stamped k (obj w) w 0 lines /\
  w' = skip (stamped_before k lines (length lines)) w.
Proof.
  intros k Hrun.
  destruct (replace_date_and_time_stub_cases lines w)
    as [Hok|(i & j & _ & _ & Hraise)]; rewrite Hrun in *.
  - by injection Hok as -> ->.
  - discriminate Hraise.
Qed.

Lemma elapsed_steady o raw n :
  elapsed (steady_world o raw) n = Z.of_nat n * (raw mod 101).
Proof.
  induction n as [|n IH]; [done|].
  cbn [elapsed]. rewrite IH. unfold delta, draw. simpl tape. lia.
Qed.

(** With CiscoWlcLogTuner, whose timestamps show the time of the day
    only, 351084 lines with a delta of 100 ms each take the cursor past
    midnight: the timestamp 23:59:59.955 is followed by 00:00:00.055. *)
Lemma C1_counterexample_wlc_past_midnight :
  ~ (forall w n out w',
       constructed CiscoWlcLogTuner (obj w) ->
       _replace_date_and_time_stub (placeholder_batch n) w = (Ok out, w') ->
       forall i a b,
         out !! i = Some a -> out !! S i = Some b -> String.leb a b = true).
Proof.
  intros H.
  set (w := steady_world wlc_instance 100).
  set (lines := placeholder_batch 351084).
  assert (length lines = Z.to_nat 351084) as Hn
    by apply length_replicate.
  assert (Z.of_nat (length lines) <= 1000000000) as Hlen by lia.
  pose proof (replace_date_and_time_stub_returns lines w Hlen) as Hrun.
  assert (forall j, (j < Z.to_nat 351084)%nat ->
                    lines !! j = Some "<DATETIME_STUB>") as Hline.
  { intros j Hj. apply lookup_replicate_2. exact Hj. }
  assert (constructed CiscoWlcLogTuner (obj w)) as Hc
    by (vm_compute; tauto).
  assert (forall j, (j < Z.to_nat 351084)%nat ->
            stamped CiscoWlcLogTuner (obj w) w 0 lines !! j =
            Some (stamp CiscoWlcLogTuner wlc_instance
                    (advance wlc_seed (Z.of_nat (S j) * 100))
                    "<DATETIME_STUB>")) as Hout.
  { intros j Hj. rewrite (stamped_lookup _ _ _ _ _ _ _ (Hline j Hj)).
    cbn [skips]. rewrite stamped_before_no_skip by done.
    unfold cursor. unfold w at 2. rewrite elapsed_steady.
    rewrite Hn, Nat.min_l by lia. reflexivity. }
  specialize (H w 351084 _ _ Hc Hrun (Z.to_nat 351082)
                "23:59:59.955" "00:00:00.055").
  assert (String.leb "23:59:59.955" "00:00:00.055" = false) as Hcmp
    by (vm_compute; reflexivity).
  rewrite H in Hcmp; [discriminate Hcmp|..].
  - rewrite Hout by lia.
    replace (Z.of_nat (S (Z.to_nat 351082))) with 351083 by lia.
    vm_compute. reflexivity.
  - rewrite Hout by lia.
    replace (Z.of_nat (S (S (Z.to_nat 351082)))) with 351084 by lia.
    vm_compute. reflexivity.
Qed.

(** C1 (amended). For every class the batched refill of the date and time
    draws one delta in 0..100 ms for every line it does not skip, keeps
    one cursor for the whole batch, and gives the line the timestamp of
    the cursor, which is the seed of the class advanced by the sum of the
    deltas drawn so far; the cursor never goes back.  It returns for
    every batch of at most a billion lines.  The numbers a timestamp
    shows never decrease for IgkExtremeLogTuner, which shows the whole
    date; for CiscoWlcLogTuner (time of the day only) they do not
    decrease between two cursors of the same day, for CiscoIosLogTuner
    (no year) between two cursors of the same year. *)
Theorem C1_timestamp_sequence (k : klass) (w : world) (lines : list string) :
  klass_of (obj w) = k ->
  let c := stamped_before k lines (length lines) in
  (forall i, 0 <= delta w i <= 100) /\
  (cursor k w 0 = seed_of k /\
   forall n, cursor k w n = advance (seed_of k) (elapsed w n) /\
             cursor k w (S n) = advance (cursor k w n) (delta w n)) /\
  (Z.of_nat (length lines) <= 1000000000 ->
   exists out, _replace_date_and_time_stub lines w = (Ok out, skip c w)) /\
  (forall out w',
     _replace_date_and_time_stub lines w = (Ok out, w') ->
     w' = skip c w /\
     length out = length lines /\
     forall j line,
       lines !! j = Some line ->
       out !! j =
       Some (if skips k line then line
             else stamp k (obj w)
                    (cursor k w (S (stamped_before k lines j))) line)) /\
  (forall m n, (m <= n)%nat -> chron_le (cursor k w m) (cursor k w n)) /\
  (forall m n,
     (m <= n)%nat ->
     match k with
     | LogTuner | IgkExtremeLogTuner => True
     | CiscoWlcLogTuner =>
         date_of (cursor k w m) = date_of (cursor k w n)
     | CiscoIosLogTuner => year (cursor k w m) = year (cursor k w n)
     end ->
     lex_le (shown_fields k (cursor k w m)) (shown_fields k (cursor k w n))).
Proof.
  intros Hk c. split; [apply delta_range|].
  split; [split; [apply cursor_0|]|].
  { intros n. split; [done|apply cursor_S]. }
  split; [|split; [|split]].
  - intros Hlen. eexists.
    rewrite (replace_date_and_time_stub_returns lines w Hlen).
    by rewrite Hk.
  - intros out w' Hrun.
    apply replace_date_and_time_stub_inv in Hrun as [-> ->].
    rewrite Hk. split; [done|]. split; [apply length_stamped|].
    intros j line Hj. by rewrite (stamped_lookup _ _ _ _ _ _ _ Hj).
  - apply cursor_mono.
  - intros m n Hmn Hsame. apply shown_fields_le; [..|done].
    + apply DateFacts.valid_time_advance.
    + apply DateFacts.valid_time_advance.
    + by apply cursor_mono.
Qed.

Lemma C1_timestamp_sequence_witness :
  _replace_date_and_time_stub ["up" +:+ nl; nl; "down" +:+ nl]
    (world_of igk_instance 40) =
  (Ok ["05/10/2017 07:25:58.15up" +:+ nl; nl;
       "05/10/2017 07:25:58.19down" +:+ nl],
   skip 2 (world_of igk_instance 40)).
Proof.
  destruct (C1_timestamp_sequence IgkExtremeLogTuner
              (world_of igk_instance 40)
              ["up" +:+ nl; nl; "down" +:+ nl] eq_refl)
    as (_ & _ & Hret & Hinv & _).
  destruct Hret as [out Hrun]; [vm_compute; discriminate|].
  rewrite Hrun. f_equal.
  destruct (Hinv out _ Hrun) as (_ & Hlen & Hout).
  pose proof (Hout 0%nat _ eq_refl) as H0.
  pose proof (Hout 1%nat _ eq_refl) as H1.
  pose proof (Hout 2%nat _ eq_refl) as H2.
  destruct out as [|a [|b [|c [|]]]]; try discriminate Hlen.
  vm_compute in H0, H1, H2.
  injection H0 as ->. injection H1 as ->. injection H2 as ->.
  vm_compute. reflexivity.
Defined.

(** ** C2: blank lines in the refill of the date and time *)

(** C2. A line that holds a newline only: the refill of CiscoIosLogTuner
    puts a timestamp in front of it and takes a draw for it; the refill of
    CiscoWlcLogTuner leaves it as it is but takes a draw for it, so the
    next line is stamped 40 + 41 ms after the seed; the refill of
    IgkExtremeLogTuner passes it on and takes no draw for it. *)
Theorem C2_blank_line_in_each_refill :
  Str.blank nl = true /\
  _replace_date_and_time_stub [nl] (world_of ios_instance 40) =
    (Ok ["Feb 11 08:05:11.04" +:+ nl], skip 1 (world_of ios_instance 40)) /\
  _replace_date_and_time_stub [nl; "<DATETIME_STUB>"]
    (world_of wlc_instance 40) =
    (Ok [nl; "14:14:51.736"], skip 2 (world_of wlc_instance 40)) /\
  _replace_date_and_time_stub [nl; "up"] (world_of igk_instance 40) =
    (Ok [nl; "05/10/2017 07:25:58.15up"], skip 1 (world_of igk_instance 40)).
Proof.
  split; [reflexivity|]. split; [|split]; vm_compute; reflexivity.
Qed.

(** * Further properties of the code *)

(** ** Reading the sample *)

Lemma rev_app_app s t u :
  String.rev_app s t +:+ u = String.rev_app s (t +:+ u).
Proof.
  revert t. induction s as [|c s IH]; intros t; [done|]. simpl.
  by rewrite IH.
Qed.

Lemma rev_cons c s : String.rev (String c s) = String.rev s +:+ String c "".
Proof. unfold String.rev. simpl. by rewrite rev_app_app. Qed.

Lemma join_empty_cons x ls : Str.join "" (x :: ls) = x +:+ Str.join "" ls.
Proof. destruct ls; simpl; [by rewrite StrFacts.app_nil_r|done]. Qed.

Lemma readlines_go_join cur content :
  Str.join "" (readlines_go cur content) = String.rev cur +:+ content.
Proof.
  revert cur. induction content as [|c rest IH]; intros cur; simpl.
  - rewrite StrFacts.app_nil_r. by destruct cur.
  - destruct (Ascii.eqb c "010").
    + rewrite join_empty_cons, IH, rev_cons, StrFacts.app_assoc. done.
    + rewrite IH, rev_cons, StrFacts.app_assoc. done.
Qed.

Lemma total_len_join ls : Str.len (Str.join "" ls) = total_len ls.
Proof.
  induction ls as [|l ls IH]; [done|].
  rewrite join_empty_cons, StrFacts.len_app, IH. done.
Qed.

(** X1. The lines [readlines] returns, put together again, are the
    content of the file: nothing is lost or added, the lengths of the
    lines add up to the size of the file, and there is no line exactly
    when the file is empty. *)
Theorem X1_readlines_join (content : string) :
  Str.join "" (readlines content) = content /\
  total_len (readlines content) = Str.len content /\
  (readlines content = [] <-> content = "").
Proof.
  assert (Str.join "" (readlines content) = content) as Hjoin
    by apply readlines_go_join.
  split; [done|]. split.
  - by rewrite <- total_len_join, Hjoin.
  - split; [intros H; by rewrite H in Hjoin|by intros ->].
Qed.

Lemma no_newline_app s t :
  no_newline (s +:+ t) = no_newline s && no_newline t.
Proof.
  induction s as [|c s IH]; [done|].
  rewrite StrFacts.app_cons. simpl. rewrite IH. by destruct (negb _).
Qed.

Lemma readlines_go_lines cur content :
  no_newline (String.rev cur) = true ->
  lines_of_file (readlines_go cur content).
Proof.
  revert cur. induction content as [|c rest IH]; intros cur Hcur; simpl.
  - destruct cur as [|a cur]; [done|]. right. split; [|done].
    rewrite rev_cons. intros H. apply (f_equal Str.len) in H.
    rewrite StrFacts.len_app in H. simpl in H. unfold Str.len in H.
    simpl in H. lia.
  - destruct (Ascii.eqb_spec c "010") as [->|Hc].
    + assert (closed_line (String.rev (String "010" cur))) as Hline.
      { exists (String.rev cur). by rewrite rev_cons. }
      specialize (IH "" eq_refl).
      destruct (readlines_go "" rest); [by left|done].
    + apply IH. rewrite rev_cons, no_newline_app, Hcur. simpl.
      by destruct (Ascii.eqb_spec c "010").
Qed.

(** X2. Every line [readlines] returns ends with a newline and holds no
    other, except that the last line may have none (when the file does
    not end with one); no line is empty. *)
Theorem X2_readlines_lines (content : string) :
  lines_of_file (readlines content) /\
  Forall (fun l => l <> "") (readlines content).
Proof.
  assert (lines_of_file (readlines content)) as H
    by (by apply readlines_go_lines).
  split; [done|].
  induction (readlines content) as [|l ls IH]; [done|].
  assert (forall x, closed_line x -> x <> "") as Hclosed.
  { intros x (body & _ & ->) Hx. apply (f_equal Str.len) in Hx.
    rewrite StrFacts.len_app in Hx. unfold Str.len in Hx. simpl in Hx. lia. }
  destruct ls as [|l' ls].
  - constructor; [|done]. destruct H as [H|[H _]]; [by apply Hclosed|done].
  - destruct H as [H Hrest]. constructor; [by apply Hclosed|by apply IH].
Qed.

(** ** The MAC addresses *)

Lemma for_range_closed {A} (body : M A) (f : world -> A) (c : nat) :
  (forall w, body w = (Ok (f w), skip c w)) ->
  forall n w,
    for_range n body w =
    (Ok (map (fun i => f (skip (c * i) w)) (seq 0 n)), skip (c * n) w).
Proof.
  intros Hbody n. induction n as [|n IH]; intros w.
  - simpl. by rewrite Nat.mul_0_r, skip_0.
  - cbn [for_range]. rewrite (bind_ok _ _ _ _ _ (Hbody w)).
    rewrite (bind_ok _ _ _ _ _ (IH (skip c w))). unfold mret, M_ret.
    rewrite skip_skip. f_equal; [f_equal|f_equal; lia].
    cbn [seq map]. rewrite Nat.mul_0_r, skip_0. f_equal.
    rewrite <- fmap_S_seq, <- list_fmap_compose. apply list_fmap_ext.
    intros i x _. simpl. rewrite skip_skip. do 2 f_equal. lia.
Qed.

Lemma generate_macs_run n w :
  Wlc._generate_macs n w =
  (Ok (macs_of w (Z.to_nat n)), skip (6 * Z.to_nat n) w).
Proof.
  unfold Wlc._generate_macs, macs_of.
  by apply (for_range_closed _ mac_of 6).
Qed.

Lemma hex_digit_hex d : 0 <= d < 16 -> Re.hex_ignorecase (hex_digit d) = true.
Proof.
  intros Hd.
  assert (d = 0 \/ d = 1 \/ d = 2 \/ d = 3 \/ d = 4 \/ d = 5 \/ d = 6 \/
          d = 7 \/ d = 8 \/ d = 9 \/ d = 10 \/ d = 11 \/ d = 12 \/
          d = 13 \/ d = 14 \/ d = 15) as H by lia.
  repeat (destruct H as [->|H]; [reflexivity|]). by subst.
Qed.

Lemma hex02_pair b : 0 <= b <= 255 -> hex_pair (hex02 b).
Proof.
  intros Hb. eexists _, _. split; [reflexivity|].
  split; apply hex_digit_hex; Z.to_euclidean_division_equations; lia.
Qed.

Lemma octet_range w i : 0 <= octet w i <= 255.
Proof. unfold octet. pose proof (Z.mod_pos_bound (draw w i) 256). lia. Qed.

Lemma mac_of_shaped w : mac_shaped (mac_of w).
Proof.
  eexists _, _, _, _, _, _. split; [|reflexivity].
  repeat constructor; apply hex02_pair, octet_range.
Qed.

(** The pattern of MAC addresses matches the whole of a text of that
    shape, whatever follows it. *)
Lemma mac_shaped_match s rest :
  mac_shaped s -> Re.match_at Re.mac_address (s +:+ rest) = Some rest.
Proof.
  intros (p1 & p2 & p3 & p4 & p5 & p6 & Hp & ->).
  repeat match goal with
         | H : Forall _ (_ :: _) |- _ =>
             apply Forall_cons in H as [(? & ? & -> & ? & ?) H]
         end.
  cbv [Str.join String.append].
  unfold Re.match_at, Re.mac_address, Re.colon. cbn.
  repeat match goal with
         | H : Re.hex_ignorecase _ = true |- _ => rewrite H; clear H; cbn
         end.
  done.
Qed.

Lemma take_all s : Str.take (Str.len s) s = s.
Proof. induction s as [|c s IH]; [done|]. simpl. by rewrite IH. Qed.

Lemma strip_prefix_nil_None x : x <> "" -> Str.strip_prefix x "" = None.
Proof. by destruct x. Qed.

Lemma strip_prefix_self x : Str.strip_prefix x x = Some "".
Proof.
  rewrite <- (StrFacts.app_nil_r x) at 2. apply StrFacts.strip_prefix_app.
Qed.

(** Replacing a text in itself gives the new text. *)
Lemma replace_self x new count :
  x <> "" -> count <> 0 -> Str.replace x new count x = new.
Proof.
  intros Hx Hc. rewrite StrFacts.replace_eq by done.
  destruct (Z.eqb_spec count 0) as [|_]; [done|].
  rewrite strip_prefix_self, StrFacts.replace_eq by done.
  destruct (count - 1 =? 0); [apply StrFacts.app_nil_r|].
  rewrite strip_prefix_nil_None by done. apply StrFacts.app_nil_r.
Qed.

(** A pattern that matches the whole of a text, and not the empty text,
    is found there once. *)
Lemma findall_whole r s :
  s <> "" -> Re.match_at r s = Some "" -> Re.match_at r "" = None ->
  Re.findall r s = [s].
Proof.
  intros Hs Hm Hnil. unfold Re.findall. cbn [Re.findall_scan]. rewrite Hm.
  change (Str.len "") with 0%nat. rewrite Nat.sub_0_r, take_all.
  destruct s as [|c s]; [done|]. f_equal. simpl. by rewrite Hnil.
Qed.

Lemma mac_shaped_len s : mac_shaped s -> Str.len s = 17%nat.
Proof.
  intros (p1 & p2 & p3 & p4 & p5 & p6 & Hp & ->).
  repeat match goal with
         | H : Forall _ (_ :: _) |- _ =>
             apply Forall_cons in H as [(? & ? & -> & ? & ?) H]
         end.
  reflexivity.
Qed.

(** X3. [_generate_macs(n)] takes six draws for each of its [n]
    addresses and never fails.  Every address is six pairs of hexadecimal
    digits joined by colons, 17 characters, and is what the MAC stubber
    looks for: the pattern finds it once, as a whole, and
    [_stub_miscellaneous] turns it into the MAC placeholder. *)
Theorem X3_generated_macs (n : Z) (w : world) (self : instance) :
  _MAC_STUB self = "<MAC>" ->
  Wlc._generate_macs n w =
    (Ok (macs_of w (Z.to_nat n)), skip (6 * Z.to_nat n) w) /\
  length (macs_of w (Z.to_nat n)) = Z.to_nat n /\
  Forall (fun mac =>
            mac_shaped mac /\ Str.len mac = 17%nat /\
            Re.findall Re.mac_address mac = [mac] /\
            Wlc._stub_miscellaneous self mac = "<MAC>")
    (macs_of w (Z.to_nat n)).
Proof.
  intros Hstub. split; [apply generate_macs_run|]. split.
  - unfold macs_of. by rewrite length_map, length_seq.
  - unfold macs_of. apply Forall_map, Forall_forall. intros i _. cbv beta.
    pose proof (mac_of_shaped (skip (6 * i) w)) as Hshape.
    pose proof (mac_shaped_len _ Hshape) as Hlen.
    assert (mac_of (skip (6 * i) w) <> "") as Hne
      by (intros H; rewrite H in Hlen; discriminate Hlen).
    assert (Re.findall Re.mac_address (mac_of (skip (6 * i) w)) =
            [mac_of (skip (6 * i) w)]) as Hfind.
    { apply findall_whole; [done| |reflexivity].
      rewrite <- (StrFacts.app_nil_r (mac_of _)) at 1.
      by apply mac_shaped_match. }
    repeat split; try done.
    unfold Wlc._stub_miscellaneous. rewrite Hfind, Hstub.
    cbn [replace_each fold_left]. by apply replace_self.
Qed.

Lemma X3_generated_macs_witness :
  Wlc._generate_macs 2 (world_of wlc_instance 250) =
  (Ok ["fa:fb:fc:fd:fe:ff"; "00:01:02:03:04:05"],
   skip 12 (world_of wlc_instance 250)).
Proof.
  destruct (X3_generated_macs 2 (world_of wlc_instance 250) wlc_instance
              eq_refl) as (H & _).
  rewrite H. vm_compute. reflexivity.
Defined.

(** ** Construction, and the main program on a bad class or file *)

Lemma construct_run k path w :
  exists o,
    constructed k o /\ log_file_path o = path /\
    (k = CiscoWlcLogTuner ->
     _random_macs o = macs_of w (Z.to_nat 10000)) /\
    match fs w !! path with
    | Some content =>
        construct k path w =
          (Ok tt,
           with_obj (set_common_log_lines
                       (map (stub_line (set_log_lines (readlines content) o))
                          (readlines content))
                       (set_log_lines (readlines content) o))
             (skip (constructor_draws k) w))
    | None =>
        log_lines o = [] /\ common_log_lines o = [] /\
        construct k path w =
          (Raised IOError, with_obj o (skip (constructor_draws k) w))
    end.
Proof.
  unfold construct.
  destruct k; unfold mbind, M_bind, set_self;
    [unfold LogTuner__init__|unfold IgkExtremeLogTuner__init__, LogTuner__init__
    |unfold CiscoWlcLogTuner__init__, LogTuner__init__
    |unfold CiscoIosLogTuner__init__, LogTuner__init__];
    unfold mbind, M_bind, set_self, read_file_lines, gather_common_log_lines,
      get_self, mret, M_ret; cbn [obj fs tape pos writable].
  3: { rewrite generate_macs_run. cbn [obj fs tape pos writable skip].
       eexists. split; [|split; [|split]]; cycle 3.
       - destruct (fs w !! path) as [content|] eqn:Hf; cbn [obj fs tape pos writable].
         + unfold with_obj, skip, constructor_draws. cbn [obj fs tape pos writable].
           reflexivity.
         + unfold with_obj, skip, constructor_draws. cbn [obj fs tape pos writable].
           split; [|split]; reflexivity.
       - by repeat split.
       - reflexivity.
       - intros _. unfold macs_of, mac_of, skip, octet, draw.
         cbn [obj fs tape pos writable set__random_macs _random_macs set_log_file_path
              set__IP_ADDRESS_STUB]. reflexivity. }
  all: eexists; (split; [|split; [|split]]); cycle 3;
    [destruct (fs w !! path) as [content|] eqn:Hf; cbn [obj fs tape pos writable];
       unfold with_obj, skip, constructor_draws; cbn [obj fs tape pos writable];
       rewrite ?skip_0;
       [destruct w; reflexivity|split; [|split]; [..|destruct w]; reflexivity]
    |by repeat split|reflexivity|done].
Qed.

(** X4. On a sample file that exists the constructor of every class
    succeeds: the tuner holds the placeholders of its class, the lines of
    the file as [log_lines], and as [common_log_lines] one template for
    every line, in the same order, each the date-and-time, the IP and the
    miscellaneous stubber applied in that order.  No file is changed, and
    the only draws are the 60000 of the MAC addresses of
    CiscoWlcLogTuner. *)
Theorem X4_construct_pool (k : klass) (path content : string) (w : world) :
  fs w !! path = Some content ->
  exists w',
    construct k path w = (Ok tt, w') /\
    constructed k (obj w') /\
    log_file_path (obj w') = path /\
    log_lines (obj w') = readlines content /\
    common_log_lines (obj w') =
      map (fun line =>
             _stub_miscellaneous (obj w')
               (_stub_ip_addresses (obj w')
                  (_stub_date_and_time (obj w') line)))
        (readlines content) /\
    length (common_log_lines (obj w')) = length (log_lines (obj w')) /\
    fs w' = fs w /\ tape w' = tape w /\
    pos w' = (constructor_draws k + pos w)%nat /\
    (k = CiscoWlcLogTuner ->
     _random_macs (obj w') = macs_of w (Z.to_nat 10000) /\
     length (_random_macs (obj w')) = Z.to_nat 10000).
Proof.
  intros Hf. destruct (construct_run k path w) as (o & Hc & Hp & Hm & Hrun).
  rewrite Hf in Hrun. eexists. split; [exact Hrun|].
  cbn [obj fs tape pos writable with_obj skip].
  split; [|split; [done|split; [done|split; [|split; [|split; [done|]]]]]].
  - destruct Hc as (Hk & Hip & Hrest). split; [done|]. split; [done|].
    by destruct k.
  - cbn [common_log_lines set_common_log_lines]. apply map_ext_in.
    intros line _. unfold stub_line, _stub_miscellaneous, _stub_ip_addresses,
      _stub_date_and_time. reflexivity.
  - cbn [common_log_lines set_common_log_lines log_lines set_log_lines].
    by rewrite length_map.
  - split; [done|]. split; [done|]. intros Hk. specialize (Hm Hk).
    cbn [_random_macs set_common_log_lines set_log_lines].
    split; [done|]. rewrite Hm. unfold macs_of.
    by rewrite length_map, length_seq.
Qed.

Lemma X4_construct_pool_witness :
  exists w',
    construct CiscoIosLogTuner "sample.log"
      (initial_world (fun _ => 0) "sample.log" (sample_line +:+ nl)) =
      (Ok tt, w') /\
    common_log_lines (obj w') = [actual_template; ""].
Proof.
  destruct (X4_construct_pool CiscoIosLogTuner "sample.log"
              (sample_line +:+ nl)
              (initial_world (fun _ => 0) "sample.log" (sample_line +:+ nl))
              eq_refl) as (w' & Hrun & _ & _ & _ & Hpool & _).
  exists w'. split; [exact Hrun|]. rewrite Hpool.
  assert (obj w' = obj (construct CiscoIosLogTuner "sample.log"
            (initial_world (fun _ => 0) "sample.log"
               (sample_line +:+ nl))).2) as -> by (by rewrite Hrun).
  vm_compute. reflexivity.
Defined.

Lemma classes_lookup_None class_name :
  classes !! class_name = None <->
  class_name <> "CiscoIosLogTuner" /\ class_name <> "CiscoWlcLogTuner" /\
  class_name <> "IgkExtremeLogTuner".
Proof.
  unfold classes. rewrite !lookup_insert_None, lookup_empty.
  intuition congruence.
Qed.

(** X5. Once its four options are read, the main program on a class name
    that is not one of the three of the [classes] dictionary exits with
    status 1: no file is read or written, no tuner is built, no draw is
    taken.  On one of the three
    names and a sample file that does not exist it raises IOError, and
    again no file is written. *)
Theorem X5_main_bad_class_or_file (input output class_name : string)
    (size_mb : Z) (w : world) :
  (class_name <> "CiscoIosLogTuner" /\ class_name <> "CiscoWlcLogTuner" /\
   class_name <> "IgkExtremeLogTuner" ->
   main_tail input output size_mb class_name w = (Raised (SystemExit 1), w)) /\
  (forall k,
     classes !! class_name = Some k ->
     fs w !! input = None ->
     (main_tail input output size_mb class_name w).1 = Raised IOError /\
     fs (main_tail input output size_mb class_name w).2 = fs w).
Proof.
  split.
  - intros Hname%classes_lookup_None. unfold main_tail. by rewrite Hname.
  - intros k Hk Hf. rewrite (main_registered _ _ _ _ _ _ Hk).
    destruct (construct_run k input w) as (o & _ & _ & _ & Hrun).
    rewrite Hf in Hrun. destruct Hrun as (_ & _ & Hrun).
    by rewrite (bind_raised _ _ _ _ _ Hrun).
Qed.

Lemma X5_main_bad_class_witness :
  main_tail "sample.log" "out.log" 1 "JuniperLogTuner"
    (initial_world (fun _ => 0) "sample.log" sample_line) =
  (Raised (SystemExit 1),
   initial_world (fun _ => 0) "sample.log" sample_line) /\
  (main_tail "missing.log" "out.log" 1 "CiscoIosLogTuner"
     (initial_world (fun _ => 0) "sample.log" sample_line)).1 =
  Raised IOError.
Proof.
  destruct (X5_main_bad_class_or_file "sample.log" "out.log" "JuniperLogTuner"
              1 (initial_world (fun _ => 0) "sample.log" sample_line))
    as [H _].
  destruct (X5_main_bad_class_or_file "missing.log" "out.log"
              "CiscoIosLogTuner" 1
              (initial_world (fun _ => 0) "sample.log" sample_line))
    as [_ H'].
  split.
  - apply H. repeat split; discriminate.
  - apply (H' CiscoIosLogTuner); vm_compute; reflexivity.
Defined.

(** ** The size estimator on the sample it was built from *)

Lemma closed_line_nonempty l : closed_line l -> l <> "".
Proof.
  intros (body & _ & ->) H. apply (f_equal Str.len) in H.
  rewrite StrFacts.len_app in H. unfold Str.len in H. simpl in H. lia.
Qed.

Lemma lines_of_file_nonempty ls :
  lines_of_file ls -> Forall (fun l => l <> "") ls.
Proof.
  induction ls as [|l ls IH]; [done|]. destruct ls as [|l' ls]; intros H.
  - constructor; [|done].
    destruct H as [H|[H _]]; [by apply closed_line_nonempty|done].
  - destruct H as [H Hrest].
    constructor; [by apply closed_line_nonempty|by apply IH].
Qed.

Lemma total_len_ge ls :
  Forall (fun l => l <> "") ls -> (length ls <= total_len ls)%nat.
Proof.
  induction 1 as [|l ls Hl _ IH]; [done|]. simpl.
  destruct l; [done|]. unfold Str.len. simpl. lia.
Qed.

(** A file has no more lines than characters, and none only if empty. *)
Lemma readlines_count content :
  (length (readlines content) <= Str.len content)%nat /\
  (content <> "" -> (0 < length (readlines content))%nat).
Proof.
  assert (Str.join "" (readlines content) = content) as Hjoin
    by apply readlines_go_join.
  split.
  - rewrite <- Hjoin at 2. rewrite total_len_join.
    apply total_len_ge, lines_of_file_nonempty.
    by apply readlines_go_lines.
  - intros Hne. destruct (readlines content); [|simpl; lia].
    by rewrite <- Hjoin in Hne.
Qed.

(** X6. For a tuner built from a sample file that has not changed since,
    the size estimator raises ZeroDivisionError exactly when the file is
    empty.  Otherwise the average line size is at least 1, the estimate
    is the requested size in bytes divided by it, rounded down, so that
    the estimate times the average is the largest multiple of the
    average that does not exceed the requested size; it is not negative
    for a size that is not negative. *)
Theorem X6_estimate_of_sample (path content : string) (size_mb : Z)
    (w : world) :
  sample_ready path content w ->
  let lines := Z.of_nat (length (readlines content)) in
  let average := Z.of_nat (Str.len content) / lines in
  let estimate := size_mb * 1024 * 1024 / average in
  (content = "" ->
   _calculate_required_number_of_lines size_mb w =
     (Raised ZeroDivisionError, w)) /\
  (content <> "" ->
   1 <= average /\
   _calculate_required_number_of_lines size_mb w = (Ok estimate, w) /\
   estimate * average <= size_mb * 1024 * 1024 < (estimate + 1) * average /\
   (0 <= size_mb -> 0 <= estimate <= size_mb * 1024 * 1024)).
Proof.
  intros (Hf & Hp & Hl) lines average estimate.
  rewrite <- Hp in Hf. pose proof (calculate_run w size_mb content Hf) as Hrun.
  cbn zeta in Hrun. rewrite Hl in Hrun. fold lines average estimate in Hrun.
  destruct (readlines_count content) as [Hle Hpos].
  split.
  - intros ->. by rewrite Hrun.
  - intros Hne. specialize (Hpos Hne).
    assert (1 <= average) as Havg.
    { unfold average, lines. apply Z.div_le_lower_bound; lia. }
    split; [done|].
    destruct (Z.eqb_spec lines 0) as [H0|_]; [unfold lines in H0; lia|].
    destruct (Z.eqb_spec average 0) as [H0|_]; [lia|].
    split; [done|]. unfold estimate. split.
    + pose proof (Z.mul_div_le (size_mb * 1024 * 1024) average).
      pose proof (Z.mul_succ_div_gt (size_mb * 1024 * 1024) average).
      lia.
    + intros Hs. split; [apply Z.div_pos; lia|].
      apply Z.div_le_upper_bound; nia.
Qed.

Lemma X6_estimate_witness :
  let w := with_obj
             (set_log_lines (readlines "0123456789")
                (set_log_file_path "sample.log" (blank_instance LogTuner)))
             (initial_world (fun _ => 0) "sample.log" "0123456789") in
  _calculate_required_number_of_lines 1 w = (Ok 104857, w).
Proof.
  intros w.
  assert (sample_ready "sample.log" "0123456789" w) as H
    by (vm_compute; repeat split; reflexivity).
  destruct (X6_estimate_of_sample "sample.log" "0123456789" 1 w H)
    as [_ Hok].
  destruct Hok as (_ & Hrun & _); [discriminate|]. exact Hrun.
Defined.

(** ** Generating the log *)

Lemma misc_refill_ok k w line :
  can_generate k (obj w) ->
  exists r n, _replace_miscellaneous_stub line w = (Ok r, skip n w).
Proof.
  intros ((Hk & _ & Hstubs) & Hbase & _ & Hmacs).
  unfold _replace_miscellaneous_stub, mbind, M_bind, get_self. rewrite Hk.
  destruct k; [done|..]; simpl.
  - unfold Igk._replace_miscellaneous_stub, mbind, M_bind, get_self.
    destruct line as [|c line].
    + exists "", 0%nat. by rewrite skip_0.
    + by eexists _, 2%nat.
  - unfold Wlc._replace_miscellaneous_stub, mbind, M_bind, get_self.
    destruct (choice_ok (_random_macs (obj w)) w (Hmacs eq_refl))
      as (mac & _ & ->).
    by eexists _, 1%nat.
  - unfold Ios._replace_miscellaneous_stub, mbind, M_bind, get_self.
    by eexists _, 2%nat.
Qed.

Lemma generate_line_ok k w :
  can_generate k (obj w) ->
  exists line n, generate_line w = (Ok line, skip n w).
Proof.
  intros Hgen. pose proof Hgen as ((Hk & Hip & _) & _ & Hpool & _).
  unfold generate_line. unfold mbind at 1, M_bind at 1, get_self.
  destruct (choice_ok (common_log_lines (obj w)) w Hpool) as (t & _ & Ht).
  rewrite (bind_ok _ _ _ _ _ Ht).
  rewrite (bind_ok _ _ _ _ _ (ip_refill_run (skip 1 w) t Hip)).
  destruct (misc_refill_ok k (skip 4 (skip 1 w)) 
              (Str.replace "<IP_ADDRESS_STUB>" (random_ip_of (skip 1 w)) 10 t)
              Hgen) as (r & n & Hr).
  rewrite (bind_ok _ _ _ _ _ Hr). unfold mret, M_ret.
  rewrite !skip_skip. by eexists _, _.
Qed.

Lemma for_range_from {A} (body : M A) w :
  (forall j, exists a k, body (skip j w) = (Ok a, skip k (skip j w))) ->
  forall n, exists l m,
    for_range n body w = (Ok l, skip m w) /\ length l = n.
Proof.
  intros Hbody n. revert w Hbody.
  induction n as [|n IH]; intros w Hbody.
  - exists [], 0%nat. by rewrite skip_0.
  - destruct (Hbody 0%nat) as (a & k & Ha). rewrite skip_0 in Ha.
    destruct (IH (skip k w)) as (l & m & Hl & Hlen).
    { intros j. rewrite skip_skip. apply Hbody. }
    exists (a :: l), (m + k)%nat. cbn [for_range].
    rewrite (bind_ok _ _ _ _ _ Ha), (bind_ok _ _ _ _ _ Hl), skip_skip.
    split; [done|]. simpl. by rewrite Hlen.
Qed.

Lemma generate_lines_ok k w n :
  can_generate k (obj w) ->
  exists lines m,
    for_range n generate_line w = (Ok lines, skip m w) /\
    length lines = n.
Proof.
  intros Hgen. apply for_range_from. intros j.
  by apply (generate_line_ok k).
Qed.

(** What [generate_log] does on a sample that is not empty.  The loop
    generates as many lines as estimated.  Then the refill of the date
    and time stamps them and the output file is opened, which fails on a
    path that cannot be opened for writing; or the refill stops with
    OverflowError because a cursor passed year 9999, which takes more
    than a billion lines. *)
Lemma generate_log_run k path content size_mb output w :
  can_generate k (obj w) ->
  sample_ready path content w ->
  content <> "" ->
  let average :=
    Z.of_nat (Str.len content) / Z.of_nat (length (readlines content)) in
  let estimate := size_mb * 1024 * 1024 / average in
  exists batch m,
    for_range (Z.to_nat estimate) generate_line w = (Ok batch, skip m w) /\
    length batch = Z.to_nat estimate /\
    let lines := stamped k (obj w) (skip m w) 0 batch in
    let n := (stamped_before k batch (length batch) + m)%nat in
    (can_open_for_writing w output = true /\
     generate_log size_mb output w =
       (Ok tt, with_file output lines (skip n w))) \/
    (can_open_for_writing w output = false /\
     generate_log size_mb output w = (Raised IOError, skip n w)) \/
    (1000000000 < estimate /\
     exists j, generate_log size_mb output w =
                 (Raised OverflowError, skip j w)).
Proof.
  intros Hgen Hready Hne average estimate.
  pose proof Hgen as ((Hk & _) & _).
  assert (_calculate_required_number_of_lines size_mb w = (Ok estimate, w))
    as Hcalc.
  { destruct Hready as (Hf & Hp & Hl). rewrite <- Hp in Hf.
    pose proof (calculate_run w size_mb content Hf) as Hrun.
    cbn zeta in Hrun. rewrite Hl in Hrun. fold average estimate in Hrun.
    destruct (readlines_count content) as [Hle Hpos]. specialize (Hpos Hne).
    assert (1 <= average)
      by (unfold average; apply Z.div_le_lower_bound; lia).
    destruct (Z.eqb_spec (Z.of_nat (length (readlines content))) 0); [lia|].
    by destruct (Z.eqb_spec average 0); [lia|]. }
  destruct (generate_lines_ok k w (Z.to_nat estimate) Hgen)
    as (batch & m & Hbatch & Hlen).
  exists batch, m. split; [done|]. split; [done|]. cbv zeta.
  unfold generate_log.
  rewrite (bind_ok _ _ _ _ _ Hcalc), (bind_ok _ _ _ _ _ Hbatch).
  destruct (replace_date_and_time_stub_cases batch (skip m w))
    as [Hok|(i & j & Hi & Hy & Hraise)].
  - change (klass_of (obj (skip m w))) with (klass_of (obj w)) in Hok.
    change (obj (skip m w)) with (obj w) in Hok. rewrite Hk in Hok.
    rewrite (bind_ok _ _ _ _ _ Hok), skip_skip. unfold write_file_lines.
    change (can_open_for_writing (skip _ w) output)
      with (can_open_for_writing w output).
    destruct (can_open_for_writing w output); [left|right; left]; done.
  - right. right.
    pose proof (stamped_before_le (klass_of (obj (skip m w))) batch
                  (length batch)) as Hle.
    split.
    + destruct (Z.le_gt_cases (Z.of_nat i) 1000000000) as [Hsmall|Hbig].
      * pose proof (cursor_year (klass_of (obj (skip m w))) (skip m w) i
                      Hsmall). lia.
      * lia.
    + exists (j + m)%nat. rewrite (bind_raised _ _ _ _ _ Hraise).
      by rewrite skip_skip.
Qed.

Lemma construct_ready k path content w :
  fs w !! path = Some content ->
  exists w',
    construct k path w = (Ok tt, w') /\
    fs w' = fs w /\
    sample_ready path content w' /\
    (content <> "" -> k <> LogTuner -> can_generate k (obj w')).
Proof.
  intros Hf. destruct (construct_run k path w) as (o & Hc & Hp & Hm & Hrun).
  rewrite Hf in Hrun. eexists. split; [exact Hrun|].
  cbn [obj fs tape pos writable with_obj skip]. split; [done|]. split.
  - by repeat split.
  - intros Hne Hk. destruct (readlines_count content) as [_ Hpos].
    specialize (Hpos Hne). split; [|split; [done|split]].
    + destruct Hc as (? & ? & ?). repeat split; try done; by destruct k.
    + cbn [common_log_lines set_common_log_lines]. intros H.
      apply (f_equal length) in H. rewrite length_map in H. simpl in H. lia.
    + intros Hw. cbn [_random_macs set_common_log_lines set_log_lines].
      rewrite (Hm Hw). intros H. apply (f_equal length) in H.
      unfold macs_of in H. rewrite length_map, length_seq in H.
      simpl in H. lia.
Qed.

Lemma construct_writable k path w w' :
  construct k path w = (Ok tt, w') -> writable w' = writable w.
Proof.
  destruct (construct_run k path w) as (o & _ & _ & _ & Hrun).
  destruct (fs w !! path).
  - rewrite Hrun. by intros [= <-].
  - destruct Hrun as (_ & _ & Hrun). by rewrite Hrun.
Qed.

(** What [generate_log] leaves behind when the estimate is at most a
    billion lines. *)
Lemma generate_log_outcome (k : klass) (path content output : string)
    (size_mb : Z) (w : world) :
  can_generate k (obj w) ->
  sample_ready path content w ->
  content <> "" ->
  let average :=
    Z.of_nat (Str.len content) / Z.of_nat (length (readlines content)) in
  let estimate := size_mb * 1024 * 1024 / average in
  estimate <= 1000000000 ->
  exists batch m,
    for_range (Z.to_nat estimate) generate_line w = (Ok batch, skip m w) /\
    let lines := stamped k (obj w) (skip m w) 0 batch in
    length lines = Z.to_nat estimate /\
    (can_open_for_writing w output = true ->
     exists w',
       generate_log size_mb output w = (Ok tt, w') /\
       fs w' !! output = Some (Str.join "" lines) /\
       (forall p, p <> output -> fs w' !! p = fs w !! p) /\
       obj w' = obj w) /\
    (can_open_for_writing w output = false ->
     exists w',
       generate_log size_mb output w = (Raised IOError, w') /\
       fs w' = fs w /\ obj w' = obj w).
Proof.
  intros Hgen Hready Hne average estimate Hsmall.
  destruct (generate_log_run k path content size_mb output w Hgen Hready Hne)
    as (batch & m & Hbatch & Hlen & Hrun).
  fold average estimate in Hbatch, Hlen, Hrun. cbv zeta in Hrun.
  exists batch, m. split; [done|]. cbv zeta.
  split; [by rewrite length_stamped|]. split.
  - intros Hopen.
    destruct Hrun as [[_ Hrun]|[[Hno _]|[Hbig _]]]; [|congruence|lia].
    eexists. split; [exact Hrun|]. unfold with_file. cbn [fs obj skip].
    split; [apply lookup_insert_eq|]. split; [|done].
    intros p Hp. by apply lookup_insert_ne.
  - intros Hopen.
    destruct Hrun as [[Hyes _]|[[_ Hrun]|[Hbig _]]]; [congruence| |lia].
    by eexists.
Qed.

(** X7. On a tuner that can generate lines, built from a sample that is
    not empty and has not changed, with an estimate of at most a billion
    lines, the loop of [generate_log] generates exactly as many lines as
    estimated and the refill of the date and time stamps them.  If the
    output path can be opened for writing, [generate_log] returns and the
    output file holds these stamped lines one after the other; no other
    file changes and the tuner is as it was.  If the path cannot be
    opened, [generate_log] raises IOError and no file changes. *)
Theorem X7_generate_log_writes (k : klass) (path content output : string)
    (size_mb : Z) (w : world) :
  can_generate k (obj w) ->
  sample_ready path content w ->
  content <> "" ->
  let average :=
    Z.of_nat (Str.len content) / Z.of_nat (length (readlines content)) in
  let estimate := size_mb * 1024 * 1024 / average in
  estimate <= 1000000000 ->
  exists batch m,
    for_range (Z.to_nat estimate) generate_line w = (Ok batch, skip m w) /\
    let lines := stamped k (obj w) (skip m w) 0 batch in
    length lines = Z.to_nat estimate /\
    (can_open_for_writing w output = true ->
     exists w',
       generate_log size_mb output w = (Ok tt, w') /\
       fs w' !! output = Some (Str.join "" lines) /\
       (forall p, p <> output -> fs w' !! p = fs w !! p) /\
       obj w' = obj w) /\
    (can_open_for_writing w output = false ->
     exists w',
       generate_log size_mb output w = (Raised IOError, w') /\
       fs w' = fs w /\ obj w' = obj w).
Proof. apply generate_log_outcome. Qed.

Lemma X7_generate_log_witness :
  let w := (construct CiscoIosLogTuner "sample.log"
              (initial_world (fun i => Z.of_nat i) "sample.log"
                 sample_line)).2 in
  exists batch m w',
    generate_log 1 "out.log" w = (Ok tt, w') /\
    fs w' !! "out.log" =
      Some (Str.join ""
              (stamped CiscoIosLogTuner (obj w) (skip m w) 0 batch)) /\
    Z.of_nat (length (stamped CiscoIosLogTuner (obj w) (skip m w) 0 batch)) =
      17476.
Proof.
  intros w.
  assert (can_generate CiscoIosLogTuner (obj w)) as Hgen.
  { vm_compute. repeat split; (reflexivity || discriminate). }
  assert (sample_ready "sample.log" sample_line w) as Hr.
  { vm_compute. repeat split; reflexivity. }
  destruct (X7_generate_log_writes CiscoIosLogTuner "sample.log"
              sample_line "out.log" 1 w Hgen Hr)
    as (batch & m & _ & Hlen & Hopen & _).
  - vm_compute. discriminate.
  - vm_compute. discriminate.
  - destruct Hopen as (w' & Hrun & Hfile & _); [reflexivity|].
    exists batch, m, w'. split; [done|]. split; [done|].
    cbv zeta in Hlen. rewrite Hlen. vm_compute. reflexivity.
Defined.



(** The arguments of the usage line, in its order. *)
Lemma main_standard input output size_text class_name size w :
  py_int size_text = Ok size ->
  main ["-i"; input; "-o"; output; "-s"; size_text; "-c"; class_name] w =
  main_tail input output size class_name w.
Proof.
  intros Hsize. unfold main.
  change (Getopt.getopt
            ["-i"; input; "-o"; output; "-s"; size_text; "-c"; class_name]
            "i:o:s:c:")
    with (Ok ([("-i", input); ("-o", output); ("-s", size_text);
               ("-c", class_name)], @nil string)).
  cbv beta iota.
  change (read_options
            [("-i", input); ("-o", output); ("-s", size_text);
             ("-c", class_name)] (None, None, None, None))
    with (match py_int size_text with
          | Ok n => Ok (Some input, Some output, Some n, Some class_name)
          | Raised e => Raised e
          end).
  by rewrite Hsize.
Qed.

(** X9. The main program on the arguments of its usage line, with a
    class of the [classes] dictionary, a size that [int] accepts and a
    sample file that exists.  If the file is empty it raises
    ZeroDivisionError and writes nothing.  If it is not, and the estimate
    is at most a billion lines, the tuner is built and generates as many
    lines as estimated; with an output path that can be opened for
    writing the program returns, the output file holds those lines with
    their timestamps and every other file is as it was; with one that
    cannot, it raises IOError and no file changes. *)
Theorem X9_main_runs (k : klass)
    (input output size_text class_name content : string)
    (size_mb : Z) (w : world) :
  classes !! class_name = Some k ->
  fs w !! input = Some content ->
  py_int size_text = Ok size_mb ->
  let argv :=
    ["-i"; input; "-o"; output; "-s"; size_text; "-c"; class_name] in
  let average :=
    Z.of_nat (Str.len content) / Z.of_nat (length (readlines content)) in
  let estimate := size_mb * 1024 * 1024 / average in
  (content = "" ->
   (main argv w).1 = Raised ZeroDivisionError /\
   fs (main argv w).2 = fs w) /\
  (content <> "" -> estimate <= 1000000000 ->
   exists w1 batch m,
     construct k input w = (Ok tt, w1) /\
     for_range (Z.to_nat estimate) generate_line w1 =
       (Ok batch, skip m w1) /\
     let lines := stamped k (obj w1) (skip m w1) 0 batch in
     length lines = Z.to_nat estimate /\
     (can_open_for_writing w output = true ->
      exists w',
        main argv w = (Ok tt, w') /\
        fs w' !! output = Some (Str.join "" lines) /\
        forall p, p <> output -> fs w' !! p = fs w !! p) /\
     (can_open_for_writing w output = false ->
      (main argv w).1 = Raised IOError /\ fs (main argv w).2 = fs w)).
Proof.
  intros Hk Hf Hsize argv average estimate. unfold argv.
  rewrite (main_standard _ _ _ _ _ _ Hsize).
  rewrite (main_registered _ _ _ _ _ _ Hk).
  destruct (construct_ready k input content w Hf)
    as (w1 & Hc & Hfs & Hready & Hgen).
  rewrite (bind_ok _ _ _ _ _ Hc). split.
  - intros ->. pose proof Hready as (Hf1 & Hp & Hl). rewrite <- Hp in Hf1.
    pose proof (calculate_run w1 size_mb "" Hf1) as Hrun.
    cbn zeta in Hrun. rewrite Hl in Hrun. simpl in Hrun.
    unfold generate_log. rewrite (bind_raised _ _ _ _ _ Hrun). by simpl.
  - intros Hne Hsmall.
    assert (k <> LogTuner) as Hbase
      by (apply registered_classes in Hk; by destruct Hk as [->|[->| ->]]).
    assert (can_open_for_writing w1 output = can_open_for_writing w output)
      as Hsame.
    { unfold can_open_for_writing.
      by rewrite (construct_writable _ _ _ _ Hc). }
    destruct (generate_log_outcome k input content output size_mb w1
                (Hgen Hne Hbase) Hready Hne Hsmall)
      as (batch & m & Hbatch & Hlen & Hopen & Hclosed).
    exists w1, batch, m. split; [done|]. split; [done|]. cbv zeta.
    split; [done|]. rewrite <- Hsame. split.
    + intros Hyes. destruct (Hopen Hyes) as (w' & Hrun & Hfile & Hrest & _).
      exists w'. split; [done|]. split; [done|].
      intros p Hp. rewrite <- Hfs. by apply Hrest.
    + intros Hno. destruct (Hclosed Hno) as (w' & Hrun & Hfs' & _).
      rewrite Hrun. cbn [fst snd]. by rewrite Hfs', Hfs.
Qed.

Lemma X9_main_runs_witness :
  (main ["-i"; "sample.log"; "-o"; "out.log"; "-s"; "1"; "-c";
         "IgkExtremeLogTuner"]
     (initial_world (fun _ => 0) "sample.log" "")).1 =
  Raised ZeroDivisionError.
Proof.
  destruct (X9_main_runs IgkExtremeLogTuner "sample.log" "out.log" "1"
              "IgkExtremeLogTuner" "" 1
              (initial_world (fun _ => 0) "sample.log" ""))
    as [H _]; [vm_compute; reflexivity..|].
  by destruct (H eq_refl).
Defined.

(** What the main program does once its four options are read. *)
Lemma main_tail_outcomes input output class_name size_mb w :
  let r := (main_tail input output size_mb class_name w).1 in
  (classes !! class_name = None /\
   main_tail input output size_mb class_name w = (Raised (SystemExit 1), w)) \/
  (exists k, classes !! class_name = Some k /\
     match fs w !! input with
     | None => r = Raised IOError
     | Some content =>
         if decide (content = "") then r = Raised ZeroDivisionError
         else (r = Ok tt /\ can_open_for_writing w output = true) \/
              (r = Raised IOError /\
               can_open_for_writing w output = false) \/
              (r = Raised OverflowError /\
               1000000000 <
               size_mb * 1024 * 1024 /
               (Z.of_nat (Str.len content) /
                Z.of_nat (length (readlines content))))
     end).
Proof.
  intros r. destruct (classes !! class_name) as [k|] eqn:Hk.
  - right. exists k. split; [done|]. subst r.
    destruct (fs w !! input) as [content|] eqn:Hf.
    + case_decide as Hc.
      * destruct (construct_ready k input content w Hf)
          as (w1 & Hrun & _ & (Hf1 & Hp & Hl) & _).
        rewrite (main_registered _ _ _ _ _ _ Hk), (bind_ok _ _ _ _ _ Hrun).
        subst content. rewrite <- Hp in Hf1.
        pose proof (calculate_run w1 size_mb "" Hf1) as Hcalc.
        cbn zeta in Hcalc. rewrite Hl in Hcalc. simpl in Hcalc.
        unfold generate_log. by rewrite (bind_raised _ _ _ _ _ Hcalc).
      * assert (k <> LogTuner) as Hbase.
        { pose proof (registered_classes _ _ Hk) as Hreg.
          by destruct Hreg as [->|[->| ->]]. }
        destruct (construct_ready k input content w Hf)
          as (w1 & Hrun & _ & Hready & Hgen).
        rewrite (main_registered _ _ _ _ _ _ Hk), (bind_ok _ _ _ _ _ Hrun).
        assert (can_open_for_writing w1 output =
                can_open_for_writing w output) as Hsame.
        { unfold can_open_for_writing.
          by rewrite (construct_writable _ _ _ _ Hrun). }
        destruct (generate_log_run k input content size_mb output w1
                    (Hgen Hc Hbase) Hready Hc)
          as (batch & m & _ & _ & Hcases).
        cbv zeta in Hcases. rewrite Hsame in Hcases.
        destruct Hcases as [[Hyes Hok]|[[Hno Hio]|[Hbig [j Hraise]]]].
        -- left. by rewrite Hok.
        -- right. left. by rewrite Hio.
        -- right. right. by rewrite Hraise.
    + destruct (construct_run k input w) as (o & _ & _ & _ & Hrun).
      rewrite Hf in Hrun. destruct Hrun as (_ & _ & Hrun).
      rewrite (main_registered _ _ _ _ _ _ Hk).
      by rewrite (bind_raised _ _ _ _ _ Hrun).
  - left. split; [done|]. unfold main_tail. by rewrite Hk.
Qed.

(** X10. The ways the main program ends, whatever its arguments.  It
    stops before it reads or writes anything with GetoptError (an option
    that is not one of the four, or one without its argument),
    ValueError (a size [int] does not accept) or exit status 1 (an
    option missing, or a class name that is not in the dictionary).
    Otherwise the class is known and it raises IOError (the sample file
    is missing), ZeroDivisionError (the sample file is empty), or, on a
    sample that is not empty, returns (the output path can be opened for
    writing), raises IOError (it cannot) or OverflowError (only with an
    estimate above a billion lines).  It never raises IndexError,
    OSError, NameError or AttributeError. *)
Theorem X10_main_outcomes (argv : list string) (w : world) :
  let r := (main argv w).1 in
  (((r = Raised GetoptError \/ r = Raised ValueError \/
     r = Raised (SystemExit 1)) /\ (main argv w).2 = w) \/
   (exists input output size_mb class_name k,
      main argv w = main_tail input output size_mb class_name w /\
      classes !! class_name = Some k /\
      match fs w !! input with
      | None => r = Raised IOError
      | Some content =>
          if decide (content = "") then r = Raised ZeroDivisionError
          else (r = Ok tt /\ can_open_for_writing w output = true) \/
               (r = Raised IOError /\
                can_open_for_writing w output = false) \/
               (r = Raised OverflowError /\
                1000000000 <
                size_mb * 1024 * 1024 /
                (Z.of_nat (Str.len content) /
                 Z.of_nat (length (readlines content))))
      end)) /\
  (forall e, r = Raised e ->
             e ∈ [GetoptError; ValueError; SystemExit 1; IOError;
                  ZeroDivisionError; OverflowError]).
Proof.
  intros r.
  assert (((r = Raised GetoptError \/ r = Raised ValueError \/
            r = Raised (SystemExit 1)) /\ (main argv w).2 = w) \/
          (exists input output size_mb class_name k,
             main argv w = main_tail input output size_mb class_name w /\
             classes !! class_name = Some k /\
             match fs w !! input with
             | None => r = Raised IOError
             | Some content =>
                 if decide (content = "") then r = Raised ZeroDivisionError
                 else (r = Ok tt /\ can_open_for_writing w output = true) \/
                      (r = Raised IOError /\
                       can_open_for_writing w output = false) \/
                      (r = Raised OverflowError /\
                       1000000000 <
                       size_mb * 1024 * 1024 /
                       (Z.of_nat (Str.len content) /
                        Z.of_nat (length (readlines content))))
             end)) as Hcases.
  { subst r.
    destruct (main_cases argv w)
      as [(e & He & Hrun)|(input & output & size_mb & class_name & Hrun)].
    - left. rewrite Hrun. cbn [fst snd]. split; [|done].
      destruct He as [->|[->| ->]]; auto.
    - destruct (main_tail_outcomes input output class_name size_mb w)
        as [[_ Hexit]|(k & Hk & Hout)].
      + left. rewrite Hrun, Hexit. cbn [fst snd]. auto.
      + right. exists input, output, size_mb, class_name, k.
        split; [done|]. split; [done|]. by rewrite Hrun. }
  split; [exact Hcases|].
  intros e He. rewrite !elem_of_cons.
  destruct Hcases as [[[H|[H|H]] _]
                     |(input & output & size_mb & class_name & k & _ & _
                       & Hout)].
  1-3: rewrite He in H; injection H as ->; auto 10.
  destruct (fs w !! input) as [content|].
  - case_decide as Hd.
    + rewrite He in Hout. injection Hout as ->. auto 10.
    + destruct Hout as [[H _]|[[H _]|[H _]]]; rewrite He in H;
        [discriminate H|injection H as ->; auto 10..].
  - rewrite He in Hout. injection Hout as ->. auto 10.
Qed.


(** ** The text of a timestamp *)

Lemma check_range (P : Z -> bool) lo n :
  forallb P (seqZ lo n) = true -> forall i, lo <= i < lo + n -> P i = true.
Proof.
  intros H i Hi. rewrite forallb_forall in H. apply H.
  apply list_elem_of_In, elem_of_seqZ. lia.
Qed.

Lemma zfill_2_digits n : 0 <= n < 100 -> digits 2 (zfill 2 n).
Proof.
  intros Hn.
  pose proof (check_range
    (fun n => Nat.eqb (Str.len (zfill 2 n)) 2 && all_digits (zfill 2 n))
    0 100 ltac:(vm_compute; reflexivity) n ltac:(lia)) as H.
  apply andb_prop in H as [H1%Nat.eqb_eq H2]. by split.
Qed.

Lemma zfill_6_digits ms : 0 <= ms < 1000 -> digits 6 (zfill 6 (1000 * ms)).
Proof.
  intros Hn.
  pose proof (check_range
    (fun ms => Nat.eqb (Str.len (zfill 6 (1000 * ms))) 6 &&
               all_digits (zfill 6 (1000 * ms)))
    0 1000 ltac:(vm_compute; reflexivity) ms ltac:(lia)) as H.
  apply andb_prop in H as [H1%Nat.eqb_eq H2]. by split.
Qed.

Lemma str_year_digits y : 1000 <= y <= 9999 -> digits 4 (str y).
Proof.
  intros Hy.
  pose proof (check_range
    (fun y => Nat.eqb (Str.len (str y)) 4 && all_digits (str y))
    1000 9000 ltac:(vm_compute; reflexivity) y ltac:(lia)) as H.
  apply andb_prop in H as [H1%Nat.eqb_eq H2]. by split.
Qed.

Lemma month_abbr_len m : 1 <= m <= 12 -> Str.len (month_abbr m) = 3%nat.
Proof.
  intros Hm.
  assert (m = 1 \/ m = 2 \/ m = 3 \/ m = 4 \/ m = 5 \/ m = 6 \/ m = 7 \/
          m = 8 \/ m = 9 \/ m = 10 \/ m = 11 \/ m = 12) as H by lia.
  repeat (destruct H as [->|H]; [reflexivity|]). by subst.
Qed.

Lemma days_in_month_range y m : 28 <= days_in_month y m <= 31.
Proof.
  unfold days_in_month.
  destruct (m =? 2); [destruct (is_leap y); lia|].
  destruct ((m =? 4) || (m =? 6) || (m =? 9) || (m =? 11)); lia.
Qed.

Lemma valid_date_next ymd : valid_date ymd -> valid_date (next_date ymd).
Proof.
  destruct ymd as [[y m] d]. unfold valid_date, next_date. intros [Hm Hd].
  destruct (Z.ltb_spec d (days_in_month y m)); [lia|].
  destruct (Z.ltb_spec m 12).
  - pose proof (days_in_month_range y (m + 1)). lia.
  - pose proof (days_in_month_range (y + 1) 1). lia.
Qed.

Lemma valid_date_iter n ymd :
  valid_date ymd -> valid_date (N.iter n next_date ymd).
Proof.
  intros H. induction n as [|n IH] using N.peano_ind; [done|].
  rewrite N.iter_succ. by apply valid_date_next.
Qed.

Lemma microsecond_advance dt ms :
  valid_time dt -> microsecond dt mod 1000 = 0 ->
  microsecond (advance dt ms) mod 1000 = 0.
Proof.
  intros Hv Hus. unfold advance.
  destruct (N.iter _ next_date (date_of dt)) as [[y m] d]. simpl.
  unfold time_of_day_us, us_per_day in *.
  Z.to_euclidean_division_equations. lia.
Qed.

(** Every cursor of a batch of at most a billion lines can be stamped. *)
Lemma cursor_stampable k w n :
  Z.of_nat n <= 1000000000 -> stampable (cursor k w n).
Proof.
  intros Hn. pose proof (elapsed_range w n) as He.
  split; [|split; [|split]].
  - unfold cursor. rewrite DateFacts.date_of_advance.
    apply valid_date_iter. destruct k; vm_compute; intuition discriminate.
  - split; [|by apply cursor_year].
    pose proof (DateFacts.year_advance (seed_of k) (elapsed w n)
                  (valid_time_seed k) (proj1 He)) as Hy.
    fold (cursor k w n) in Hy.
    assert (1900 <= year (seed_of k)) by (destruct k; vm_compute; discriminate).
    lia.
  - apply DateFacts.valid_time_advance.
  - apply microsecond_advance; [apply valid_time_seed|by destruct k].
Qed.

Lemma len_take n s : Str.len (Str.take n s) = Nat.min n (Str.len s).
Proof.
  revert n. induction s as [|c s IH]; intros [|n]; try done.
  unfold Str.len in *. simpl. by rewrite IH.
Qed.

Lemma take_app n a b :
  (Str.len a <= n)%nat ->
  Str.take n (a +:+ b) = a +:+ Str.take (n - Str.len a) b.
Proof.
  revert n. induction a as [|c a IH]; intros n Hn.
  - by rewrite Nat.sub_0_r.
  - destruct n as [|n]; [unfold Str.len in Hn; simpl in Hn; lia|].
    rewrite !StrFacts.app_cons. simpl. rewrite IH; [done|].
    unfold Str.len in *. simpl in Hn. lia.
Qed.

Lemma drop_app n a b :
  (Str.len a <= n)%nat ->
  Str.drop n (a +:+ b) = Str.drop (n - Str.len a) b.
Proof.
  revert n. induction a as [|c a IH]; intros n Hn.
  - by rewrite Nat.sub_0_r.
  - destruct n as [|n]; [unfold Str.len in Hn; simpl in Hn; lia|].
    rewrite StrFacts.app_cons. simpl. apply IH.
    unfold Str.len in *. simpl in Hn. lia.
Qed.

Lemma drop_0 s : Str.drop 0 s = s.
Proof. by destruct s. Qed.

(** The texts of the fields of a datetime that can be stamped. *)
Lemma stampable_fields dt :
  stampable dt ->
  digits 2 (zfill 2 (month dt)) /\ digits 2 (zfill 2 (day dt)) /\
  digits 4 (str (year dt)) /\ digits 2 (zfill 2 (hour dt)) /\
  digits 2 (zfill 2 (minute dt)) /\ digits 2 (zfill 2 (second dt)) /\
  digits 6 (zfill 6 (microsecond dt)) /\
  Str.len (month_abbr (month dt)) = 3%nat.
Proof.
  intros (Hd & Hy & Ht & Hus). unfold valid_date, date_of in Hd.
  destruct Hd as [Hm Hd]. destruct Ht as (Hh & Hmi & Hs & Hu).
  pose proof (days_in_month_range (year dt) (month dt)).
  repeat split; try (apply zfill_2_digits; lia);
    try (apply str_year_digits; lia); try (apply month_abbr_len; lia).
  all: replace (microsecond dt) with (1000 * (microsecond dt / 1000))
         by (Z.to_euclidean_division_equations; lia).
  all: apply zfill_6_digits; Z.to_euclidean_division_equations; lia.
Qed.

Lemma strftime_igk dt :
  strftime "%m/%d/%Y %H:%M:%S.%f" dt =
  (zfill 2 (month dt) +:+ "/" +:+ zfill 2 (day dt) +:+ "/" +:+
   str (year dt) +:+ " " +:+ zfill 2 (hour dt) +:+ ":" +:+
   zfill 2 (minute dt) +:+ ":" +:+ zfill 2 (second dt) +:+ ".") +:+
  zfill 6 (microsecond dt).
Proof.
  replace (zfill 6 (microsecond dt)) with (zfill 6 (microsecond dt) +:+ "")
    by apply StrFacts.app_nil_r.
  rewrite !StrFacts.app_assoc. reflexivity.
Qed.

Lemma strftime_wlc dt :
  strftime "%H:%M:%S.%f" dt =
  (zfill 2 (hour dt) +:+ ":" +:+ zfill 2 (minute dt) +:+ ":" +:+
   zfill 2 (second dt) +:+ ".") +:+ zfill 6 (microsecond dt).
Proof.
  replace (zfill 6 (microsecond dt)) with (zfill 6 (microsecond dt) +:+ "")
    by apply StrFacts.app_nil_r.
  rewrite !StrFacts.app_assoc. reflexivity.
Qed.

Lemma strftime_ios dt :
  strftime "%b %d %H:%M:%S.%f" dt =
  (month_abbr (month dt) +:+ " " +:+ zfill 2 (day dt) +:+ " " +:+
   zfill 2 (hour dt) +:+ ":" +:+ zfill 2 (minute dt) +:+ ":" +:+
   zfill 2 (second dt)) +:+ "." +:+ zfill 6 (microsecond dt).
Proof.
  replace (zfill 6 (microsecond dt)) with (zfill 6 (microsecond dt) +:+ "")
    by apply StrFacts.app_nil_r.
  rewrite !StrFacts.app_assoc. reflexivity.
Qed.

(** Cutting the last [n] characters of a text that ends with [b], when
    [b] has at least [n]. *)
Lemma drop_last_app n a b :
  (n <= Str.len b)%nat ->
  Str.drop_last n (a +:+ b) = a +:+ Str.drop_last n b.
Proof.
  intros Hn. unfold Str.drop_last.
  rewrite StrFacts.len_app, take_app by lia. do 2 f_equal. lia.
Qed.

Ltac len_known :=
  rewrite ?StrFacts.len_app;
  repeat match goal with
         | H : digits _ ?s |- _ => destruct H as [-> _]
         | H : Str.len ?s = _ |- _ => rewrite H; clear H
         end.

Lemma digits_2_shape s :
  digits 2 s ->
  exists a b, s = String a (String b "") /\
              Re.digit a = true /\ Re.digit b = true.
Proof.
  intros [Hlen Hd]. destruct s as [|a [|b [|c s]]]; try discriminate Hlen.
  simpl in Hd. apply andb_prop in Hd as [Ha Hd].
  apply andb_prop in Hd as [Hb _]. by exists a, b.
Qed.

Lemma digits_6_shape s :
  digits 6 s ->
  exists a b c d e f,
    s = String a (String b (String c (String d (String e (String f ""))))) /\
    Re.digit a = true /\ Re.digit b = true /\ Re.digit c = true.
Proof.
  intros [Hlen Hd].
  destruct s as [|a [|b [|c [|d [|e [|f [|g s]]]]]]]; try discriminate Hlen.
  simpl in Hd. apply andb_prop in Hd as [Ha Hd].
  apply andb_prop in Hd as [Hb Hd]. apply andb_prop in Hd as [Hc _].
  by exists a, b, c, d, e, f.
Qed.

Lemma prefix_cut_is_drop n line :
  match line with "" => line | _ => Str.drop n line end = Str.drop n line.
Proof. by destruct line, n. Qed.

(** The stubbers of the date and time that cut a prefix. *)
Lemma prefix_stubber_is_drop self line k :
  klass_of self = k ->
  _stub_date_and_time self line =
  match k with
  | IgkExtremeLogTuner => Str.drop 22 line
  | CiscoIosLogTuner => Str.drop 15 line
  | CiscoWlcLogTuner => Wlc._stub_date_and_time self line
  | LogTuner => line
  end.
Proof.
  intros <-. unfold _stub_date_and_time.
  destruct (klass_of self); simpl; try done; apply prefix_cut_is_drop.
Qed.

(** X11. A timestamp of IgkExtremeLogTuner is 22 characters, the width
    its stubber of the date and time cuts: in a batch of at most a
    billion lines, cutting the date and time of a line the refill has
    stamped gives the line back as it was before the refill. *)
Theorem X11_igk_stamp_then_stub (w : world) (lines out : list string)
    (w' : world) (j : nat) (line stamped_line : string) :
  klass_of (obj w) = IgkExtremeLogTuner ->
  Z.of_nat (length lines) <= 1000000000 ->
  _replace_date_and_time_stub lines w = (Ok out, w') ->
  lines !! j = Some line ->
  out !! j = Some stamped_line ->
  Str.blank line = false ->
  Str.len stamped_line = (22 + Str.len line)%nat /\
  _stub_date_and_time (obj w) stamped_line = line.
Proof.
  intros Hk Hlen Hrun Hj Hout Hblank.
  apply replace_date_and_time_stub_inv in Hrun as [-> _].
  set (dt := cursor IgkExtremeLogTuner w
               (S (0 + stamped_before IgkExtremeLogTuner lines j))).
  assert (stamped_line = stamp IgkExtremeLogTuner (obj w) dt line) as ->.
  { rewrite (stamped_lookup _ _ _ _ _ _ _ Hj), Hk in Hout.
    change (skips IgkExtremeLogTuner line) with (Str.blank line) in Hout.
    rewrite Hblank in Hout. by injection Hout as <-. }
  assert (stampable dt) as Hdt.
  { apply cursor_stampable.
    pose proof (lookup_lt_Some _ _ _ Hj).
    assert (stamped_before IgkExtremeLogTuner lines j <= j)%nat.
    { unfold stamped_before. etrans; [apply length_filter|].
      rewrite length_take. lia. }
    simpl. lia. }
  destruct (stampable_fields dt Hdt)
    as (Hm & Hd & Hy & Hh & Hmi & Hs & Hus & _).
  assert (Str.len (timestamp_text IgkExtremeLogTuner dt) = 22%nat) as Hts.
  { unfold timestamp_text. rewrite strftime_igk.
    rewrite drop_last_app by (destruct Hus as [-> _]; lia).
    unfold Str.drop_last. rewrite StrFacts.len_app, len_take. len_known.
    reflexivity. }
  change (stamp IgkExtremeLogTuner (obj w) dt line)
    with (timestamp_text IgkExtremeLogTuner dt +:+ line).
  split; [by rewrite StrFacts.len_app, Hts|].
  rewrite (prefix_stubber_is_drop _ _ _ Hk).
  rewrite drop_app by lia. rewrite Hts. apply drop_0.
Qed.

Lemma X11_igk_stamp_then_stub_witness :
  _stub_date_and_time igk_instance "05/10/2017 07:25:58.15up" = "up".
Proof.
  assert (_replace_date_and_time_stub ["up"] (world_of igk_instance 40) =
          (Ok ["05/10/2017 07:25:58.15up"], skip 1 (world_of igk_instance 40)))
    as Hrun by (vm_compute; reflexivity).
  destruct (X11_igk_stamp_then_stub (world_of igk_instance 40) ["up"] _ _
              0 "up" "05/10/2017 07:25:58.15up" eq_refl
              ltac:(simpl; lia) Hrun eq_refl eq_refl eq_refl) as [_ H].
  exact H.
Defined.

(** A timestamp of CiscoIosLogTuner is 18 characters, three more than
    the 15 its stubber of the date and time cuts. *)
Lemma ios_stamp_then_stub (self : instance) (dt : datetime)
    (line : string) :
  klass_of self = CiscoIosLogTuner ->
  stampable dt ->
  Str.len (timestamp_text CiscoIosLogTuner dt) = 18%nat /\
  _stub_date_and_time self (stamp CiscoIosLogTuner self dt line) =
    "." +:+ Str.take 2 (zfill 6 (microsecond dt)) +:+ line /\
  _stub_date_and_time self (stamp CiscoIosLogTuner self dt line) <> line.
Proof.
  intros Hk Hdt.
  destruct (stampable_fields dt Hdt)
    as (_ & Hd & _ & Hh & Hmi & Hs & Hus & Hb).
  assert (timestamp_text CiscoIosLogTuner dt =
          (month_abbr (month dt) +:+ " " +:+ zfill 2 (day dt) +:+ " " +:+
           zfill 2 (hour dt) +:+ ":" +:+ zfill 2 (minute dt) +:+ ":" +:+
           zfill 2 (second dt)) +:+
          "." +:+ Str.take 2 (zfill 6 (microsecond dt))) as Hts.
  { unfold timestamp_text. rewrite strftime_ios.
    rewrite drop_last_app
      by (rewrite StrFacts.len_app; destruct Hus as [-> _]; simpl; lia).
    f_equal.
    rewrite (drop_last_app 4 ".") by (destruct Hus as [-> _]; lia).
    f_equal. unfold Str.drop_last. by destruct Hus as [-> _]. }
  assert (Str.len (Str.take 2 (zfill 6 (microsecond dt))) = 2%nat) as Htake
    by (rewrite len_take; destruct Hus as [-> _]; reflexivity).
  set (head := month_abbr (month dt) +:+ " " +:+ zfill 2 (day dt) +:+ " " +:+
               zfill 2 (hour dt) +:+ ":" +:+ zfill 2 (minute dt) +:+ ":" +:+
               zfill 2 (second dt)) in *.
  assert (Str.len head = 15%nat) as Hhead.
  { unfold head. clear Hts Htake Hus. len_known. reflexivity. }
  assert (_stub_date_and_time self (stamp CiscoIosLogTuner self dt line) =
          "." +:+ Str.take 2 (zfill 6 (microsecond dt)) +:+ line) as Hstub.
  { change (stamp CiscoIosLogTuner self dt line)
      with (timestamp_text CiscoIosLogTuner dt +:+ line).
    rewrite (prefix_stubber_is_drop _ _ _ Hk), Hts.
    rewrite (StrFacts.app_assoc head). rewrite drop_app by lia.
    rewrite Hhead, StrFacts.app_assoc. apply drop_0. }
  split; [|split; [done|]].
  - rewrite Hts, StrFacts.len_app, Hhead, StrFacts.len_app, Htake.
    reflexivity.
  - rewrite Hstub. intros H. apply (f_equal Str.len) in H.
    rewrite !StrFacts.len_app, Htake in H. simpl in H. lia.
Qed.

(** The timestamp of CiscoWlcLogTuner: two digits three times, colons
    between them, a dot and three digits. *)
Lemma wlc_timestamp_shape dt :
  stampable dt ->
  exists h1 h2 m1 m2 s1 s2 u1 u2 u3,
    timestamp_text CiscoWlcLogTuner dt =
      String h1 (String h2 (String ":" (String m1 (String m2 (String ":"
        (String s1 (String s2 (String "." (String u1 (String u2
          (String u3 ""))))))))))) /\
    Forall (fun c => Re.digit c = true) [h1; h2; m1; m2; s1; s2; u1; u2; u3].
Proof.
  intros Hdt.
  destruct (stampable_fields dt Hdt) as (_ & _ & _ & Hh & Hmi & Hs & Hus & _).
  unfold timestamp_text. rewrite strftime_wlc.
  rewrite drop_last_app by (destruct Hus as [-> _]; lia).
  destruct (digits_2_shape _ Hh) as (h1 & h2 & -> & ? & ?).
  destruct (digits_2_shape _ Hmi) as (m1 & m2 & -> & ? & ?).
  destruct (digits_2_shape _ Hs) as (s1 & s2 & -> & ? & ?).
  destruct (digits_6_shape _ Hus)
    as (u1 & u2 & u3 & u4 & u5 & u6 & -> & ? & ? & ?).
  exists h1, h2, m1, m2, s1, s2, u1, u2, u3. split; [reflexivity|].
  repeat constructor; done.
Qed.

(** ** A placeholder refilled and stubbed again *)

Lemma none_of_app p a b : none_of p (a +:+ b) = none_of p a && none_of p b.
Proof.
  induction a as [|c a IH]; [done|].
  rewrite StrFacts.app_cons. simpl. by rewrite IH, andb_assoc.
Qed.

Lemma none_of_weaken (p q : ascii -> bool) s :
  (forall c, q c = true -> p c = true) ->
  none_of p s = true -> none_of q s = true.
Proof.
  intros Hpq. induction s as [|c s IH]; [done|]. simpl.
  intros [Hc Hs]%andb_prop. rewrite IH by done.
  destruct (q c) eqn:Hq; [|done]. by rewrite (Hpq c Hq) in Hc.
Qed.

Lemma none_of_starts p s : none_of p s = true -> starts_with p s = false.
Proof.
  destruct s as [|c s]; [done|]. simpl. intros [Hc _]%andb_prop.
  by destruct (p c).
Qed.

Lemma plain_no_digit s : plain s = true -> none_of Re.digit s = true.
Proof. apply none_of_weaken. by intros c ->. Qed.

Lemma plain_no_open s :
  plain s = true -> none_of (Ascii.eqb "<") s = true.
Proof.
  apply none_of_weaken. intros c Hc. rewrite Ascii.eqb_sym, Hc.
  apply orb_true_r.
Qed.

Lemma all_digits_no_open s :
  all_digits s = true -> none_of (Ascii.eqb "<") s = true.
Proof.
  induction s as [|c s IH]; [done|]. cbn [all_digits none_of].
  intros [Hc Hs]%andb_prop.
  rewrite IH by done. destruct (Ascii.eqb_spec "<" c) as [<-|]; [|done].
  discriminate Hc.
Qed.

(** A text that starts with a character of [p] does not occur where no
    character is in [p]. *)
Lemma replace_absent p c old' new count s :
  p c = true -> none_of p s = true ->
  Str.replace (String c old') new count s = s.
Proof.
  intros Hc. induction s as [|x s IH]; intros Hs;
    rewrite StrFacts.replace_eq by done;
    (destruct (count =? 0); [done|]); [done|].
  cbn [none_of] in Hs. apply andb_prop in Hs as [Hx Hs].
  cbn [Str.strip_prefix].
  destruct (Ascii.eqb_spec c x) as [<-|_]; [by rewrite Hc in Hx|].
  by rewrite IH.
Qed.

(** The first occurrence, after a text where no character is in [p]. *)
Lemma replace_first p c old' new count pre post :
  p c = true -> none_of p pre = true -> count <> 0 ->
  Str.replace (String c old') new count (pre +:+ String c old' +:+ post) =
  pre +:+ new +:+ Str.replace (String c old') new (count - 1) post.
Proof.
  intros Hc Hpre Hcount. induction pre as [|x pre IH];
    rewrite StrFacts.replace_eq by done;
    (destruct (Z.eqb_spec count 0); [done|]).
  - rewrite StrFacts.app_nil_l, StrFacts.strip_prefix_app. done.
  - cbn [none_of] in Hpre. apply andb_prop in Hpre as [Hx Hpre].
    rewrite !(StrFacts.app_cons x pre). cbn [Str.strip_prefix].
    destruct (Ascii.eqb_spec c x) as [<-|_]; [by rewrite Hc in Hx|].
    by rewrite IH.
Qed.

(** The one occurrence, between texts where no character is in [p]. *)
Lemma replace_between p old new count pre post :
  starts_with p old = true ->
  none_of p pre = true -> none_of p post = true -> count <> 0 ->
  Str.replace old new count (pre +:+ old +:+ post) = pre +:+ new +:+ post.
Proof.
  destruct old as [|c old']; [done|]. cbn [starts_with].
  intros Hc Hpre Hpost Hcount.
  rewrite (replace_first p) by done.
  by rewrite (replace_absent p).
Qed.

Lemma take_len_app m rest :
  Str.take (Str.len (m +:+ rest) - Str.len rest) (m +:+ rest) = m.
Proof.
  rewrite StrFacts.len_app, Nat.add_sub, take_app by lia.
  rewrite Nat.sub_diag. destruct rest; apply StrFacts.app_nil_r.
Qed.

(** A pattern that starts with a character of [p] matches nowhere in a
    text where no character is in [p]. *)
Lemma search_absent p r s :
  Re.match_at r "" = None ->
  (forall c s, p c = false -> Re.match_at r (String c s) = None) ->
  none_of p s = true -> Re.search r s = false.
Proof.
  intros Hnil Hfirst. induction s as [|c s IH]; simpl.
  - by rewrite Hnil.
  - intros [Hc Hs]%andb_prop. rewrite (Hfirst c s) by by destruct (p c).
    by apply IH.
Qed.

(** The one match of such a pattern, between texts where no character
    is in [p]. *)
Lemma findall_between p r pre m post :
  Re.match_at r "" = None ->
  (forall c s, p c = false -> Re.match_at r (String c s) = None) ->
  m <> "" -> Re.match_at r (m +:+ post) = Some post ->
  none_of p pre = true -> none_of p post = true ->
  Re.findall r (pre +:+ m +:+ post) = [m].
Proof.
  intros Hnil Hfirst Hm Hmatch Hpre Hpost.
  assert (forall fuel, (Str.len pre < fuel)%nat ->
            Re.findall_scan fuel r (pre +:+ m +:+ post) = [m]) as H.
  { induction pre as [|c pre IH]; intros [|fuel] Hfuel; try lia.
    - rewrite StrFacts.app_nil_l. cbn [Re.findall_scan]. rewrite Hmatch.
      rewrite take_len_app. cbv zeta.
      rewrite (findall_scan_no_match r post)
        by (by apply (search_absent p)).
      by destruct m.
    - simpl in Hpre. apply andb_prop in Hpre as [Hc Hpre].
      rewrite StrFacts.app_cons. cbn [Re.findall_scan].
      rewrite (Hfirst c) by by destruct (p c).
      apply IH; [done|]. unfold Str.len in *. simpl in Hfuel. lia. }
  apply H. rewrite StrFacts.len_app. lia.
Qed.

(** How the patterns match: in a sequence, the preferred match of the
    first part is kept when the second part matches after it. *)
Lemma match_at_seq r1 r2 s x y :
  Re.match_at r1 s = Some x -> Re.match_at r2 x = Some y ->
  Re.match_at (Re.Seq r1 r2) s = Some y.
Proof.
  unfold Re.match_at. cbn [Re.matches].
  destruct (Re.matches r1 s) as [|x' l]; [done|]. intros [= ->].
  cbn [map concat].
  destruct (Re.matches r2 x) as [|y' l']; [done|]. by intros [= ->].
Qed.

Lemma match_at_times_S n r s x y :
  Re.match_at r s = Some x -> Re.match_at (Re.Times n r) x = Some y ->
  Re.match_at (Re.Times (S n) r) s = Some y.
Proof.
  unfold Re.match_at.
  change (Re.matches (Re.Times (S n) r) s)
    with (concat (map (Re.matches (Re.Times n r)) (Re.matches r s))).
  destruct (Re.matches r s) as [|x' l]; [done|]. intros [= ->].
  cbn [map concat].
  destruct (Re.matches (Re.Times n r) x) as [|y' l']; [done|].
  by intros [= ->].
Qed.

Lemma match_at_lit text rest :
  Re.match_at (Re.Lit text) (text +:+ rest) = Some rest.
Proof.
  unfold Re.match_at. cbn [Re.matches].
  by rewrite StrFacts.strip_prefix_app.
Qed.

Lemma plus_rests_stop p s :
  starts_with p s = false -> Re.plus_rests p s = [].
Proof. destruct s as [|c s]; [done|]. simpl. by intros ->. Qed.

(** A greedy run of digits takes the whole number when no digit follows
    it. *)
Lemma match_at_digits ds rest :
  all_digits ds = true -> ds <> "" -> starts_with Re.digit rest = false ->
  Re.match_at (Re.Plus Re.digit) (ds +:+ rest) = Some rest.
Proof.
  intros Hds Hne Hrest. unfold Re.match_at. cbn [Re.matches].
  induction ds as [|c ds IH]; [done|].
  cbn [all_digits] in Hds. apply andb_prop in Hds as [Hc Hds].
  rewrite StrFacts.app_cons. cbn [Re.plus_rests]. rewrite Hc.
  destruct ds as [|d ds].
  - rewrite StrFacts.app_nil_l, plus_rests_stop by done. done.
  - specialize (IH Hds ltac:(done)).
    destruct (Re.plus_rests Re.digit (String d ds +:+ rest)); [done|].
    done.
Qed.

Lemma no_match_without_digit r c s :
  r ∈ [Re.ip_address; Re.last_seconds] ->
  Re.digit c = false -> Re.match_at r (String c s) = None.
Proof.
  rewrite !elem_of_cons, elem_of_nil. intros [->|[->|[]]] Hc;
    unfold Re.match_at, Re.ip_address, Re.last_seconds;
    cbn [Re.matches Re.plus_rests]; by rewrite Hc.
Qed.

(** The decimal text of the numbers the refills draw. *)
Lemma str_digits n :
  0 <= n <= 5000 -> all_digits (str n) = true /\ str n <> "".
Proof.
  intros Hn.
  pose proof (check_range
    (fun n => all_digits (str n) && negb (Nat.eqb (Str.len (str n)) 0))
    0 5001 ltac:(vm_compute; reflexivity) n ltac:(lia)) as H.
  apply andb_prop in H as [H1 H2]. split; [done|].
  intros E. by rewrite E in H2.
Qed.

Lemma all_digits_starts s :
  all_digits s = true -> s <> "" -> starts_with Re.digit s = true.
Proof. destruct s as [|c s]; [done|]. simpl. by intros [? _]%andb_prop. Qed.

Lemma starts_with_app p a b :
  a <> "" -> starts_with p (a +:+ b) = starts_with p a.
Proof. by destruct a. Qed.

Lemma app_not_nil a b : a <> "" -> a +:+ b <> "".
Proof. by destruct a. Qed.

Lemma octet_digits w i :
  all_digits (str (octet w i)) = true /\ str (octet w i) <> "".
Proof. apply str_digits. pose proof (octet_range w i). lia. Qed.

Lemma random_ip_text w :
  random_ip_of w =
  str (octet w 0) +:+ "." +:+ str (octet w 1) +:+ "." +:+
  str (octet w 2) +:+ "." +:+ str (octet w 3).
Proof. reflexivity. Qed.

Lemma random_ip_match w rest :
  starts_with Re.digit rest = false ->
  Re.match_at Re.ip_address (random_ip_of w +:+ rest) = Some rest.
Proof.
  intros Hrest. rewrite random_ip_text, !StrFacts.app_assoc.
  destruct (octet_digits w 0), (octet_digits w 1), (octet_digits w 2),
    (octet_digits w 3).
  unfold Re.ip_address.
  eapply match_at_seq; [by apply match_at_digits|].
  do 3 (eapply match_at_times_S;
        [eapply match_at_seq;
         [apply match_at_lit|by apply match_at_digits]|]).
  reflexivity.
Qed.

(** X12. The address the IP refill puts in the place of the placeholder
    is what the IP stubber looks for: in a line that has, around one
    placeholder, no digit and no "<", the refill followed by
    [_stub_ip_addresses] gives the line back. *)
Theorem X12_ip_refill_then_stub (w : world) (pre post : string) :
  _IP_ADDRESS_STUB (obj w) = "<IP_ADDRESS_STUB>" ->
  plain pre = true -> plain post = true ->
  let line := pre +:+ "<IP_ADDRESS_STUB>" +:+ post in
  let refilled := pre +:+ random_ip_of w +:+ post in
  _replace_ip_addresses_stub line w = (Ok refilled, skip 4 w) /\
  Re.findall Re.ip_address refilled = [random_ip_of w] /\
  _stub_ip_addresses (obj w) refilled = line.
Proof.
  intros Hstub Hpre Hpost line refilled.
  assert (starts_with Re.digit (random_ip_of w) = true) as Hip.
  { rewrite random_ip_text. destruct (octet_digits w 0).
    rewrite starts_with_app by done. by apply all_digits_starts. }
  assert (Re.findall Re.ip_address refilled = [random_ip_of w]) as Hfind.
  { apply (findall_between Re.digit); [reflexivity| | | | |].
    - intros c s. apply no_match_without_digit.
      rewrite !elem_of_cons. auto.
    - by destruct (random_ip_of w).
    - apply random_ip_match. by apply none_of_starts, plain_no_digit.
    - by apply plain_no_digit.
    - by apply plain_no_digit. }
  split; [|split; [done|]].
  - rewrite (ip_refill_run w line Hstub). do 2 f_equal.
    apply (replace_between (Ascii.eqb "<")); try done;
      by apply plain_no_open.
  - unfold _stub_ip_addresses, Base._stub_ip_addresses. rewrite Hfind, Hstub.
    cbn [replace_each fold_left].
    apply (replace_between Re.digit); try done; by apply plain_no_digit.
Qed.

Lemma X12_ip_refill_then_stub_witness :
  _stub_ip_addresses igk_instance "from 10.11.12.13 port" =
  "from <IP_ADDRESS_STUB> port".
Proof.
  destruct (X12_ip_refill_then_stub (world_of igk_instance 10)
              "from " " port") as (_ & _ & H); [reflexivity..|exact H].
Defined.

Lemma last_seconds_filled times seconds :
  all_digits times = true ->
  Str.replace "<seconds_number>" seconds (-1)
    (Str.replace "<times_number>" times (-1)
       "<times_number> additional times in the last <seconds_number> second")
  = times +:+ " additional times in the last " +:+ seconds +:+ " second".
Proof.
  intros Ht.
  assert (Str.replace "<times_number>" times (-1)
            "<times_number> additional times in the last <seconds_number> second"
          = times +:+ " additional times in the last " +:+
            "<seconds_number>" +:+ " second") as ->.
  { rewrite StrFacts.replace_eq by done.
    cbn [Z.eqb Str.strip_prefix Ascii.eqb Bool.eqb].
    reflexivity. }
  rewrite <- !StrFacts.app_assoc.
  rewrite (StrFacts.app_assoc _ "<seconds_number>").
  rewrite (replace_between (Ascii.eqb "<")); try done.
  - by rewrite !StrFacts.app_assoc.
  - rewrite none_of_app, all_digits_no_open by done. reflexivity.
Qed.

Lemma last_seconds_match times seconds rest :
  0 <= times <= 5000 -> 0 <= seconds <= 5000 ->
  Re.match_at Re.last_seconds (last_seconds_text times seconds +:+ rest) =
  Some rest.
Proof.
  intros [Ht Ht']%str_digits [Hs Hs']%str_digits.
  unfold last_seconds_text, Re.last_seconds. rewrite !StrFacts.app_assoc.
  eapply match_at_seq; [by apply match_at_digits|].
  eapply match_at_seq; [apply match_at_lit|].
  eapply match_at_seq; [by apply match_at_digits|].
  apply match_at_lit.
Qed.

(** X13. The text the miscellaneous refill of IgkExtremeLogTuner puts in
    the place of its placeholder is what its stubber looks for: in a
    line that has, around one placeholder, no digit and no "<", the
    refill followed by [_stub_miscellaneous] gives the line back. *)
Theorem X13_igk_misc_refill_then_stub (w : world) (pre post : string) :
  constructed IgkExtremeLogTuner (obj w) ->
  plain pre = true -> plain post = true ->
  let line := pre +:+ _LAST_SECONDS_STUB (obj w) +:+ post in
  let refilled :=
    pre +:+
    last_seconds_text (1 + draw w 0 mod 300) (1 + draw w 1 mod 100) +:+
    post in
  _replace_miscellaneous_stub line w = (Ok refilled, skip 2 w) /\
  Re.findall Re.last_seconds refilled =
    [last_seconds_text (1 + draw w 0 mod 300) (1 + draw w 1 mod 100)] /\
  _stub_miscellaneous (obj w) refilled = line.
Proof.
  intros (Hk & _ & Hstub) Hpre Hpost line refilled.
  set (times := 1 + draw w 0 mod 300) in *.
  set (seconds := 1 + draw w 1 mod 100) in *.
  assert (0 <= times <= 5000) as Ht
    by (pose proof (Z.mod_pos_bound (draw w 0) 300); lia).
  assert (0 <= seconds <= 5000) as Hs
    by (pose proof (Z.mod_pos_bound (draw w 1) 100); lia).
  destruct (str_digits times Ht) as [Hdt Hnt].
  assert (starts_with Re.digit (last_seconds_text times seconds) = true)
    as Hstart.
  { unfold last_seconds_text. rewrite starts_with_app by done.
    by apply all_digits_starts. }
  assert (Re.findall Re.last_seconds refilled =
          [last_seconds_text times seconds]) as Hfind.
  { apply (findall_between Re.digit); [reflexivity| | | | |].
    - intros c s. apply no_match_without_digit.
      rewrite !elem_of_cons. auto.
    - by destruct (last_seconds_text times seconds).
    - apply last_seconds_match; assumption.
    - by apply plain_no_digit.
    - by apply plain_no_digit. }
  split; [|split; [done|]].
  - unfold _replace_miscellaneous_stub, mbind, M_bind, get_self.
    rewrite Hk.
    change (resolve IgkExtremeLogTuner m_replace_miscellaneous_stub)
      with (Some IgkExtremeLogTuner).
    unfold Igk._replace_miscellaneous_stub, mbind, M_bind, get_self.
    assert (exists c l, line = String c l) as (c & l & Hline).
    { unfold line. rewrite Hstub. destruct pre; by eexists _, _. }
    rewrite Hline.
    rewrite <- Hline.
    change (randint 1 300 w) with (Ok times, skip 1 w). cbv beta iota.
    change (randint 1 100 (skip 1 w))
      with (Ok seconds, skip 1 (skip 1 w)).
    cbv beta iota. rewrite skip_skip. unfold mret, M_ret. do 2 f_equal.
    rewrite Hstub, last_seconds_filled by done. unfold line.
    rewrite Hstub.
    apply (replace_between (Ascii.eqb "<")); try done;
      by apply plain_no_open.
  - unfold _stub_miscellaneous. rewrite Hk.
    change (resolve IgkExtremeLogTuner m_stub_miscellaneous)
      with (Some IgkExtremeLogTuner).
    unfold Igk._stub_miscellaneous. rewrite Hfind.
    cbn [replace_each fold_left].
    apply (replace_between Re.digit); try done; by apply plain_no_digit.
Qed.

Lemma X13_igk_misc_refill_then_stub_witness :
  _stub_miscellaneous igk_instance
    "seen 8 additional times in the last 9 second" =
  "seen <times_number> additional times in the last <seconds_number> second".
Proof.
  destruct (X13_igk_misc_refill_then_stub (world_of igk_instance 7)
              "seen " "") as (_ & _ & H);
    [vm_compute; auto|reflexivity..|exact H].
Defined.

Lemma wlc_time_needs_digit c s :
  Re.digit c = false -> Re.match_at Re.wlc_time (String c s) = None.
Proof.
  intros Hc. unfold Re.match_at, Re.wlc_time. cbn [Re.matches].
  by rewrite Hc.
Qed.

Lemma wlc_timestamp_match dt rest :
  stampable dt ->
  timestamp_text CiscoWlcLogTuner dt <> "" /\
  starts_with Re.digit (timestamp_text CiscoWlcLogTuner dt) = true /\
  Re.match_at Re.wlc_time (timestamp_text CiscoWlcLogTuner dt +:+ rest) =
    Some rest.
Proof.
  intros Hdt.
  destruct (wlc_timestamp_shape dt Hdt)
    as (h1 & h2 & m1 & m2 & s1 & s2 & u1 & u2 & u3 & -> & Hd).
  repeat match goal with
         | H : Forall _ (_ :: _) |- _ => apply Forall_cons in H as [? H]
         end.
  split; [done|]. split; [done|].
  rewrite !StrFacts.app_cons, StrFacts.app_nil_l.
  unfold Re.match_at, Re.wlc_time, Re.colon, Re.dot. cbn.
  repeat match goal with
         | H : Re.digit _ = true |- _ => rewrite H; clear H; cbn
         end.
  done.
Qed.

(** ** A line of a stamped batch *)

(** In a batch of at most a billion lines that the refill of the date
    and time returns, a line that is not skipped carries the timestamp of
    a datetime that can be stamped. *)
Lemma stamped_line_of_run w lines out w' j line stamped_line :
  Z.of_nat (length lines) <= 1000000000 ->
  _replace_date_and_time_stub lines w = (Ok out, w') ->
  lines !! j = Some line ->
  out !! j = Some stamped_line ->
  skips (klass_of (obj w)) line = false ->
  exists dt,
    stampable dt /\ stamped_line = stamp (klass_of (obj w)) (obj w) dt line.
Proof.
  intros Hlen Hrun Hj Hout Hskip.
  apply replace_date_and_time_stub_inv in Hrun as [-> _].
  rewrite (stamped_lookup _ _ _ _ _ _ _ Hj), Hskip in Hout.
  injection Hout as <-. eexists. split; [|reflexivity].
  apply cursor_stampable.
  pose proof (lookup_lt_Some _ _ _ Hj).
  assert (stamped_before (klass_of (obj w)) lines j <= j)%nat.
  { unfold stamped_before. etrans; [apply length_filter|].
    rewrite length_take. lia. }
  lia.
Qed.

(** X14. A timestamp of CiscoIosLogTuner is 18 characters, three more
    than the 15 its stubber of the date and time cuts: in a batch of at
    most a billion lines, cutting the date and time of a line the refill
    has stamped leaves a dot and the two digits of the hundredths of a
    second in front of the line, and so never gives the line back. *)
Theorem X14_ios_stamp_then_stub (w : world) (lines out : list string)
    (w' : world) (j : nat) (line stamped_line : string) :
  klass_of (obj w) = CiscoIosLogTuner ->
  Z.of_nat (length lines) <= 1000000000 ->
  _replace_date_and_time_stub lines w = (Ok out, w') ->
  lines !! j = Some line ->
  out !! j = Some stamped_line ->
  Str.len stamped_line = (18 + Str.len line)%nat /\
  (exists hundredths,
     digits 2 hundredths /\
     _stub_date_and_time (obj w) stamped_line = "." +:+ hundredths +:+ line) /\
  _stub_date_and_time (obj w) stamped_line <> line.
Proof.
  intros Hk Hlen Hrun Hj Hout.
  destruct (stamped_line_of_run _ _ _ _ _ _ _ Hlen Hrun Hj Hout)
    as (dt & Hdt & ->); [by rewrite Hk|].
  rewrite Hk.
  destruct (ios_stamp_then_stub (obj w) dt line Hk Hdt) as (Hts & Hcut & Hne).
  split; [|split; [|done]].
  - change (stamp CiscoIosLogTuner (obj w) dt line)
      with (timestamp_text CiscoIosLogTuner dt +:+ line).
    by rewrite StrFacts.len_app, Hts.
  - eexists. split; [|exact Hcut].
    destruct (stampable_fields dt Hdt) as (_ & _ & _ & _ & _ & _ & Hus & _).
    destruct (digits_6_shape _ Hus)
      as (a & b & c & d & e & f & -> & Ha & Hb & _).
    split; [done|]. simpl. by rewrite Ha, Hb.
Qed.

Lemma X14_ios_stamp_then_stub_witness :
  _stub_date_and_time ios_instance "Feb 11 08:05:11.05 CET: up" <>
  " CET: up".
Proof.
  destruct (X14_ios_stamp_then_stub (world_of ios_instance 50)
              [" CET: up"] ["Feb 11 08:05:11.05 CET: up"]
              (skip 1 (world_of ios_instance 50)) 0
              " CET: up" "Feb 11 08:05:11.05 CET: up")
    as (_ & _ & H);
    [reflexivity|vm_compute; discriminate|vm_compute; reflexivity|
     reflexivity..|exact H].
Defined.

(** X15. A timestamp of CiscoWlcLogTuner is 12 characters that the
    pattern of its stubber of the date and time finds: in a batch of at
    most a billion lines, a line that has, around one datetime
    placeholder, no digit and no "<" comes out of the refill with a
    timestamp in the place of the placeholder, and the stubber gives the
    line back. *)
Theorem X15_wlc_stamp_then_stub (w : world) (lines out : list string)
    (w' : world) (j : nat) (pre post stamped_line : string) :
  constructed CiscoWlcLogTuner (obj w) ->
  Z.of_nat (length lines) <= 1000000000 ->
  _replace_date_and_time_stub lines w = (Ok out, w') ->
  lines !! j = Some (pre +:+ "<DATETIME_STUB>" +:+ post) ->
  out !! j = Some stamped_line ->
  plain pre = true -> plain post = true ->
  (exists timestamp,
     Str.len timestamp = 12%nat /\
     stamped_line = pre +:+ timestamp +:+ post /\
     Re.findall Re.wlc_time stamped_line = [timestamp]) /\
  _stub_date_and_time (obj w) stamped_line =
    pre +:+ "<DATETIME_STUB>" +:+ post.
Proof.
  intros (Hk & _ & _ & Hstub) Hlen Hrun Hj Hout Hpre Hpost.
  destruct (stamped_line_of_run _ _ _ _ _ _ _ Hlen Hrun Hj Hout)
    as (dt & Hdt & ->); [by rewrite Hk|].
  rewrite Hk. unfold stamp. rewrite Hstub.
  set (timestamp := timestamp_text CiscoWlcLogTuner dt).
  destruct (wlc_timestamp_match dt post Hdt) as (Hne & Hstart & Hmatch).
  fold timestamp in Hne, Hstart, Hmatch.
  rewrite (replace_between (Ascii.eqb "<"))
    by (try done; by apply plain_no_open).
  assert (Re.findall Re.wlc_time (pre +:+ timestamp +:+ post) = [timestamp])
    as Hfind.
  { apply (findall_between Re.digit); try done; try by apply plain_no_digit.
    intros c s. apply wlc_time_needs_digit. }
  split.
  - exists timestamp. split; [|done]. unfold timestamp.
    destruct (wlc_timestamp_shape dt Hdt)
      as (h1 & h2 & m1 & m2 & s1 & s2 & u1 & u2 & u3 & -> & _).
    reflexivity.
  - rewrite (prefix_stubber_is_drop _ _ _ Hk).
    unfold Wlc._stub_date_and_time. rewrite Hfind, Hstub.
    cbn [replace_each fold_left].
    apply (replace_between Re.digit); try done; by apply plain_no_digit.
Qed.

Lemma X15_wlc_stamp_then_stub_witness :
  _stub_date_and_time wlc_instance "at 14:14:51.705 up" =
  "at <DATETIME_STUB> up".
Proof.
  destruct (X15_wlc_stamp_then_stub (world_of wlc_instance 50)
              ["at <DATETIME_STUB> up"] ["at 14:14:51.705 up"]
              (skip 1 (world_of wlc_instance 50)) 0
              "at " " up" "at 14:14:51.705 up")
    as (_ & H);
    [vm_compute; auto|vm_compute; discriminate|vm_compute; reflexivity|
     reflexivity..|exact H].
Defined.

Lemma plain_ios_none_of (p : ascii -> bool) s :
  (forall c, p c = true ->
             Re.digit c = true \/ c = "<"%char \/ c = "V"%char \/
             c = "G"%char) ->
  plain_ios s = true -> none_of p s = true.
Proof.
  intros Hp. apply none_of_weaken. intros c Hc.
  destruct (Hp c Hc) as [->|[->|[->| ->]]]; reflexivity.
Qed.

Lemma all_digits_none_of (p : ascii -> bool) s :
  (forall c, Re.digit c = true -> p c = false) ->
  all_digits s = true -> none_of p s = true.
Proof.
  intros Hp. induction s as [|c s IH]; [done|]. cbn [all_digits none_of].
  intros [Hc Hs]%andb_prop. by rewrite IH, (Hp c Hc).
Qed.

Lemma eqb_char_digit a c :
  Re.digit a = false -> Re.digit c = true -> Ascii.eqb a c = false.
Proof.
  intros Ha Hc. destruct (Ascii.eqb_spec a c) as [->|]; [|done].
  by rewrite Hc in Ha.
Qed.

Lemma starts_with_app_no p a b :
  none_of p a = true -> starts_with p b = false ->
  starts_with p (a +:+ b) = false.
Proof. destruct a; [done|]. intros H _. by apply none_of_starts in H. Qed.

(** Nothing to replace before an occurrence that cannot start there. *)
Lemma replace_skip p c old' new count pre s :
  p c = true -> none_of p pre = true ->
  Str.replace (String c old') new count (pre +:+ s) =
  pre +:+ Str.replace (String c old') new count s.
Proof.
  intros Hc Hpre. induction pre as [|x pre IH]; [done|].
  cbn [none_of] in Hpre. apply andb_prop in Hpre as [Hx Hpre].
  rewrite (StrFacts.replace_eq _ _ _ (String x pre +:+ s)) by done.
  destruct (Z.eqb_spec count 0) as [->|].
  - rewrite (StrFacts.replace_eq _ _ 0 s) by done. done.
  - rewrite !(StrFacts.app_cons x pre). cbn [Str.strip_prefix].
    destruct (Ascii.eqb_spec c x) as [<-|_]; [by rewrite Hc in Hx|].
    by rewrite IH.
Qed.

Lemma ios_refill_text (vlan grp pre mid post : string) :
  all_digits vlan = true ->
  none_of (Ascii.eqb "<") pre = true ->
  none_of (Ascii.eqb "<") mid = true ->
  none_of (Ascii.eqb "<") post = true ->
  Str.replace "<grp>" ("Grp " +:+ grp) (-1)
    (Str.replace "<vlan>" ("Vlan" +:+ vlan) (-1)
       (pre +:+ "<vlan>" +:+ mid +:+ "<grp>" +:+ post)) =
  pre +:+ ("Vlan" +:+ vlan) +:+ mid +:+ ("Grp " +:+ grp) +:+ post.
Proof.
  intros Hv Hpre Hmid Hpost.
  rewrite (replace_first (Ascii.eqb "<") "<" "vlan>") by done.
  rewrite (replace_skip (Ascii.eqb "<") "<" "vlan>" _ _ mid) by done.
  assert (Str.replace "<vlan>" ("Vlan" +:+ vlan) (-1 - 1)
            ("<grp>" +:+ post) = "<grp>" +:+ post) as ->.
  { rewrite StrFacts.replace_eq by done.
    change ("<grp>" +:+ post) with (String "<" ("grp>" +:+ post)).
    cbn [Z.eqb Z.sub Z.add Z.opp Z.pos_sub Pos.add Pos.succ
         Str.strip_prefix Ascii.eqb Bool.eqb].
    f_equal. apply (replace_absent (Ascii.eqb "<")); [done|].
    by rewrite none_of_app, Hpost. }
  rewrite <- !StrFacts.app_assoc.
  rewrite (StrFacts.app_assoc _ "<grp>" post).
  rewrite (replace_between (Ascii.eqb "<")); try done.
  - by rewrite !StrFacts.app_assoc.
  - rewrite !none_of_app, Hpre, Hmid.
    rewrite (all_digits_none_of _ vlan); [done| |done].
    intros c Hc. by apply eqb_char_digit.
Qed.

Lemma vlan_needs_V c s :
  Ascii.eqb "V" c = false -> Re.match_at Re.vlan (String c s) = None.
Proof.
  intros Hc. unfold Re.match_at, Re.vlan.
  cbn [Re.matches Str.strip_prefix]. by rewrite Hc.
Qed.

Lemma grp_needs_G c s :
  Ascii.eqb "G" c = false -> Re.match_at Re.grp (String c s) = None.
Proof.
  intros Hc. unfold Re.match_at, Re.grp.
  cbn [Re.matches Str.strip_prefix]. by rewrite Hc.
Qed.

Lemma ios_stub_text (self : instance) (vlan grp pre mid post : string) :
  _VLAN_STUB self = "<vlan>" -> _GRP_STUB self = "<grp>" ->
  all_digits vlan = true -> vlan <> "" ->
  all_digits grp = true -> grp <> "" ->
  plain_ios pre = true -> plain_ios mid = true -> plain_ios post = true ->
  Ios._stub_miscellaneous self
    (pre +:+ ("Vlan" +:+ vlan) +:+ mid +:+ ("Grp " +:+ grp) +:+ post) =
  pre +:+ "<vlan>" +:+ mid +:+ "<grp>" +:+ post.
Proof.
  intros HV HG Hv Hv' Hg Hg' Hpre Hmid Hpost.
  assert (forall p, (forall c, p c = true -> Re.digit c = false) ->
                    none_of p vlan = true /\ none_of p grp = true)
    as Hdig.
  { intros p Hp. split; apply all_digits_none_of; try done;
      intros c Hc; destruct (p c) eqn:E; try done;
      by rewrite (Hp c E) in Hc. }
  assert (forall p, (forall c, p c = true ->
                       Re.digit c = true \/ c = "<"%char \/ c = "V"%char \/
                       c = "G"%char) ->
            none_of p pre = true /\ none_of p mid = true /\
            none_of p post = true) as Hctx.
  { intros p Hp. by repeat split; apply plain_ios_none_of. }
  destruct (Hdig (Ascii.eqb "V")) as [HvV HgV];
    [by intros c <-%Ascii.eqb_eq|].
  destruct (Hdig (Ascii.eqb "G")) as [HvG HgG];
    [by intros c <-%Ascii.eqb_eq|].
  destruct (Hctx (Ascii.eqb "V")) as (HpreV & HmidV & HpostV);
    [intros c <-%Ascii.eqb_eq; auto|].
  destruct (Hctx (Ascii.eqb "G")) as (HpreG & HmidG & HpostG);
    [intros c <-%Ascii.eqb_eq; auto|].
  destruct (Hctx Re.digit) as (_ & Hmidd & Hpostd); [auto|].
  unfold Ios._stub_miscellaneous. cbv zeta. rewrite HV, HG.
  assert (Re.findall Re.vlan
            (pre +:+ ("Vlan" +:+ vlan) +:+ mid +:+ ("Grp " +:+ grp) +:+ post)
          = ["Vlan" +:+ vlan]) as ->.
  { apply (findall_between (Ascii.eqb "V")); try done.
    - intros c s. apply vlan_needs_V.
    - rewrite StrFacts.app_assoc. unfold Re.vlan.
      eapply match_at_seq; [apply match_at_lit|].
      apply match_at_digits; try done.
      by apply starts_with_app_no.
    - by rewrite !none_of_app, HmidV, HgV, HpostV. }
  cbn [replace_each fold_left].
  rewrite (replace_between (Ascii.eqb "V")); try done;
    [|by rewrite !none_of_app, HmidV, HgV, HpostV].
  set (pre' := (pre +:+ "<vlan>") +:+ mid).
  assert (pre +:+ "<vlan>" +:+ mid +:+ ("Grp " +:+ grp) +:+ post =
          pre' +:+ ("Grp " +:+ grp) +:+ post) as ->
    by (unfold pre'; by rewrite !StrFacts.app_assoc).
  assert (pre +:+ "<vlan>" +:+ mid +:+ "<grp>" +:+ post =
          pre' +:+ "<grp>" +:+ post) as ->
    by (unfold pre'; by rewrite !StrFacts.app_assoc).
  assert (none_of (Ascii.eqb "G") pre' = true) as HpreG'
    by (unfold pre'; by rewrite !none_of_app, HpreG, HmidG).
  assert (Re.findall Re.grp (pre' +:+ ("Grp " +:+ grp) +:+ post)
          = ["Grp " +:+ grp]) as ->.
  { apply (findall_between (Ascii.eqb "G")); try done.
    - intros c s. apply grp_needs_G.
    - rewrite StrFacts.app_assoc. unfold Re.grp.
      eapply match_at_seq; [apply match_at_lit|].
      apply match_at_digits; try done. by apply none_of_starts. }
  cbn [replace_each fold_left].
  by rewrite (replace_between (Ascii.eqb "G")).
Qed.

(** X16. The texts the miscellaneous refill of CiscoIosLogTuner puts in
    the place of its two placeholders are what its stubber looks for: in
    a line that has, around one VLAN placeholder and one group
    placeholder after it, no digit and none of "<", "V" and "G", the
    refill followed by [_stub_miscellaneous] gives the line back. *)
Theorem X16_ios_misc_refill_then_stub (w : world) (pre mid post : string) :
  constructed CiscoIosLogTuner (obj w) ->
  plain_ios pre = true -> plain_ios mid = true -> plain_ios post = true ->
  let line := pre +:+ "<vlan>" +:+ mid +:+ "<grp>" +:+ post in
  let refilled :=
    pre +:+ ("Vlan" +:+ str (1 + draw w 0 mod 5000)) +:+ mid +:+
    ("Grp " +:+ str (1 + draw w 1 mod 300)) +:+ post in
  _replace_miscellaneous_stub line w = (Ok refilled, skip 2 w) /\
  _stub_miscellaneous (obj w) refilled = line.
Proof.
  intros (Hk & _ & HV & HG) Hpre Hmid Hpost line refilled.
  set (vlan := 1 + draw w 0 mod 5000) in *.
  set (grp := 1 + draw w 1 mod 300) in *.
  destruct (str_digits vlan) as [Hv Hv'];
    [pose proof (Z.mod_pos_bound (draw w 0) 5000); lia|].
  destruct (str_digits grp) as [Hg Hg'];
    [pose proof (Z.mod_pos_bound (draw w 1) 300); lia|].
  split.
  - unfold _replace_miscellaneous_stub, mbind, M_bind, get_self.
    rewrite Hk.
    change (resolve CiscoIosLogTuner m_replace_miscellaneous_stub)
      with (Some CiscoIosLogTuner).
    unfold Ios._replace_miscellaneous_stub, mbind, M_bind, get_self.
    change (randint 1 5000 w) with (Ok vlan, skip 1 w). cbv beta iota.
    change (randint 1 300 (skip 1 w)) with (Ok grp, skip 1 (skip 1 w)).
    cbv beta iota. rewrite skip_skip. unfold mret, M_ret. do 2 f_equal.
    rewrite HV, HG. apply ios_refill_text; [done|..];
      apply plain_ios_none_of; try done; intros c <-%Ascii.eqb_eq; auto.
  - unfold _stub_miscellaneous. rewrite Hk.
    change (resolve CiscoIosLogTuner m_stub_miscellaneous)
      with (Some CiscoIosLogTuner).
    by apply ios_stub_text.
Qed.

Lemma X16_ios_misc_refill_then_stub_witness :
  _stub_miscellaneous ios_instance " CET: Vlan8 Grp 9 state" =
  " CET: <vlan> <grp> state".
Proof.
  destruct (X16_ios_misc_refill_then_stub (world_of ios_instance 7)
              " CET: " " " " state") as (_ & H);
    [vm_compute; auto|reflexivity..|exact H].
Defined.

(** ** Lines written and read again *)

Lemma rev_app a b : String.rev (a +:+ b) = String.rev b +:+ String.rev a.
Proof.
  induction a as [|c a IH].
  - by rewrite StrFacts.app_nil_l, StrFacts.app_nil_r.
  - by rewrite StrFacts.app_cons, !rev_cons, IH, StrFacts.app_assoc.
Qed.

Lemma rev_rev s : String.rev (String.rev s) = s.
Proof.
  induction s as [|c s IH]; [done|]. by rewrite rev_cons, rev_app, IH.
Qed.

(** Reading goes through the characters of a line up to its newline. *)
Lemma readlines_go_body cur body rest :
  no_newline body = true ->
  readlines_go cur (body +:+ rest) =
  readlines_go (String.rev body +:+ cur) rest.
Proof.
  revert cur. induction body as [|c body IH]; intros cur Hbody; [done|].
  cbn [no_newline] in Hbody. apply andb_prop in Hbody as [Hc Hbody].
  rewrite StrFacts.app_cons. cbn [readlines_go].
  destruct (Ascii.eqb c "010"); [done|].
  by rewrite IH, rev_cons, StrFacts.app_assoc.
Qed.

Lemma readlines_go_closed l rest :
  closed_line l -> readlines (l +:+ rest) = l :: readlines rest.
Proof.
  intros (body & Hbody & ->). unfold readlines.
  rewrite StrFacts.app_assoc, readlines_go_body, StrFacts.app_nil_r by done.
  unfold nl. rewrite StrFacts.app_cons. cbn [readlines_go Ascii.eqb Bool.eqb].
  by rewrite rev_cons, rev_rev.
Qed.

Lemma readlines_open l :
  l <> "" -> no_newline l = true -> readlines l = [l].
Proof.
  intros Hl Hnl. unfold readlines.
  rewrite <- (StrFacts.app_nil_r l) at 1.
  rewrite readlines_go_body, StrFacts.app_nil_r by done.
  cbn [readlines_go]. rewrite rev_rev.
  destruct (String.rev l) eqn:E; [|done].
  apply (f_equal String.rev) in E. rewrite rev_rev in E. done.
Qed.

Lemma readlines_lines_of_file ls :
  lines_of_file ls -> readlines (Str.join "" ls) = ls.
Proof.
  induction ls as [|l rest IH]; [done|]. intros Hls.
  destruct rest as [|l' rest].
  - change (Str.join "" [l]) with l. destruct Hls as [Hl|[Hl Hnl]].
    + rewrite <- (StrFacts.app_nil_r l) at 1. by rewrite readlines_go_closed.
    + by apply readlines_open.
  - destruct Hls as [Hl Hrest].
    rewrite join_empty_cons, readlines_go_closed by done.
    by rewrite IH.
Qed.

(** X17. What [writelines] puts in a file, [readlines] gives back: when
    every line ends with its only newline (the last may have none, and is
    not empty then), the write succeeds on a path that can be opened for
    writing, and whenever it has succeeded, reading the file returns the
    same lines. *)
Theorem X17_write_then_read (path : string) (ls : list string) (w : world) :
  lines_of_file ls ->
  (can_open_for_writing w path = true ->
   exists w', write_file_lines path ls w = (Ok tt, w')) /\
  (forall w',
     write_file_lines path ls w = (Ok tt, w') ->
     read_file_lines path w' = (Ok ls, w')).
Proof.
  intros Hls. unfold write_file_lines. split.
  - intros ->. by eexists.
  - intros w'. destruct (can_open_for_writing w path); [|done].
    intros [= <-]. unfold read_file_lines. cbn [fs].
    rewrite lookup_insert_eq. by rewrite readlines_lines_of_file.
Qed.

Lemma X17_write_then_read_witness :
  exists w',
    write_file_lines "out" ["a" +:+ nl; "b"] (world_of igk_instance 0) =
      (Ok tt, w') /\
    read_file_lines "out" w' = (Ok ["a" +:+ nl; "b"], w').
Proof.
  destruct (X17_write_then_read "out" ["a" +:+ nl; "b"]
              (world_of igk_instance 0)) as [Hwrite Hread].
  { split; [by exists "a"|]. right. by split. }
  destruct (Hwrite eq_refl) as [w' Hw']. exists w'. split; [done|].
  by apply Hread.
Defined.

(** ** What the IP stubber takes for an address *)

Lemma dotted_quad_match a b c d rest :
  Forall (fun s => all_digits s = true /\ s <> "") [a; b; c; d] ->
  starts_with Re.digit rest = false ->
  Re.match_at Re.ip_address (Str.join "." [a; b; c; d] +:+ rest) = Some rest.
Proof.
  intros H Hrest. rewrite !Forall_cons in H.
  destruct H as ((? & ?) & (? & ?) & (? & ?) & (? & ?) & _).
  change (Str.join "." [a; b; c; d])
    with (a +:+ "." +:+ b +:+ "." +:+ c +:+ "." +:+ d).
  rewrite !StrFacts.app_assoc. unfold Re.ip_address.
  eapply match_at_seq; [by apply match_at_digits|].
  do 3 (eapply match_at_times_S;
        [eapply match_at_seq;
         [apply match_at_lit|by apply match_at_digits]|]).
  reflexivity.
Qed.

(** X18. [_stub_ip_addresses] takes any four runs of digits joined by
    dots for an address, whatever their lengths and values: between
    texts without digits such a text is replaced by the IP placeholder
    as a whole. *)
Theorem X18_stub_any_dotted_quad (self : instance)
    (a b c d pre post : string) :
  Forall (fun s => all_digits s = true /\ s <> "") [a; b; c; d] ->
  none_of Re.digit pre = true -> none_of Re.digit post = true ->
  Re.findall Re.ip_address (pre +:+ Str.join "." [a; b; c; d] +:+ post) =
    [Str.join "." [a; b; c; d]] /\
  _stub_ip_addresses self (pre +:+ Str.join "." [a; b; c; d] +:+ post) =
    pre +:+ _IP_ADDRESS_STUB self +:+ post.
Proof.
  intros Hquad Hpre Hpost.
  assert (starts_with Re.digit (Str.join "." [a; b; c; d]) = true) as Hstart.
  { pose proof Hquad as Hq. rewrite Forall_cons in Hq.
    destruct Hq as [[Ha Ha'] _].
    change (Str.join "." [a; b; c; d])
      with (a +:+ "." +:+ b +:+ "." +:+ c +:+ "." +:+ d).
    rewrite starts_with_app by done. by apply all_digits_starts. }
  assert (Re.findall Re.ip_address
            (pre +:+ Str.join "." [a; b; c; d] +:+ post) =
          [Str.join "." [a; b; c; d]]) as Hfind.
  { apply (findall_between Re.digit); try done.
    - intros x s. apply no_match_without_digit.
      rewrite !elem_of_cons. auto.
    - by destruct (Str.join "." [a; b; c; d]).
    - apply dotted_quad_match; [done|]. by apply none_of_starts. }
  split; [done|].
  unfold _stub_ip_addresses, Base._stub_ip_addresses. rewrite Hfind.
  cbn [replace_each fold_left].
  by apply (replace_between Re.digit).
Qed.

Lemma X18_stub_any_dotted_quad_witness :
  _stub_ip_addresses igk_instance "v 999.1234.0.56 up" =
  "v <IP_ADDRESS_STUB> up".
Proof.
  destruct (X18_stub_any_dotted_quad igk_instance "999" "1234" "0" "56"
              "v " " up") as (_ & H); [|reflexivity..|exact H].
  repeat constructor; done.
Defined.

(** * The claims on the stubbers *)

(** ** C3: the limit of 10 replacements *)














(** ** C4: the stubbers on lines without their pattern *)

Lemma len_drop n s : Str.len (Str.drop n s) = (Str.len s - n)%nat.
Proof.
  revert n. induction s as [|c s IH]; intros [|n]; try done.
  cbn [Str.drop]. rewrite IH. done.
Qed.

Lemma drop_changes n s : (0 < n)%nat -> s <> "" -> Str.drop n s <> s.
Proof.
  intros Hn Hs H. apply (f_equal Str.len) in H. rewrite len_drop in H.
  destruct s; [done|]. unfold Str.len in H. simpl in H. lia.
Qed.

(** The stubber of the date and time of IgkExtremeLogTuner changes a
    line that is not blank and holds no date, no time and no digit at
    all: it cuts its first 22 characters like those of any other line. *)
Lemma C4_counterexample_line_without_datetime :
  let line := "the link of the port is now up" +:+ nl in
  Str.blank line = false /\
  none_of Re.digit line = true /\
  Forall (fun r => Re.search r line = false)
    [Re.ip_address; Re.last_seconds; Re.wlc_time; Re.mac_address;
     Re.vlan; Re.grp] /\
  _stub_date_and_time igk_instance line = "s now up" +:+ nl /\
  ~ (forall self line,
       none_of Re.digit line = true -> _stub_date_and_time self line = line).
Proof.
  intros line. split; [reflexivity|]. split; [reflexivity|].
  split; [repeat constructor|]. split; [reflexivity|].
  intros H. generalize (H igk_instance line eq_refl). vm_compute.
  discriminate.
Qed.

(** C4 (amended). Every stubber that looks for a pattern (the IP stubber
    of every class, the miscellaneous stubbers, the date and time stubber
    of CiscoWlcLogTuner, and the stubbers of [LogTuner], which look for
    nothing) is the identity on a line with no occurrence of its
    patterns, hence on every empty or white-space-only line.  The two
    others, the date and time stubbers of IgkExtremeLogTuner and of
    CiscoIosLogTuner, look for no pattern: from a line that is not blank
    they cut the first 22, respectively 15, characters, whatever these
    are, and so change it.  Every stubber of every class is the identity
    on the empty line. *)
Theorem C4_stubbers_identity (s : stubber) (self : instance) (line : string) :
  (forall rs,
     target_patterns (klass_of self) s = Some rs ->
     (Forall (fun r => Re.search r line = false) rs ->
      run_stubber s self line = line) /\
     (Str.blank line = true -> run_stubber s self line = line)) /\
  (target_patterns (klass_of self) s = None <->
   s = stub_date_and_time /\
   (klass_of self = IgkExtremeLogTuner \/
    klass_of self = CiscoIosLogTuner)) /\
  (klass_of self = IgkExtremeLogTuner -> Str.blank line = false ->
   run_stubber stub_date_and_time self line = Str.drop 22 line /\
   run_stubber stub_date_and_time self line <> line) /\
  (klass_of self = CiscoIosLogTuner -> Str.blank line = false ->
   run_stubber stub_date_and_time self line = Str.drop 15 line /\
   run_stubber stub_date_and_time self line <> line) /\
  (forall s', run_stubber s' self "" = "").
Proof.
  split; [|split; [|split; [|split]]].
  - intros rs Hrs. split.
    + by apply stubber_no_target.
    + intros Hblank. apply (stubber_no_target s self line rs Hrs).
      apply Forall_forall. intros r Hr. apply blank_no_target; [|done].
      revert Hrs Hr. destruct s, (klass_of self); simpl; intros [= <-];
        rewrite ?elem_of_cons, ?elem_of_nil; intros Hr;
        repeat (destruct Hr as [->|Hr]); try done; set_solver.
  - destruct s, (klass_of self); simpl; split;
      (done || intuition congruence).
  - intros Hk Hblank. cbn [run_stubber].
    rewrite (prefix_stubber_is_drop _ _ _ Hk). split; [done|].
    apply drop_changes; [lia|]. by intros ->.
  - intros Hk Hblank. cbn [run_stubber].
    rewrite (prefix_stubber_is_drop _ _ _ Hk). split; [done|].
    apply drop_changes; [lia|]. by intros ->.
  - intros s'. unfold run_stubber, _stub_date_and_time, _stub_ip_addresses,
      _stub_miscellaneous. by destruct s', (klass_of self).
Qed.

Lemma C4_stubbers_identity_witness :
  run_stubber stub_miscellaneous ios_instance
    ("  no counters here " +:+ nl) = "  no counters here " +:+ nl /\
  run_stubber stub_miscellaneous ios_instance (" " +:+ nl) = " " +:+ nl /\
  run_stubber stub_date_and_time ios_instance
    ("Apr 14 14:09:06 CET: up" +:+ nl) = " CET: up" +:+ nl.
Proof.
  split; [|split].
  - destruct (C4_stubbers_identity stub_miscellaneous ios_instance
                ("  no counters here " +:+ nl)) as (H & _).
    destruct (H [Re.vlan; Re.grp] eq_refl) as [H' _].
    apply H'. repeat constructor.
  - destruct (C4_stubbers_identity stub_miscellaneous ios_instance
                (" " +:+ nl)) as (H & _).
    destruct (H [Re.vlan; Re.grp] eq_refl) as [_ H'].
    apply H'. reflexivity.
  - destruct (C4_stubbers_identity stub_date_and_time ios_instance
                ("Apr 14 14:09:06 CET: up" +:+ nl)) as (_ & _ & _ & H & _).
    destruct (H eq_refl eq_refl) as [H' _]. exact H'.
Defined.
